(** * elf_diff: the binary introspection pipeline ([elf_diff/binary.py])

    A shallow embedding of [Mangling], [SymbolCollector] and [Binary] of
    [src/elf_diff/binary.py], and the properties its specification states
    about them.

    Conventions of the embedding.
    - A Python [str] is a [string]; a character is a code point below 256
      (its Latin-1 reading), which is the range the character classes
      below are written out for.
    - A pattern of [re] is an expression of type [Re.regex], matched by a
      backtracking matcher that lists the matches in the order [re] tries
      them; the text of each pattern is kept next to its expression.
    - The objects of class [Symbol] live in a store ([heap]); a
      dictionary or an attribute that holds a [Symbol] holds its address.
    - A method that mutates [self] and may raise is a function from the
      state to a result that keeps the state reached when it raised.
    - The external tools and the file system are read through an
      environment ([Env]); every tool invocation is logged.
    - [elf_diff/symbol.py], [settings.py] and [error_handling.py] are not
      among the sources: what [binary.py] uses of them is modelled from
      the specification, and [Symbol.init] is a parameter. *)

From Stdlib Require Import String Ascii List ZArith Lia Bool.
From stdpp Require Import gmap strings list fin_maps sorting.

Set Warnings "-clear-no-such-hyp".

Local Open Scope string_scope.
Local Open Scope list_scope.

(** ** Characters and the classes of Python's [re] and [str] *)

Module Char.

Definition code (c : ascii) : nat := nat_of_ascii c.

Definition between (lo hi : nat) (c : ascii) : bool :=
  (lo <=? code c)%nat && (code c <=? hi)%nat.

(** [str.isspace] on one character, which is also [\s] of a [str]
    pattern: TAB, LF, VT, FF, CR, FS, GS, RS, US, SPACE, NEL, NBSP. *)
Definition is_space (c : ascii) : bool :=
  between 9 13 c || between 28 32 c
  || (code c =? 133)%nat || (code c =? 160)%nat.

(** [[0-9]], which below code point 256 is also [\d]. *)
Definition is_digit (c : ascii) : bool := between 48 57 c.

(** [[0-9a-f]] *)
Definition is_lower_hex (c : ascii) : bool :=
  is_digit c || between 97 102 c.

(** [[0-9A-Fa-f]] *)
Definition is_hex (c : ascii) : bool :=
  is_lower_hex c || between 65 70 c.

(** [\w] of a [str] pattern: alphanumeric or underscore. *)
Definition is_word (c : ascii) : bool :=
  is_digit c || between 65 90 c || between 97 122 c
  || (code c =? 95)%nat
  || (code c =? 170)%nat || (code c =? 178)%nat || (code c =? 179)%nat
  || (code c =? 181)%nat || (code c =? 185)%nat || (code c =? 186)%nat
  || between 188 190 c || between 192 214 c || between 216 246 c
  || between 248 255 c.

Definition LF : ascii := ascii_of_nat 10.
Definition CR : ascii := ascii_of_nat 13.

(** [.] without DOTALL: anything but a line feed. *)
Definition is_dot (c : ascii) : bool := negb (code c =? 10)%nat.

(** The line boundaries of [str.splitlines]. *)
Definition is_linebreak (c : ascii) : bool :=
  between 10 13 c || between 28 30 c || (code c =? 133)%nat.

End Char.

(** ** Regular expressions: the fragment of [re] the module uses *)

Module Re.

Inductive regex : Type :=
| Eps
| Chr (c : ascii)
| Cls (p : ascii -> bool)
| Cat (r1 r2 : regex)
| Alt (r1 r2 : regex)
| Star (r : regex)
| Group (n : nat) (r : regex)
| Bol
| Eol.

Fixpoint Lit (s : string) : regex :=
  match s with
  | EmptyString => Eps
  | String c s' => Cat (Chr c) (Lit s')
  end.

Definition Plus (r : regex) : regex := Cat r (Star r).
Definition Opt (r : regex) : regex := Alt r Eps.

Fixpoint Seq (rs : list regex) : regex :=
  match rs with
  | [] => Eps
  | r :: rs' => Cat r (Seq rs')
  end.

Definition space := Cls Char.is_space.
Definition nonspace := Cls (fun c => negb (Char.is_space c)).
Definition digit := Cls Char.is_digit.
Definition hex := Cls Char.is_hex.
Definition lower_hex := Cls Char.is_lower_hex.
Definition word := Cls Char.is_word.
Definition dot := Cls Char.is_dot.

(** A position of the backtracking matcher: how many characters lie
    before it, the text still ahead, and the groups closed so far
    (most recent first). *)
Record mstate : Type := MState {
  m_pos : nat;
  m_rest : list ascii;
  m_caps : list (nat * string)
}.

Definition advance (st : mstate) (r : list ascii) : mstate :=
  MState (S (m_pos st)) r (m_caps st).

Definition close_group (n : nat) (st0 st1 : mstate) : mstate :=
  MState (m_pos st1) (m_rest st1)
    ((n, string_of_list_ascii
           (take (m_pos st1 - m_pos st0) (m_rest st0))) :: m_caps st1).

(** Greedy iteration; an iteration that consumes nothing is not
    repeated. *)
Fixpoint star (f : mstate -> list mstate) (fuel : nat) (st : mstate)
  : list mstate :=
  match fuel with
  | O => [st]
  | S k =>
      flat_map
        (fun st' =>
           if (length (m_rest st') <? length (m_rest st))%nat
           then star f k st' else [])
        (f st) ++ [st]
  end.

(** All the ways [r] matches at [st], in the order a backtracking
    matcher tries them: the first one is the match [re] reports. *)
Fixpoint ms (r : regex) (st : mstate) : list mstate :=
  match r with
  | Eps => [st]
  | Chr c =>
      match m_rest st with
      | c' :: t => if Ascii.eqb c c' then [advance st t] else []
      | [] => []
      end
  | Cls p =>
      match m_rest st with
      | c' :: t => if p c' then [advance st t] else []
      | [] => []
      end
  | Cat r1 r2 => flat_map (ms r2) (ms r1 st)
  | Alt r1 r2 => ms r1 st ++ ms r2 st
  | Star r' => star (ms r') (S (length (m_rest st))) st
  | Group n r' => map (close_group n st) (ms r' st)
  | Bol => if (m_pos st =? 0)%nat then [st] else []
  | Eol =>
      match m_rest st with
      | [] => [st]
      | [c] => if Ascii.eqb c Char.LF then [st] else []
      | _ => []
      end
  end.

(** A match object: where it ends and what the groups hold. *)
Record Match : Type := MkMatch {
  m_start : nat;
  m_end : nat;
  m_groups : list (nat * string)
}.

Fixpoint lookup_group (n : nat) (caps : list (nat * string))
  : option string :=
  match caps with
  | [] => None
  | (k, s) :: caps' => if (k =? n)%nat then Some s else lookup_group n caps'
  end.

(** [m.group(n)]; [None] for a group that took no part in the match. *)
Definition group (m : Match) (n : nat) : option string :=
  lookup_group n (m_groups m).

Definition match_at (r : regex) (i : nat) (s : list ascii) : option Match :=
  match ms r (MState i (drop i s) []) with
  | st :: _ => Some (MkMatch i (m_pos st) (m_caps st))
  | [] => None
  end.

(** [re.match(r, s)] *)
Definition re_match (r : regex) (s : string) : option Match :=
  match_at r 0 (list_ascii_of_string s).

Fixpoint search_from (r : regex) (s : list ascii) (i fuel : nat)
  : option Match :=
  match match_at r i s with
  | Some m => Some m
  | None =>
      match fuel with
      | O => None
      | S k => search_from r s (S i) k
      end
  end.

(** [re.search(r, s)] *)
Definition re_search (r : regex) (s : string) : option Match :=
  let l := list_ascii_of_string s in search_from r l 0 (length l).

(** [re.sub(r, repl, s)] for an [r] that matches no empty string:
    the text between matches is copied, every match is replaced by
    the expansion of the template. *)
Fixpoint sub_from (r : regex) (repl : Match -> string) (s : list ascii)
    (i fuel : nat) : string :=
  match fuel with
  | O => string_of_list_ascii (drop i s)
  | S k =>
      match search_from r s i (length s - i) with
      | Some m =>
          string_of_list_ascii (take (m_start m - i) (drop i s))
          +:+ repl m
          +:+ (if (i <? m_end m)%nat then sub_from r repl s (m_end m) k
               else string_of_list_ascii (drop i s))
      | None => string_of_list_ascii (drop i s)
      end
  end.

Definition re_sub (r : regex) (repl : Match -> string) (s : string)
  : string :=
  let l := list_ascii_of_string s in sub_from r repl l 0 (S (length l)).

(** A template's [\n]: the text of group [n], empty when unset. *)
Definition backref (m : Match) (n : nat) : string :=
  default "" (group m n).

End Re.

(** ** Python values and built-ins *)

(** A dynamically typed value, where the code stores an [int], a [str]
    or [None] in the same place. *)
Inductive pyval : Type :=
| PyNone
| PyInt (z : Z)
| PyStr (s : string).

#[global] Instance pyval_eq_dec : EqDecision pyval.
Proof. solve_decision. Defined.

#[global] Instance pyval_countable : Countable pyval.
Proof.
  refine (inj_countable'
    (fun v => match v with
              | PyNone => inl ()
              | PyInt z => inr (inl z)
              | PyStr s => inr (inr s)
              end)
    (fun x => match x with
              | inl _ => PyNone
              | inr (inl z) => PyInt z
              | inr (inr s) => PyStr s
              end) _).
  by intros [].
Defined.

Definition is_str (v : pyval) : bool :=
  match v with PyStr _ => true | _ => false end.

(** The exceptions the module raises itself or lets through. *)
Inductive exn : Type :=
| Exception (msg : string)
| ValueError (arg : string)
| AttributeError
| OSError (cmd : list string).

Module Py.

Fixpoint splitlines_from (cur : list ascii) (s : list ascii)
  : list string :=
  match s with
  | [] =>
      match cur with
      | [] => []
      | _ => [string_of_list_ascii (rev cur)]
      end
  | c :: t =>
      if Char.is_linebreak c then
        string_of_list_ascii (rev cur) ::
          (if Ascii.eqb c Char.CR then
             match t with
             | c' :: t' =>
                 if Ascii.eqb c' Char.LF then splitlines_from [] t'
                 else splitlines_from [] t
             | [] => splitlines_from [] t
             end
           else splitlines_from [] t)
      else splitlines_from (c :: cur) t
  end.

(** [s.splitlines()] *)
Definition splitlines (s : string) : list string :=
  splitlines_from [] (list_ascii_of_string s).

(** [s.isspace()] *)
Definition isspace (s : string) : bool :=
  match list_ascii_of_string s with
  | [] => false
  | l => forallb Char.is_space l
  end.

Fixpoint lstrip (l : list ascii) : list ascii :=
  match l with
  | c :: t => if Char.is_space c then lstrip t else l
  | [] => []
  end.

Definition strip (l : list ascii) : list ascii :=
  rev (lstrip (rev (lstrip l))).

Definition digit_value (c : ascii) : Z := Z.of_nat (Char.code c) - 48.

(** The digits of a decimal literal; an underscore may stand between
    two digits. *)
Fixpoint digits (acc : Z) (after_digit : bool) (l : list ascii)
  : option Z :=
  match l with
  | [] => if after_digit then Some acc else None
  | c :: t =>
      if Char.is_digit c then digits (10 * acc + digit_value c) true t
      else if Ascii.eqb c "_" && after_digit then
        match t with
        | c' :: _ => if Char.is_digit c' then digits acc false t else None
        | [] => None
        end
      else None
  end.

(** [int(s)] in base ten; [None] stands for [ValueError]. The
    interpreter's limit on the number of digits is left out. *)
Definition int (s : string) : option Z :=
  match strip (list_ascii_of_string s) with
  | c :: t =>
      if Ascii.eqb c "-" then Z.opp <$> digits 0 false t
      else if Ascii.eqb c "+" then digits 0 false t
      else digits 0 false (c :: t)
  | [] => None
  end.

(** The order of [sorted] on [str]: code point by code point. *)
Definition sorted (l : list string) : list string :=
  merge_sort (fun a b => Is_true (String.leb a b)) l.

End Py.

(** ** The data model *)

(** The address of a [Symbol] object in the store. *)
Definition loc : Type := nat.

(** Modelled from the spec: class [Symbol] ([elf_diff/symbol.py] is not
    among the sources). The attributes are the ones the specification
    lists and [binary.py] reads or assigns; [symbol_size] is the
    attribute [size]. *)
Record Symbol : Type := MkSymbol {
  name_mangled : string;
  name : string;
  is_demangled : bool;
  symbol_size : Z;
  type_ : string;
  instruction_lines : list string;
  source_id : pyval;
  source_line : option Z;
  source_column : option Z
}.

Definition set_symbol_size (v : Z) (s : Symbol) : Symbol :=
  MkSymbol (name_mangled s) (name s) (is_demangled s) v (type_ s)
    (instruction_lines s) (source_id s) (source_line s) (source_column s).

Definition set_type_ (v : string) (s : Symbol) : Symbol :=
  MkSymbol (name_mangled s) (name s) (is_demangled s) (symbol_size s) v
    (instruction_lines s) (source_id s) (source_line s) (source_column s).

Definition set_instruction_lines (v : list string) (s : Symbol) : Symbol :=
  MkSymbol (name_mangled s) (name s) (is_demangled s) (symbol_size s)
    (type_ s) v (source_id s) (source_line s) (source_column s).

Definition set_source_id (v : pyval) (s : Symbol) : Symbol :=
  MkSymbol (name_mangled s) (name s) (is_demangled s) (symbol_size s)
    (type_ s) (instruction_lines s) v (source_line s) (source_column s).

Definition set_source_line (v : option Z) (s : Symbol) : Symbol :=
  MkSymbol (name_mangled s) (name s) (is_demangled s) (symbol_size s)
    (type_ s) (instruction_lines s) (source_id s) v (source_column s).

Definition set_source_column (v : option Z) (s : Symbol) : Symbol :=
  MkSymbol (name_mangled s) (name s) (is_demangled s) (symbol_size s)
    (type_ s) (instruction_lines s) (source_id s) (source_line s) v.

(** Modelled from the spec: the constructor of the class that
    [getSymbolType(settings.language)] selects. It keeps the three names
    it is given; the instruction sequence starts empty and the source
    location unset. Size and kind are assigned by the caller right after
    the call. *)
Definition symbol_type (symbol_name_mangled symbol_name : string)
    (symbol_name_is_demangled : bool) : Symbol :=
  MkSymbol symbol_name_mangled symbol_name symbol_name_is_demangled
    0 "?" [] PyNone None None.

(** Modelled from the spec: [Symbol.addInstructions], the
    instruction-append operation. *)
Definition addInstructions (instruction_line : string) (s : Symbol)
  : Symbol :=
  set_instruction_lines (instruction_lines s ++ [instruction_line]) s.

#[global] Instance Symbol_inhabited : Inhabited Symbol :=
  populate (symbol_type "" "" false).

Record SourceFile : Type := MkSourceFile {
  sf_filename : string;
  sf_id_ : pyval
}.

(** Modelled from the spec: the part of [Settings]
    ([elf_diff/settings.py]) that [binary.py] reads. *)
Record Settings : Type := MkSettings {
  language : string;
  objdump_command : string;
  nm_command : string;
  readelf_command : string;
  size_command : string
}.

(** What lies outside the program: the files, and what a command prints
    on its standard output, or that it could not be started. *)
Record Env : Type := MkEnv {
  isfile : string -> bool;
  read_file : string -> string;
  popen : list string -> string + exn
}.

(** [Mangling]: [mangling_dict] is the attribute [mangling]. *)
Record Mangling : Type := MkMangling {
  mangling_file : option string;
  mangling_dict : option (gmap string string)
}.

Module Mangling.

(** The loop of [_setupMangling]: lines come in pairs, the mangled
    name and then the demangled one. *)
Fixpoint read_pairs (lines : list string) (line_id : nat)
    (mangled_symbol : string) (d : gmap string string)
  : gmap string string :=
  match lines with
  | [] => d
  | line :: lines' =>
      if (line_id =? 0)%nat
      then read_pairs lines' ((line_id + 1) mod 2) line d
      else read_pairs lines' ((line_id + 1) mod 2) mangled_symbol
             (<[mangled_symbol := line]> d)
  end.

Definition _setupMangling (env : Env) (mangling_file : option string)
  : option (gmap string string) :=
  match mangling_file with
  | None => None
  | Some f =>
      if negb (isfile env f) then None
      else Some (read_pairs (Py.splitlines (read_file env f)) 0 "" ∅)
  end.

Definition __init__ (env : Env) (mangling_file : option string)
  : Mangling :=
  MkMangling mangling_file (_setupMangling env mangling_file).

(** Try to demangle a symbol *)
Definition demangle (self : Mangling) (symbol_name : string)
  : string * bool :=
  match mangling_dict self with
  | None => (symbol_name, false)
  | Some d =>
      match d !! symbol_name with
      | Some demangled => (demangled, true)
      | None => (symbol_name, false)
      end
  end.

End Mangling.

(** The attributes of a [Binary]. [symbols] and [source_files] hold
    addresses and keys; the objects are in the store. *)
Record Binary : Type := MkBinary {
  settings : Settings;
  filename : string;
  mangling : option Mangling;
  binutils_work : bool;
  text_size : Z;
  data_size : Z;
  bss_size : Z;
  overall_size : Z;
  progmem_size : Z;
  static_ram_size : Z;
  file_format : option string;
  symbol_selection_regex_compiled : option Re.regex;
  symbol_exclusion_regex_compiled : option Re.regex;
  source_files : gmap pyval SourceFile;
  symbols : gmap string loc;
  num_symbols_dropped : Z;
  instructions_available : option bool
}.

Definition set_binutils_work (v : bool) (b : Binary)
  : Binary :=
  MkBinary (settings b) (filename b) (mangling b) v (text_size b)
    (data_size b) (bss_size b) (overall_size b) (progmem_size b)
    (static_ram_size b) (file_format b)
    (symbol_selection_regex_compiled b)
    (symbol_exclusion_regex_compiled b) (source_files b) (symbols b)
    (num_symbols_dropped b) (instructions_available b).

Definition set_text_size (v : Z) (b : Binary)
  : Binary :=
  MkBinary (settings b) (filename b) (mangling b) (binutils_work b) v
    (data_size b) (bss_size b) (overall_size b) (progmem_size b)
    (static_ram_size b) (file_format b)
    (symbol_selection_regex_compiled b)
    (symbol_exclusion_regex_compiled b) (source_files b) (symbols b)
    (num_symbols_dropped b) (instructions_available b).

Definition set_data_size (v : Z) (b : Binary)
  : Binary :=
  MkBinary (settings b) (filename b) (mangling b) (binutils_work b)
    (text_size b) v (bss_size b) (overall_size b) (progmem_size b)
    (static_ram_size b) (file_format b)
    (symbol_selection_regex_compiled b)
    (symbol_exclusion_regex_compiled b) (source_files b) (symbols b)
    (num_symbols_dropped b) (instructions_available b).

Definition set_bss_size (v : Z) (b : Binary)
  : Binary :=
  MkBinary (settings b) (filename b) (mangling b) (binutils_work b)
    (text_size b) (data_size b) v (overall_size b) (progmem_size b)
    (static_ram_size b) (file_format b)
    (symbol_selection_regex_compiled b)
    (symbol_exclusion_regex_compiled b) (source_files b) (symbols b)
    (num_symbols_dropped b) (instructions_available b).

Definition set_overall_size (v : Z) (b : Binary)
  : Binary :=
  MkBinary (settings b) (filename b) (mangling b) (binutils_work b)
    (text_size b) (data_size b) (bss_size b) v (progmem_size b)
    (static_ram_size b) (file_format b)
    (symbol_selection_regex_compiled b)
    (symbol_exclusion_regex_compiled b) (source_files b) (symbols b)
    (num_symbols_dropped b) (instructions_available b).

Definition set_progmem_size (v : Z) (b : Binary)
  : Binary :=
  MkBinary (settings b) (filename b) (mangling b) (binutils_work b)
    (text_size b) (data_size b) (bss_size b) (overall_size b) v
    (static_ram_size b) (file_format b)
    (symbol_selection_regex_compiled b)
    (symbol_exclusion_regex_compiled b) (source_files b) (symbols b)
    (num_symbols_dropped b) (instructions_available b).

Definition set_static_ram_size (v : Z) (b : Binary)
  : Binary :=
  MkBinary (settings b) (filename b) (mangling b) (binutils_work b)
    (text_size b) (data_size b) (bss_size b) (overall_size b)
    (progmem_size b) v (file_format b) (symbol_selection_regex_compiled b)
    (symbol_exclusion_regex_compiled b) (source_files b) (symbols b)
    (num_symbols_dropped b) (instructions_available b).

Definition set_file_format (v : option string) (b : Binary)
  : Binary :=
  MkBinary (settings b) (filename b) (mangling b) (binutils_work b)
    (text_size b) (data_size b) (bss_size b) (overall_size b)
    (progmem_size b) (static_ram_size b) v
    (symbol_selection_regex_compiled b)
    (symbol_exclusion_regex_compiled b) (source_files b) (symbols b)
    (num_symbols_dropped b) (instructions_available b).

Definition set_source_files (v : gmap pyval SourceFile) (b : Binary)
  : Binary :=
  MkBinary (settings b) (filename b) (mangling b) (binutils_work b)
    (text_size b) (data_size b) (bss_size b) (overall_size b)
    (progmem_size b) (static_ram_size b) (file_format b)
    (symbol_selection_regex_compiled b)
    (symbol_exclusion_regex_compiled b) v (symbols b)
    (num_symbols_dropped b) (instructions_available b).

Definition set_symbols (v : gmap string loc) (b : Binary)
  : Binary :=
  MkBinary (settings b) (filename b) (mangling b) (binutils_work b)
    (text_size b) (data_size b) (bss_size b) (overall_size b)
    (progmem_size b) (static_ram_size b) (file_format b)
    (symbol_selection_regex_compiled b)
    (symbol_exclusion_regex_compiled b) (source_files b) v
    (num_symbols_dropped b) (instructions_available b).

Definition set_num_symbols_dropped (v : Z) (b : Binary)
  : Binary :=
  MkBinary (settings b) (filename b) (mangling b) (binutils_work b)
    (text_size b) (data_size b) (bss_size b) (overall_size b)
    (progmem_size b) (static_ram_size b) (file_format b)
    (symbol_selection_regex_compiled b)
    (symbol_exclusion_regex_compiled b) (source_files b) (symbols b) v
    (instructions_available b).

Definition set_instructions_available (v : option bool) (b : Binary)
  : Binary :=
  MkBinary (settings b) (filename b) (mangling b) (binutils_work b)
    (text_size b) (data_size b) (bss_size b) (overall_size b)
    (progmem_size b) (static_ram_size b) (file_format b)
    (symbol_selection_regex_compiled b)
    (symbol_exclusion_regex_compiled b) (source_files b) (symbols b)
    (num_symbols_dropped b) v.

(** What the program shares with its surroundings: the store of
    [Symbol] objects, the warnings handed to [error_handling.warning],
    the lines printed, and the commands run. *)
Record World : Type := MkWorld {
  heap : list Symbol;
  warnings : list string;
  stdout : list string;
  tool_calls : list (list string)
}.

Definition set_heap (v : list Symbol) (w : World) : World :=
  MkWorld v (warnings w) (stdout w) (tool_calls w).

Definition set_warnings (v : list string) (w : World) : World :=
  MkWorld (heap w) v (stdout w) (tool_calls w).

Definition set_stdout (v : list string) (w : World) : World :=
  MkWorld (heap w) (warnings w) v (tool_calls w).

Definition set_tool_calls (v : list (list string)) (w : World) : World :=
  MkWorld (heap w) (warnings w) (stdout w) v.

Record State : Type := MkState {
  self : Binary;
  world : World
}.

(** ** Methods that mutate and raise *)

Inductive Res (S A : Type) : Type :=
| Ok (a : A) (s : S)
| Raised (e : exn) (s : S).

Arguments Ok {S A} a s.
Arguments Raised {S A} e s.

Definition M (S A : Type) : Type := S -> Res S A.

Definition ret {S A} (a : A) : M S A := fun s => Ok a s.

Definition bind {S A B} (c : M S A) (k : A -> M S B) : M S B :=
  fun s =>
    match c s with
    | Ok a s' => k a s'
    | Raised e s' => Raised e s'
    end.

Definition raise {S A} (e : exn) : M S A := fun s => Raised e s.

Definition gets {S A} (f : S -> A) : M S A := fun s => Ok (f s) s.

Definition modify {S} (f : S -> S) : M S unit := fun s => Ok tt (f s).

Declare Scope py_scope.
Delimit Scope py_scope with py.

Notation "x <- c ;; k" := (bind c (fun x => k))
  (at level 20, c at level 99, k at level 200, only parsing) : py_scope.
Notation "c ;; k" := (bind c (fun _ => k))
  (at level 100, k at level 200, only parsing, right associativity)
  : py_scope.

Local Open Scope py_scope.

(** [for x in l: body x] *)
Fixpoint for_each {S A} (l : list A) (body : A -> M S unit) : M S unit :=
  match l with
  | [] => ret tt
  | x :: l' => body x ;; for_each l' body
  end.

Definition state_of {S A} (r : Res S A) : S :=
  match r with
  | Ok _ s => s
  | Raised _ s => s
  end.

Definition raised {S A} (r : Res S A) : option exn :=
  match r with
  | Ok _ _ => None
  | Raised e _ => Some e
  end.

(** [self.attr = v] *)
Definition assign {V} (set : V -> Binary -> Binary) (v : V)
  : M State unit :=
  modify (fun s => MkState (set v (self s)) (world s)).

Definition update_world (f : World -> World) : M State unit :=
  modify (fun s => MkState (self s) (f (world s))).

(** Modelled from the spec: [error_handling.warning], which hands a
    non-fatal warning to the process-wide registry. *)
Definition warning (msg : string) : M State unit :=
  update_world (fun w => set_warnings (warnings w ++ [msg]) w).

Definition print (line : string) : M State unit :=
  update_world (fun w => set_stdout (stdout w ++ [line]) w).

(** [int(s)] *)
Definition int {S} (s : string) : M S Z :=
  match Py.int s with
  | Some z => ret z
  | None => raise (ValueError s)
  end.

(** [m.group(n)] for a group that took part in the match, which every
    group read in this module did. *)
Definition group (m : Re.Match) (n : nat) : string := Re.backref m n.

(** The object at an address, and an update of it in place. Every
    address the program holds was allocated, so the default of the
    lookup is never returned. *)
Definition deref (h : list Symbol) (l : loc) : Symbol := h !!! l.

Definition update_at (l : loc) (f : Symbol -> Symbol) (h : list Symbol)
  : list Symbol :=
  alter f l h.

(** ** Source highlighting tags *)

Definition SOURCE_CODE_START_TAG : string := "...ED_SOURCE_START...".
Definition SOURCE_CODE_END_TAG : string := "...ED_SOURCE_END...".

(** Tag the start and end of source code *)
Definition preHighlightSourceCode (src : string) : string :=
  SOURCE_CODE_START_TAG +:+ src +:+ SOURCE_CODE_END_TAG.

(** ** [SymbolCollector] *)

Record SymbolCollector : Type := MkSymbolCollector {
  cur_symbol : option loc;
  sc_symbols : list loc;
  n_instruction_lines : Z
}.

Module SymbolCollector.

(** Each pattern is given as the text handed to [re.compile] and as
    the expression it denotes. *)
Definition header_line_pattern : string :=
  "^(0x)?[0-9A-Fa-f]+ <(.+)>:".

Definition header_line_re : Re.regex :=
  Re.Seq [Re.Bol; Re.Opt (Re.Group 1 (Re.Lit "0x")); Re.Plus Re.hex;
          Re.Lit " <"; Re.Group 2 (Re.Plus Re.dot); Re.Lit ">:"].

Definition instruction_line_pattern : string :=
  "^\s*[0-9A-Fa-f]+:\s*((?:\s*[0-9a-fA-F]{2})+)\s+(.*)\s*".

Definition instruction_line_re : Re.regex :=
  Re.Seq [Re.Bol; Re.Star Re.space; Re.Plus Re.hex; Re.Chr ":";
          Re.Star Re.space;
          Re.Group 1 (Re.Plus (Re.Seq [Re.Star Re.space; Re.hex; Re.hex]));
          Re.Plus Re.space; Re.Group 2 (Re.Star Re.dot);
          Re.Star Re.space].

Definition retq_pattern : string := "(^.*\sc3\s+)retq(.*)$".

Definition retq_re : Re.regex :=
  Re.Seq [Re.Group 1 (Re.Seq [Re.Bol; Re.Star Re.dot; Re.space;
                              Re.Lit "c3"; Re.Plus Re.space]);
          Re.Lit "retq"; Re.Group 2 (Re.Star Re.dot); Re.Eol].

Definition retq_template : string := "\1ret\2".

Definition retq_repl (m : Re.Match) : string :=
  Re.backref m 1 +:+ "ret" +:+ Re.backref m 2.

Definition __init__ : SymbolCollector := MkSymbolCollector None [] 0.

(** Submit the most recent symbol that was collected *)
Definition _submitSymbol (c : SymbolCollector) : SymbolCollector :=
  match cur_symbol c with
  | Some l =>
      MkSymbolCollector None (sc_symbols c ++ [l]) (n_instruction_lines c)
  | None => c
  end.

(** Check a line read from a file and process it if it is a symbol
    header line. A [Symbol] object is true in a condition. *)
Definition _checkSymbolHeaderLine (binary : Binary) (line : string)
    (c : SymbolCollector) : bool * SymbolCollector :=
  match Re.re_match header_line_re line with
  | Some header_match =>
      let c1 := if cur_symbol c is Some _ then _submitSymbol c else c in
      let symbol_name_mangled := group header_match 2 in
      let c2 :=
        match symbols binary !! symbol_name_mangled with
        | Some l =>
            MkSymbolCollector (Some l) (sc_symbols c1)
              (n_instruction_lines c1)
        | None => c1
        end in
      (true, c2)
  | None => (false, c)
  end.

Definition _unifyX86InstructionLine (line : string) : string :=
  Re.re_sub retq_re retq_repl line.

(** Fixup the assembly output by objdump in a way that it is the same
    for all versions of objdump *)
Definition _unifyInstructionLine (binary : Binary) (line : string)
  : string :=
  if decide (file_format binary = Some "elf64-x86-64")
  then _unifyX86InstructionLine line
  else line.

(** The body of the loop of [_gatherSymbolInstructions], on the
    collector and the store of the symbols it appends to. *)
Definition gather_line (binary : Binary) (line : string)
    (st : SymbolCollector * list Symbol) : SymbolCollector * list Symbol :=
  let '(c, h) := st in
  let unified_line := _unifyInstructionLine binary line in
  let '(is_header_line, c1) :=
    _checkSymbolHeaderLine binary unified_line c in
  if is_header_line then (c1, h)
  else
    let instruction_line_match :=
      Re.re_match instruction_line_re unified_line in
    let c2 :=
      if instruction_line_match is Some _
      then MkSymbolCollector (cur_symbol c1) (sc_symbols c1)
             (n_instruction_lines c1 + 1)
      else c1 in
    match cur_symbol c2 with
    | Some l =>
        match instruction_line_match with
        | Some m => (c2, update_at l (addInstructions (group m 2)) h)
        | None =>
            if (0 <? String.length unified_line)%nat
               && negb (Py.isspace unified_line)
            then (c2, update_at l
                        (addInstructions
                           (preHighlightSourceCode unified_line)) h)
            else (c2, h)
        end
    | None => (c2, h)
    end.

(** Gather the symbol instructions of a symbol *)
Definition _gatherSymbolInstructions (binary : Binary)
    (objdump_output : string) (st : SymbolCollector * list Symbol)
  : SymbolCollector * list Symbol :=
  let '(c, h) :=
    fold_left (fun st line => gather_line binary line st)
      (Py.splitlines objdump_output) st in
  (if cur_symbol c is Some _ then _submitSymbol c else c, h).

End SymbolCollector.

(** ** [Binary] *)

(** The parser state of [Binary._DebugInformationCollector]. *)
Record DebugInformationCollector : Type := MkDebugInformationCollector {
  _header_id : pyval;
  _header_tag : option string;
  _name_mangled : option string;
  _source_id : pyval;
  _source_line : option Z;
  _source_column : option Z
}.

Module Binary.

Definition size_pattern : string :=
  "^\s*([0-9]+)\s+([0-9]+)\s+([0-9]+)\s+([0-9]+)".

Definition size_re : Re.regex :=
  Re.Seq [Re.Bol; Re.Star Re.space;
          Re.Group 1 (Re.Plus Re.digit); Re.Plus Re.space;
          Re.Group 2 (Re.Plus Re.digit); Re.Plus Re.space;
          Re.Group 3 (Re.Plus Re.digit); Re.Plus Re.space;
          Re.Group 4 (Re.Plus Re.digit)].

Definition file_format_pattern : string := "file format\s+(\S+)".

Definition file_format_re : Re.regex :=
  Re.Seq [Re.Lit "file format"; Re.Plus Re.space;
          Re.Group 1 (Re.Plus Re.nonspace)].

Definition nm_pattern : string :=
  "^[0-9A-Fa-f]+\s([0-9A-Fa-f]+)\s(\w)\s(.+)".

Definition nm_regex : Re.regex :=
  Re.Seq [Re.Bol; Re.Plus Re.hex; Re.space;
          Re.Group 1 (Re.Plus Re.hex); Re.space;
          Re.Group 2 Re.word; Re.space;
          Re.Group 3 (Re.Plus Re.dot)].

Section Methods.

(** The file system and the tools. *)
Variable env : Env.

(** [Symbol.init], the finalize/initialize step of a symbol; the
    sources do not hold it and the specification leaves its effect
    open. *)
Variable symbol_init : Symbol -> Symbol.

(** [subprocess.Popen(cmd, ...)], [communicate] and the decoding of
    the standard output. *)
Definition run (cmd : list string) : M State string :=
  update_world (fun w => set_tool_calls (tool_calls w ++ [cmd]) w) ;;
  match popen env cmd with
  | inl output => ret output
  | inr e => raise e
  end.

Definition _registerSourceFile (filename : string) (id_ : pyval)
  : M State SourceFile :=
  let new_source_file := MkSourceFile filename id_ in
  b <- gets self ;;
  assign set_source_files (<[id_ := new_source_file]> (source_files b)) ;;
  ret new_source_file.

(** Read the output of the objdump command applied to the binary *)
Definition _readObjdumpDisassemblyOutput : M State string :=
  b <- gets self ;;
  run [objdump_command (settings b); "-drwS"; filename b].

Definition _readObjdumpArchiveHeadersOutput : M State string :=
  b <- gets self ;;
  run [objdump_command (settings b); "-a"; filename b].

(** Read the output of the nm command applied to the binary *)
Definition _readNMOutput (demangle : bool) : M State string :=
  let demangle_token := if demangle then "-C" else "" in
  b <- gets self ;;
  run [nm_command (settings b); "--print-size"; "--size-sort";
       "--radix=d"; demangle_token; filename b].

Definition _readReadelfOutput : M State string :=
  b <- gets self ;;
  run [readelf_command (settings b); "--debug-dump=info"; filename b].

Definition _readSizeOutput : M State string :=
  b <- gets self ;;
  run [size_command (settings b); filename b].

(** Add a new symbol to the collection of symbols associated with
    the binary *)
Definition _addSymbol (symbol : loc) : M State unit :=
  update_world (fun w => set_heap (update_at symbol symbol_init (heap w)) w) ;;
  h <- gets (fun s => heap (world s)) ;;
  b <- gets self ;;
  assign set_symbols (<[name_mangled (deref h symbol) := symbol]> (symbols b)).

(** Check if a symbol is selected via a regex *)
Definition _isSymbolSelected (b : Binary) (symbol_name : string) : bool :=
  let excluded :=
    match symbol_exclusion_regex_compiled b with
    | Some r => if Re.re_match r symbol_name is Some _ then true else false
    | None => false
    end in
  if excluded then false
  else
    match symbol_selection_regex_compiled b with
    | None => true
    | Some r => if Re.re_match r symbol_name is Some _ then true else false
    end.

(** The loop of [_determineSymbolSizes]; it stops at the first line
    that matches and tells whether there was one. *)
Fixpoint size_lines (lines : list string) : M State bool :=
  match lines with
  | [] => ret false
  | line :: lines' =>
      match Re.re_match size_re line with
      | Some size_match =>
          text <- int (group size_match 1) ;;
          assign set_text_size text ;;
          data <- int (group size_match 2) ;;
          assign set_data_size data ;;
          bss <- int (group size_match 3) ;;
          assign set_bss_size bss ;;
          overall <- int (group size_match 4) ;;
          assign set_overall_size overall ;;
          b <- gets self ;;
          assign set_progmem_size (text_size b + data_size b)%Z ;;
          b <- gets self ;;
          assign set_static_ram_size (data_size b + bss_size b)%Z ;;
          ret true
      | None => size_lines lines'
      end
  end.

(** Determine the sizes of symbols *)
Definition _determineSymbolSizes : M State unit :=
  size_output <- _readSizeOutput ;;
  sizes_sucessfully_determined <- size_lines (Py.splitlines size_output) ;;
  if negb sizes_sucessfully_determined then
    warning "Unable to determine resource consumptions. Is the proper size utility used?" ;;
    assign set_binutils_work false
  else ret tt.

(** Generate a symbol based on a symbol name but only if the symbol
    is intented to be selected. The new object is put in the store
    and its address returned. *)
Definition _generateSymbol (symbol_name_mangled
    symbol_name_possibly_demangled : string)
    (symbol_name_is_demangled : bool) : M State (option loc) :=
  b <- gets self ;;
  if _isSymbolSelected b symbol_name_possibly_demangled then
    h <- gets (fun s => heap (world s)) ;;
    update_world (fun w =>
      set_heap (heap w ++ [symbol_type symbol_name_mangled
                             symbol_name_possibly_demangled
                             symbol_name_is_demangled]) w) ;;
    ret (Some (length h))
  else
    assign set_num_symbols_dropped (num_symbols_dropped b + 1)%Z ;;
    ret None.

(** Try to demangle a symbol name *)
Definition demangle (b : Binary)
    (symbol_name_with_mangling_state_unknown : string) : string * bool :=
  let from_map :=
    match mangling b with
    | Some m =>
        let '(symbol_name_demangled, was_demangled) :=
          Mangling.demangle m symbol_name_with_mangling_state_unknown in
        if was_demangled then Some (symbol_name_demangled, true) else None
    | None => None
    end in
  match from_map with
  | Some result => result
  | None =>
      if binutils_work b
      then (symbol_name_with_mangling_state_unknown, true)
      else (symbol_name_with_mangling_state_unknown, false)
  end.

(** Get information about the architecture of the binary *)
Definition _determineBinaryFileFormat : M State unit :=
  objdump_output <- _readObjdumpArchiveHeadersOutput ;;
  b <- gets self ;;
  match Re.re_search file_format_re objdump_output with
  | Some file_format_match =>
      assign set_file_format (Some (group file_format_match 1)) ;;
      print ("File format of binary " +:+ filename b +:+ ": "
             +:+ group file_format_match 1)
  | None =>
      print ("Unable to detect binary file format of " +:+ filename b)
  end.

(** Gather the instructions associated with a symbol *)
Definition _gatherSymbolInstructions : M State unit :=
  objdump_output <- _readObjdumpDisassemblyOutput ;;
  b <- gets self ;;
  h <- gets (fun s => heap (world s)) ;;
  let '(symbol_collector, h') :=
    SymbolCollector._gatherSymbolInstructions b objdump_output
      (SymbolCollector.__init__, h) in
  update_world (set_heap h') ;;
  for_each (sc_symbols symbol_collector) _addSymbol ;;
  assign set_instructions_available
    (Some (0 <? length (sc_symbols symbol_collector))%nat) ;;
  if (n_instruction_lines symbol_collector =? 0)%Z then
    warning ("Unable to read assembly from binary '" +:+ filename b
             +:+ "'.")
  else ret tt.

(** [obj.attr = v] for the [Symbol] at an address. *)
Definition set_attr (l : loc) (f : Symbol -> Symbol) : M State unit :=
  update_world (fun w => set_heap (update_at l f (heap w)) w).

(** The body of the loop of [_gatherSymbolProperties]. [None.group]
    is the [AttributeError] of a demangled line that does not match
    where the mangled one does. *)
Definition nm_line (line_mangled line_demangled : string)
  : M State unit :=
  let nm_match_mangled := Re.re_match nm_regex line_mangled in
  let nm_match_demangled := Re.re_match nm_regex line_demangled in
  match nm_match_mangled with
  | Some mm =>
      let symbol_size_str := group mm 1 in
      let symbol_type := group mm 2 in
      let symbol_name_mangled := group mm 3 in
      symbol_name_with_mangling_state_unknown <-
        match nm_match_demangled with
        | Some md => ret (group md 3)
        | None => raise AttributeError
        end ;;
      b <- gets self ;;
      let '(symbol_name_possibly_demangled, symbol_name_is_demangled) :=
        demangle b symbol_name_with_mangling_state_unknown in
      match symbols b !! symbol_name_mangled with
      | None =>
          data_symbol <- _generateSymbol symbol_name_mangled
                           symbol_name_possibly_demangled
                           symbol_name_is_demangled ;;
          match data_symbol with
          | Some l =>
              sz <- int symbol_size_str ;;
              set_attr l (set_symbol_size sz) ;;
              set_attr l (set_type_ symbol_type) ;;
              _addSymbol l
          | None => ret tt
          end
      | Some l =>
          sz <- int symbol_size_str ;;
          set_attr l (set_symbol_size sz) ;;
          set_attr l (set_type_ symbol_type)
      end
  | None => ret tt
  end.

(** Gather the properties of a symbol *)
Definition _gatherSymbolProperties : M State unit :=
  nm_output_mangled <- _readNMOutput false ;;
  nm_output_demangled <- _readNMOutput true ;;
  assign set_num_symbols_dropped 0%Z ;;
  for_each
    (zip (Py.splitlines nm_output_mangled)
         (Py.splitlines nm_output_demangled))
    (fun '(line_mangled, line_demangled) =>
       nm_line line_mangled line_demangled).

End Methods.

Module _DebugInformationCollector.

Definition header_line_pattern : string :=
  "\s*<[0-9a-f]+>\s*<[0-9a-f]+>:\s+Abbrev Number:\s*(\d+)\s+\((\w+)\).*".

Definition _header_line_regex : Re.regex :=
  Re.Seq [Re.Star Re.space; Re.Chr "<"; Re.Plus Re.lower_hex; Re.Chr ">";
          Re.Star Re.space; Re.Chr "<"; Re.Plus Re.lower_hex; Re.Lit ">:";
          Re.Plus Re.space; Re.Lit "Abbrev Number:"; Re.Star Re.space;
          Re.Group 1 (Re.Plus Re.digit); Re.Plus Re.space; Re.Chr "(";
          Re.Group 2 (Re.Plus Re.word); Re.Chr ")"; Re.Star Re.dot].

Definition info_line_pattern : string :=
  "\s*<[0-9a-f]+>\s+(\S+)\s*:\s*(\S.*)".

Definition _info_line_regex : Re.regex :=
  Re.Seq [Re.Star Re.space; Re.Chr "<"; Re.Plus Re.lower_hex; Re.Chr ">";
          Re.Plus Re.space; Re.Group 1 (Re.Plus Re.nonspace);
          Re.Star Re.space; Re.Chr ":"; Re.Star Re.space;
          Re.Group 2 (Re.Cat Re.nonspace (Re.Star Re.dot))].

Definition name_pattern : string := ".*\s+(\S+)".

Definition _name_regex : Re.regex :=
  Re.Seq [Re.Star Re.dot; Re.Plus Re.space;
          Re.Group 1 (Re.Plus Re.nonspace)].

Definition _source_file_regex : Re.regex := _name_regex.

Definition D : Type := (DebugInformationCollector * State)%type.

Definition __init__ : DebugInformationCollector :=
  MkDebugInformationCollector PyNone None None PyNone None None.

(** A method of the binary, called from the collector. *)
Definition on_binary {A} (c : M State A) : M D A :=
  fun '(d, s) =>
    match c s with
    | Ok a s' => Ok a (d, s')
    | Raised e s' => Raised e (d, s')
    end.

Definition update_collector
    (f : DebugInformationCollector -> DebugInformationCollector)
  : M D unit :=
  modify (fun '(d, s) => (f d, s)).

Definition copy_source (d : DebugInformationCollector) (symbol : Symbol)
  : Symbol :=
  set_source_column (_source_column d)
    (set_source_line (_source_line d)
       (set_source_id (_source_id d) symbol)).

Definition _flushSymbolInfo : M D unit :=
  d <- gets fst ;;
  b <- gets (fun ds => self (snd ds)) ;;
  match _name_mangled d with
  | Some name_mangled =>
      match symbols b !! name_mangled with
      | Some symbol => on_binary (set_attr symbol (copy_source d))
      | None => ret tt
      end
  | None => ret tt
  end ;;
  update_collector (fun d =>
    MkDebugInformationCollector (_header_id d) (_header_tag d)
      None PyNone None None).

(** The body of the loop of [parseReadelfOutput]. *)
Definition parse_line (line : string) : M D unit :=
  match Re.re_match _header_line_regex line with
  | Some header_line_match =>
      update_collector (fun d =>
        MkDebugInformationCollector
          (PyStr (group header_line_match 1))
          (Some (group header_line_match 2))
          (_name_mangled d) (_source_id d) (_source_line d)
          (_source_column d)) ;;
      _flushSymbolInfo
  | None =>
      match Re.re_match _info_line_regex line with
      | Some info_line_match =>
          let tag := group info_line_match 1 in
          let add_info := group info_line_match 2 in
          if decide (tag = "DW_AT_linkage_name") then
            match Re.re_match _name_regex add_info with
            | None =>
                raise (Exception ("Undeciferable info line '" +:+ line
                                  +:+ "'"))
            | Some name_match =>
                update_collector (fun d =>
                  MkDebugInformationCollector (_header_id d)
                    (_header_tag d) (Some (group name_match 1))
                    (_source_id d) (_source_line d) (_source_column d))
            end
          else if decide (tag = "DW_AT_decl_file") then
            v <- int add_info ;;
            update_collector (fun d =>
              MkDebugInformationCollector (_header_id d) (_header_tag d)
                (_name_mangled d) (PyInt v) (_source_line d)
                (_source_column d))
          else if decide (tag = "DW_AT_decl_line") then
            v <- int add_info ;;
            update_collector (fun d =>
              MkDebugInformationCollector (_header_id d) (_header_tag d)
                (_name_mangled d) (_source_id d) (Some v)
                (_source_column d))
          else if decide (tag = "DW_AT_decl_column") then
            v <- int add_info ;;
            update_collector (fun d =>
              MkDebugInformationCollector (_header_id d) (_header_tag d)
                (_name_mangled d) (_source_id d) (_source_line d)
                (Some v))
          else if decide (tag = "DW_AT_name") then
            d <- gets fst ;;
            if decide (_header_tag d = Some "DW_TAG_compile_unit") then
              match Re.re_match _source_file_regex add_info with
              | None =>
                  raise (Exception
                    "Unable to determine source filename from dwarf output")
              | Some source_file_match =>
                  let source_filename := group source_file_match 1 in
                  let source_id := _header_id d in
                  on_binary
                    (_registerSourceFile source_filename source_id) ;;
                  ret tt
              end
            else ret tt
          else ret tt
      | None => ret tt
      end
  end.

Definition parseReadelfOutput (readelf_output : string) : M D unit :=
  for_each (Py.splitlines readelf_output) parse_line ;;
  (* There might be a last ungoing data set being parsed *)
  _flushSymbolInfo.

End _DebugInformationCollector.

Section Construction.

Variable env : Env.
Variable symbol_init : Symbol -> Symbol.

Definition _gatherDebugInformation : M State unit :=
  readelf_output <- _readReadelfOutput env ;;
  fun s =>
    match _DebugInformationCollector.parseReadelfOutput readelf_output
            (_DebugInformationCollector.__init__, s) with
    | Ok _ (_, s') => Ok tt s'
    | Raised e (_, s') => Raised e s'
    end.

Definition _initSymbols : M State unit :=
  b <- gets self ;;
  for_each (Py.sorted (map fst (map_to_list (symbols b))))
    (fun symbol_name_mangled =>
       b <- gets self ;;
       match symbols b !! symbol_name_mangled with
       | Some symbol => set_attr symbol symbol_init
       | None => ret tt
       end).

(** Parse symbols from the binary *)
Definition _parseSymbols : M State unit :=
  _determineSymbolSizes env ;;
  _gatherSymbolProperties env symbol_init ;;
  _gatherSymbolInstructions env symbol_init ;;
  _gatherDebugInformation ;;
  _initSymbols.

(** Init binary object. The patterns are given compiled; the
    attributes assigned before the two checks are set in the state
    the checks run in, [source_files] and [symbols] are assigned
    after them. *)
Definition __init__ (settings : Settings) (filename : string)
    (symbol_selection_regex symbol_exclusion_regex : option Re.regex)
    (mangling : option Mangling) (w : World) : Res State unit :=
  let b0 :=
    MkBinary settings filename mangling true 0 0 0 0 0 0 None
      symbol_selection_regex symbol_exclusion_regex ∅ ∅ 0 None in
  ((if decide (filename = "")
    then raise (Exception "No binary filename defined")
    else ret tt) ;;
   (if negb (isfile env filename)
    then raise (Exception ("Unable to find filename " +:+ filename))
    else ret tt) ;;
   assign set_source_files ∅ ;;
   assign set_symbols ∅ ;;
   assign set_num_symbols_dropped 0%Z ;;
   _determineBinaryFileFormat env ;;
   _parseSymbols) (MkState b0 w).

End Construction.

End Binary.

(** ** Vocabulary of the specification *)

(** [re.match(r, s)] taken as a condition: a match object is true. *)
Definition matches (r : Re.regex) (s : string) : bool :=
  if Re.re_match r s is Some _ then true else false.

(** The priority chain of the demangling resolver, as the specification
    words it: the mangling map first, then the tool's own demangling if
    the tools are reliable, else the name as it came. *)
Definition demangle_chain (map : option (gmap string string))
    (tools_reliable : bool) (candidate : string) : string * bool :=
  match map ≫= (fun d => d !! candidate) with
  | Some mapped => (mapped, true)
  | None => if tools_reliable then (candidate, true) else (candidate, false)
  end.

(** The mangling map a binary is configured with, if any. *)
Definition configured_map (b : Binary) : option (gmap string string) :=
  mangling b ≫= mangling_dict.

(** The selection filter, as the specification words it. *)
Definition excluded (b : Binary) (symbol_name : string) : bool :=
  match symbol_exclusion_regex_compiled b with
  | Some r => matches r symbol_name
  | None => false
  end.

Definition included (b : Binary) (symbol_name : string) : bool :=
  match symbol_selection_regex_compiled b with
  | Some r => matches r symbol_name
  | None => true
  end.

(** A file system with the single file [a.elf] and tools that print
    nothing, used to run the construction on concrete inputs. *)
Definition quiet_env : Env :=
  MkEnv (fun f => String.eqb f "a.elf") (fun _ => "") (fun _ => inl "").

Definition default_settings : Settings :=
  MkSettings "c++" "objdump" "nm" "readelf" "size".

Definition empty_world : World := MkWorld [] [] [] [].

(** What a match consumed: [st'] lies [length run] characters after
    [st], the characters [run], and holds the same groups. *)
Definition consumed (st st' : Re.mstate) (run : list ascii) : Prop :=
  Re.m_rest st = run ++ Re.m_rest st'
  ∧ Re.m_pos st' = Re.m_pos st + length run
  ∧ Re.m_caps st' = Re.m_caps st.




Definition newline : string := String Char.LF "".
Definition tab : string := String (ascii_of_nat 9) "".

(** The binary a construction starts from, before any phase ran. *)
Definition blank_binary (settings : Settings) (filename : string) : Binary :=
  MkBinary settings filename None true 0 0 0 0 0 0 None None None ∅ ∅ 0 None.

Definition blank_state : State :=
  MkState (blank_binary default_settings "a.elf") empty_world.

(** Scenario A: a size tool that prints its heading and one line of
    four numbers. *)
Definition scenario_A_output : string :=
  "   text    data     bss     dec     hex filename" +:+ newline
  +:+ "100 50 20 170" +:+ newline.

Definition scenario_A_env : Env :=
  MkEnv (fun _ => true) (fun _ => "") (fun _ => inl scenario_A_output).

(** The lines of a disassembly, as the collector classifies them after
    normalization: a header line, a header line that names a symbol of
    the table, and an instruction line (one that is no header line and
    that the instruction pattern matches). *)
Definition header_line (b : Binary) (line : string) : bool :=
  matches SymbolCollector.header_line_re
    (SymbolCollector._unifyInstructionLine b line).

Definition known_header (b : Binary) (line : string) : bool :=
  match Re.re_match SymbolCollector.header_line_re
          (SymbolCollector._unifyInstructionLine b line) with
  | Some m => bool_decide (is_Some (symbols b !! group m 2))
  | None => false
  end.

Definition instruction_line (b : Binary) (line : string) : bool :=
  negb (header_line b line)
  && matches SymbolCollector.instruction_line_re
       (SymbolCollector._unifyInstructionLine b line).

(** The running total of recognized instruction lines. *)
Definition recognized_instruction_lines (b : Binary) (lines : list string)
  : Z :=
  Z.of_nat (length (filter (fun l => instruction_line b l = true) lines)).

Definition assembly_warning (b : Binary) : string :=
  "Unable to read assembly from binary '" +:+ filename b +:+ "'.".

(** The collector has a symbol to hand over. *)
Definition holds_symbol (c : SymbolCollector) : bool :=
  (if cur_symbol c is Some _ then true else false)
  || (0 <? length (sc_symbols c))%nat.

(** Every entry of the symbol table is stored under the mangled name of
    the object it points to, and points into the store. *)
Definition names_consistent (s : State) : Prop :=
  ∀ k l, symbols (self s) !! k = Some l →
    l < length (heap (world s))
    ∧ name_mangled (deref (heap (world s)) l) = k.

(** The addresses a collector holds are entries of the table. *)
Definition collector_in_table (b : Binary) (c : SymbolCollector) : Prop :=
  ∀ l, cur_symbol c = Some l ∨ l ∈ sc_symbols c →
    ∃ k, symbols b !! k = Some l.

(** The command that disassembles, and the one that dumps the debug
    information. *)
Definition disassembly_command (b : Binary) : list string :=
  [objdump_command (settings b); "-drwS"; filename b].

Definition readelf_command_line (b : Binary) : list string :=
  [readelf_command (settings b); "--debug-dump=info"; filename b].

(** Two stores of the same length whose objects carry the same mangled
    names, address by address. *)
Definition same_names (h h' : list Symbol) : Prop :=
  length h' = length h
  ∧ ∀ l, name_mangled (deref h' l) = name_mangled (deref h l).

(** The state [_addSymbol] leaves. *)
Definition added (symbol_init : Symbol → Symbol) (s : State) (l : loc)
  : State :=
  let h' := update_at l symbol_init (heap (world s)) in
  MkState
    (set_symbols (<[name_mangled (deref h' l) := l]> (symbols (self s)))
       (self s))
    (set_heap h' (world s)).

(** What the collector finds in a disassembly, started afresh on the
    store of a state. *)
Definition collected (s : State) (out : string)
  : SymbolCollector * list Symbol :=
  SymbolCollector._gatherSymbolInstructions (self s) out
    (SymbolCollector.__init__, heap (world s)).

(** The state [Binary._gatherSymbolInstructions] leaves when the
    disassembler printed [out]. *)
Definition disassembled (symbol_init : Symbol → Symbol) (s : State)
    (out : string) : State :=
  let ch := collected s out in
  let s2 :=
    fold_left (added symbol_init) (sc_symbols ch.1)
      (MkState (self s)
         (set_heap ch.2
            (set_tool_calls
               (tool_calls (world s) ++ [disassembly_command (self s)])
               (world s)))) in
  let s3 :=
    MkState
      (set_instructions_available
         (Some (0 <? length (sc_symbols ch.1))%nat) (self s2))
      (world s2) in
  if (n_instruction_lines ch.1 =? 0)%Z
  then MkState (self s3)
         (set_warnings (warnings (world s3) ++ [assembly_warning (self s)])
            (world s3))
  else s3.

(** The reading of the flag the specification gives: false, with a
    warning, when no instruction line was recognized, and true when at
    least one was. *)
Definition flag_follows_line_count (env : Env)
    (symbol_init : Symbol → Symbol) (s : State) (out : string) : Prop :=
  let r := Binary._gatherSymbolInstructions env symbol_init s in
  let total := recognized_instruction_lines (self s) (Py.splitlines out) in
  (total = 0%Z →
   instructions_available (self (state_of r)) = Some false
   ∧ assembly_warning (self s) ∈ warnings (world (state_of r)))
  ∧ ((0 < total)%Z →
     instructions_available (self (state_of r)) = Some true).

(** A state after property extraction with the single symbol [foo]. *)
Definition foo_state : State :=
  MkState
    (set_symbols {[ "foo" := 0 ]} (blank_binary default_settings "a.elf"))
    (MkWorld [symbol_type "foo" "foo" true] [] [] []).

(** A disassembly that is one header line and nothing else, and one
    that is one instruction line under no header. *)
Definition header_only_output : string :=
  "0000000000001000 <foo>:" +:+ newline.

Definition instruction_only_output : string :=
  "1000:" +:+ tab +:+ "c3" +:+ tab +:+ "ret" +:+ newline.

Definition printing (out : string) : Env :=
  MkEnv (fun _ => true) (fun _ => "") (fun _ => inl out).

(** The state [nm_line] leaves after it created the symbol of a new
    mangled name, and after it overwrote size and kind of a known one. *)
Definition created (symbol_init : Symbol → Symbol) (s : State)
    (symbol_name_mangled display_name : string) (demangled : bool)
    (sz : Z) (kind : string) : State :=
  let symbol :=
    symbol_init
      (set_type_ kind
         (set_symbol_size sz
            (symbol_type symbol_name_mangled display_name demangled))) in
  MkState
    (set_symbols
       (<[name_mangled symbol := length (heap (world s))]> (symbols (self s)))
       (self s))
    (set_heap (heap (world s) ++ [symbol]) (world s)).

Definition overwritten (s : State) (l : loc) (sz : Z) (kind : string)
  : State :=
  MkState (self s)
    (set_heap
       (update_at l (set_type_ kind)
          (update_at l (set_symbol_size sz) (heap (world s))))
       (world s)).

(** The mangled names a size listing holds: the names of the lines the
    listing pattern matches. *)
Definition nm_names (lines : list string) : list string :=
  omap (fun line => (fun m => group m 3) <$> Re.re_match Binary.nm_regex line)
    lines.




Definition nm_command_line (b : Binary) (demangle : bool) : list string :=
  [nm_command (settings b); "--print-size"; "--size-sort"; "--radix=d";
   if demangle then "-C" else ""; filename b].

(** *** The debug-information phase, step by step *)

(** What a flush copies where: the pending location goes to the object
    the pending mangled name is stored under, if there is one. *)
Definition flushed (d : DebugInformationCollector) (s : State) : State :=
  match _name_mangled d with
  | Some n =>
      match symbols (self s) !! n with
      | Some l =>
          MkState (self s)
            (set_heap
               (update_at l (Binary._DebugInformationCollector.copy_source d)
                  (heap (world s)))
               (world s))
      | None => s
      end
  | None => s
  end.

Definition registered (s : State) (source_filename : string) (id_ : pyval)
  : State :=
  MkState
    (set_source_files
       (<[id_ := MkSourceFile source_filename id_]> (source_files (self s)))
       (self s))
    (world s).

(** The pending fields respect the types the parser gives them: a
    header id is the text the header pattern captured, present whenever
    a header tag is; a pending source id is an [int] or [None]. *)
Definition collector_typed (d : DebugInformationCollector) : Prop :=
  (is_Some (_header_tag d) → is_str (_header_id d) = true)
  ∧ is_str (_source_id d) = false.

(** One change the debug-information collector makes to the state of
    the binary: a flush, or the registration of a source file under a
    header id. *)
Inductive debug_step : State → State → Prop :=
| step_flush d s :
    collector_typed d → debug_step s (flushed d s)
| step_register s source_filename id_ :
    is_str id_ = true → debug_step s (registered s source_filename id_).

(** No source id of a symbol is a key of the source-file table. *)
Definition ids_never_resolve (s : State) : Prop :=
  ∀ symbol k, symbol ∈ heap (world s) →
    is_Some (source_files (self s) !! k) → source_id symbol ≠ k.

(** The typing that keeps them apart: the keys are [str], the source
    ids are not. *)
Definition ids_typed (s : State) : Prop :=
  (∀ k, is_Some (source_files (self s) !! k) → is_str k = true)
  ∧ Forall (fun symbol => is_str (source_id symbol) = false)
      (heap (world s)).

(** The text of a line's attribute value, when the line is an
    attribute line of the given tag. *)
Definition attribute_value (tag line : string) : option string :=
  if matches Binary._DebugInformationCollector._header_line_regex line
  then None
  else
    match Re.re_match Binary._DebugInformationCollector._info_line_regex
            line with
    | Some m => if decide (group m 1 = tag) then Some (group m 2) else None
    | None => None
    end.

(** The token shape expected of a linkage name and of the name of a
    compile unit. *)
Definition token_shaped (value : string) : bool :=
  matches Binary._DebugInformationCollector._name_regex value.

(** A line whose value is malformed, read under a header of the given
    tag. *)
Definition malformed (header_tag : option string) (line : string) : bool :=
  match attribute_value "DW_AT_linkage_name" line with
  | Some v => negb (token_shaped v)
  | None =>
      match attribute_value "DW_AT_name" line with
      | Some v =>
          bool_decide (header_tag = Some "DW_TAG_compile_unit")
          && negb (token_shaped v)
      | None => false
      end
  end.

(** The header tag in force after a line. *)
Definition tag_after (header_tag : option string) (line : string)
  : option string :=
  match Re.re_match Binary._DebugInformationCollector._header_line_regex
          line with
  | Some m => Some (group m 2)
  | None => header_tag
  end.

(** All linkage names and compile-unit names of a dump have the
    expected shape. *)
Fixpoint well_shaped (header_tag : option string) (lines : list string)
  : bool :=
  match lines with
  | [] => true
  | line :: lines' =>
      negb (malformed header_tag line)
      && well_shaped (tag_after header_tag line) lines'
  end.

Definition is_parse_error (e : exn) : bool :=
  match e with Exception _ => true | _ => false end.

(** The pending fields after a flush. *)
Definition cleared (d : DebugInformationCollector)
  : DebugInformationCollector :=
  MkDebugInformationCollector (_header_id d) (_header_tag d)
    None PyNone None None.

(** The state in which the dump is parsed: the one the phase started
    in, with the invocation of the dump tool logged. *)
Definition after_readelf (s : State) : State :=
  MkState (self s)
    (set_tool_calls (tool_calls (world s) ++ [readelf_command_line (self s)])
       (world s)).



(** A dump with one compile unit and one subprogram, [foo], declared in
    file 1 of that unit. *)
Definition foo_dump : string :=
  " <0><b>: Abbrev Number: 1 (DW_TAG_compile_unit)" +:+ newline
  +:+ "    <c>   DW_AT_name        : (indirect string, offset: 0x0): main.c"
  +:+ newline
  +:+ " <1><2d>: Abbrev Number: 2 (DW_TAG_subprogram)" +:+ newline
  +:+ "    <2e>   DW_AT_linkage_name: (indirect string, offset: 0x12): foo"
  +:+ newline
  +:+ "    <2f>   DW_AT_decl_file   : 1" +:+ newline
  +:+ "    <30>   DW_AT_decl_line   : 7" +:+ newline.

(** A dump whose linkage name is the bare name, with no text before
    it. *)
Definition bare_name_dump : string :=
  " <1><2d>: Abbrev Number: 2 (DW_TAG_subprogram)" +:+ newline
  +:+ "    <2e>   DW_AT_linkage_name: foo" +:+ newline.

(** Scenarios B and C together: the tools of a binary with the single
    function [foo()], mangled [_Z3foov], of one [retq]. *)
Definition scenario_env : Env :=
  MkEnv (fun f => String.eqb f "a.elf") (fun _ => "")
    (fun cmd =>
       match cmd with
       | ["size"; _] => inl scenario_A_output
       | ["objdump"; "-a"; _] =>
           inl ("a.elf:     file format elf64-x86-64" +:+ newline)
       | ["nm"; _; _; _; ""; _] =>
           inl ("0000000000001000 0000000000000016 T _Z3foov" +:+ newline)
       | ["nm"; _; _; _; "-C"; _] =>
           inl ("0000000000001000 0000000000000016 T foo()" +:+ newline)
       | ["objdump"; "-drwS"; _] =>
           inl ("0000000000001000 <_Z3foov>:" +:+ newline
                +:+ "1000:" +:+ tab +:+ "c3" +:+ tab +:+ "retq" +:+ newline)
       | ["readelf"; _; _] =>
           inl (" <0><b>: Abbrev Number: 1 (DW_TAG_compile_unit)" +:+ newline
                +:+ "    <c>   DW_AT_name        : (indirect string): main.c"
                +:+ newline
                +:+ " <1><2d>: Abbrev Number: 2 (DW_TAG_subprogram)"
                +:+ newline
                +:+ "    <2e>   DW_AT_linkage_name: (indirect string): _Z3foov"
                +:+ newline
                +:+ "    <2f>   DW_AT_decl_file   : 1" +:+ newline)
       | _ => inr (OSError cmd)
       end).

(** The tools of the scenario, with another dump of debug
    information. *)
Definition with_dump (dump : string) : Env :=
  MkEnv (isfile scenario_env) (read_file scenario_env)
    (fun cmd =>
       match cmd with
       | ["readelf"; _; _] => inl dump
       | _ => popen scenario_env cmd
       end).


(** The state in which the loop over the listing starts: both
    invocations logged and the counter of dropped symbols reset. *)
Definition listing_start (s : State) : State :=
  MkState (set_num_symbols_dropped 0 (self s))
    (set_tool_calls
       ((tool_calls (world s) ++ [nm_command_line (self s) false])
        ++ [nm_command_line (self s) true])
       (world s)).

(** The loop of [_gatherSymbolProperties] over paired lines. *)
Definition nm_loop (symbol_init : Symbol → Symbol)
    (pairs : list (string * string)) : M State unit :=
  for_each pairs
    (fun '(line_mangled, line_demangled) =>
       Binary.nm_line symbol_init line_mangled line_demangled).



(** A listing in which [_Z3foov] comes twice, with two sizes. *)
Definition duplicate_mangled : string :=
  "0000000000001000 0000000000000016 T _Z3foov" +:+ newline
  +:+ "0000000000002000 0000000000000008 D bar" +:+ newline
  +:+ "0000000000001000 0000000000000032 T _Z3foov" +:+ newline.

Definition duplicate_demangled : string :=
  "0000000000001000 0000000000000016 T foo()" +:+ newline
  +:+ "0000000000002000 0000000000000008 D bar" +:+ newline
  +:+ "0000000000001000 0000000000000032 T foo()" +:+ newline.

Definition duplicate_env : Env :=
  MkEnv (fun _ => true) (fun _ => "")
    (fun cmd =>
       match cmd with
       | ["nm"; _; _; _; ""; _] => inl duplicate_mangled
       | ["nm"; _; _; _; "-C"; _] => inl duplicate_demangled
       | _ => inr (OSError cmd)
       end).

(** *** Lines of disassembly *)

(** All characters of a text are of a class. *)
Definition all_chars (p : ascii → bool) (s : string) : bool :=
  forallb p (list_ascii_of_string s).

(** Every position of a text that a greedy iteration over all of it
    leaves behind, the farthest first. *)
Fixpoint positions_desc (pos : nat) (rest : list ascii)
    (caps : list (nat * string)) : list Re.mstate :=
  match rest with
  | [] => [Re.MState pos [] caps]
  | _ :: t => positions_desc (S pos) t caps ++ [Re.MState pos rest caps]
  end.

(** A list of matches that starts with a given match: the one [re]
    reports. *)
Definition starts_with (l : list Re.mstate) (st : Re.mstate) : Prop :=
  ∃ others, l = st :: others.

(** What follows the greedy [.*] inside the first group of the pattern
    of [retq]: a space, the byte [c3] and at least one space. *)
Definition c3_re : Re.regex :=
  Re.Seq [Re.space; Re.Lit "c3"; Re.Plus Re.space].

(** A text at whose start [c3_re] cannot match: it is empty, or starts
    with no space, or has no [c] after its first character. *)
Definition no_c3_here (rest : list ascii) : Prop :=
  match rest with
  | [] => True
  | x :: r =>
      Char.is_space x = false
      ∨ match r with
        | [] => True
        | y :: _ => y ≠ "c"%char
        end
  end.

(** A property of a text and of all the texts left after dropping
    characters from its start. *)
Fixpoint all_suffixes (P : list ascii → Prop) (rest : list ascii) : Prop :=
  P rest
  ∧ match rest with
    | [] => True
    | _ :: t => all_suffixes P t
    end.

(** Scenario C: [foo] is in the table, the format is the 64-bit one,
    and the disassembly is the header of [foo] and one [retq]. *)
Definition scenario_C_state : State :=
  MkState (set_file_format (Some "elf64-x86-64") (self foo_state))
    (world foo_state).

Definition scenario_C_output : string :=
  "0000000000001000 <foo>:" +:+ newline
  +:+ "1000:" +:+ tab +:+ "c3" +:+ tab +:+ "retq".

(** A line of disassembly of the instruction byte [c3]: the address
    part, a space, the byte, spaces, the mnemonic and what trails it. *)
Definition c3_line (address : string) (w : ascii) (ws mnemonic trailing : string)
  : string :=
  address +:+ String w ("c3" +:+ ws +:+ mnemonic +:+ trailing).

(** ** Further vocabulary: the collector of instructions *)

(** The address a line hands to the collector: the one the table
    holds for the name of a header line. *)
Definition known_address (b : Binary) (line : string) : option loc :=
  match Re.re_match SymbolCollector.header_line_re
          (SymbolCollector._unifyInstructionLine b line) with
  | Some m => symbols b !! group m 2
  | None => None
  end.

(** What a line that is no header line adds to the instructions of the
    current symbol: the text of an instruction line, a source line
    between its tags, nothing for an empty or blank line. *)
Definition rendered (b : Binary) (line : string) : option string :=
  let unified_line := SymbolCollector._unifyInstructionLine b line in
  match Re.re_match SymbolCollector.instruction_line_re unified_line with
  | Some m => Some (group m 2)
  | None =>
      if (0 <? String.length unified_line)%nat
         && negb (Py.isspace unified_line)
      then Some (preHighlightSourceCode unified_line)
      else None
  end.

(** [append_instructions new] on a symbol: its instructions followed
    by [new]. *)
Definition append_instructions (new : list string) (symbol : Symbol)
  : Symbol :=
  set_instruction_lines (instruction_lines symbol ++ new) symbol.

(** A symbol that differs from an earlier state of itself at most by
    instructions added at the end. *)
Definition grown (symbol symbol' : Symbol) : Prop :=
  name_mangled symbol' = name_mangled symbol
  ∧ name symbol' = name symbol
  ∧ is_demangled symbol' = is_demangled symbol
  ∧ symbol_size symbol' = symbol_size symbol
  ∧ type_ symbol' = type_ symbol
  ∧ source_id symbol' = source_id symbol
  ∧ source_line symbol' = source_line symbol
  ∧ source_column symbol' = source_column symbol
  ∧ instruction_lines symbol `prefix_of` instruction_lines symbol'.

(** A disassembly of two functions, with a source line and a blank
    line. *)
Definition two_function_output : string :=
  "0000000000001000 <foo>:" +:+ newline
  +:+ "int foo() {" +:+ newline
  +:+ "    1000:" +:+ tab +:+ "55" +:+ tab +:+ "push   %rbp" +:+ newline
  +:+ "   " +:+ newline
  +:+ "    1001:" +:+ tab +:+ "c3" +:+ tab +:+ "ret" +:+ newline
  +:+ "0000000000002000 <bar>:" +:+ newline
  +:+ "    2000:" +:+ tab +:+ "c3" +:+ tab +:+ "ret" +:+ newline
  +:+ "0000000000001000 <foo>:" +:+ newline.

(** The lines of a mangling file that holds the pairs [ps]: the
    mangled name and then the demangled one. *)
Definition pair_lines (ps : list (string * string)) : list string :=
  flat_map (fun p => [p.1; p.2]) ps.

(** What the last pair for the name [n] says. *)
Definition last_binding (ps : list (string * string)) (n : string)
  : option string :=
  snd <$> last (filter (fun p => p.1 = n) ps).

(** A mangling file with two pairs for one name and a line left
    over. *)
Definition mangling_file_text : string :=
  "_Z3foov" +:+ newline +:+ "foo()" +:+ newline
  +:+ "_Z3foov" +:+ newline +:+ "foo() const" +:+ newline
  +:+ "_Z3barv" +:+ newline.

Definition mangling_env : Env :=
  MkEnv (fun f => String.eqb f "names.txt") (fun _ => mangling_file_text)
    (fun _ => inl "").

(** The store after every object the table of [b] points to went
    through [symbol_init] once, the other objects as they were. *)
Definition initialized (symbol_init : Symbol → Symbol) (b : Binary)
    (h : list Symbol) : list Symbol :=
  imap (fun l symbol =>
          if bool_decide (l ∈ (map_to_list (symbols b)).*2)
          then symbol_init symbol else symbol) h.

(** What the body of the loop of [_initSymbols] does to the store for
    one key. *)
Definition init_key (symbol_init : Symbol → Symbol) (t : gmap string loc)
    (h : list Symbol) (k : string) : list Symbol :=
  match t !! k with
  | Some l => update_at l symbol_init h
  | None => h
  end.

(** A state with two symbols in the table and one object outside
    it. *)
Definition two_symbol_state : State :=
  MkState
    (set_symbols {[ "foo" := 0; "bar" := 2 ]}
       (blank_binary default_settings "a.elf"))
    (MkWorld [symbol_type "foo" "foo" true; symbol_type "baz" "baz" true;
              symbol_type "bar" "bar" true] [] [] []).

(** A symbol that differs from an earlier state of itself at most in
    its source location. *)
Definition relocated (symbol symbol' : Symbol) : Prop :=
  name_mangled symbol' = name_mangled symbol
  ∧ name symbol' = name symbol
  ∧ is_demangled symbol' = is_demangled symbol
  ∧ symbol_size symbol' = symbol_size symbol
  ∧ type_ symbol' = type_ symbol
  ∧ instruction_lines symbol' = instruction_lines symbol.

(** A binary that differs from an earlier state of itself at most in
    its table of source files, in which every key stays, and every
    entry is an earlier one or is stored under its own id. *)
Definition sources_added (b b' : Binary) : Prop :=
  set_source_files (source_files b) b' = b
  ∧ (∀ k, is_Some (source_files b !! k) → is_Some (source_files b' !! k))
  ∧ (∀ k f, source_files b' !! k = Some f →
       source_files b !! k = Some f ∨ sf_id_ f = k).

(** What the debug-information phase may change between two states:
    source locations of symbols and the table of source files. *)
Definition debug_frame (s s' : State) : Prop :=
  Forall2 relocated (heap (world s)) (heap (world s'))
  ∧ sources_added (self s) (self s')
  ∧ set_heap (heap (world s)) (world s') = world s.

(** The invocations of a construction that ran to its end, in their
    order. *)
Definition construction_commands (st : Settings) (fn : string)
  : list (list string) :=
  [[objdump_command st; "-a"; fn];
   [size_command st; fn];
   [nm_command st; "--print-size"; "--size-sort"; "--radix=d"; ""; fn];
   [nm_command st; "--print-size"; "--size-sort"; "--radix=d"; "-C"; fn];
   [objdump_command st; "-drwS"; fn];
   [readelf_command st; "--debug-dump=info"; fn]].

(** [logs st fn cmds c]: run on a binary with the settings [st] and the
    file name [fn], the computation [c] keeps both, logs an initial
    part of [cmds] and nothing else, and has logged all of [cmds] when
    it returns. *)
Definition logs {A} (st : Settings) (fn : string)
    (cmds : list (list string)) (c : M State A) : Prop :=
  ∀ s, settings (self s) = st → filename (self s) = fn →
    settings (self (state_of (c s))) = st
    ∧ filename (self (state_of (c s))) = fn
    ∧ ∃ done_, done_ `prefix_of` cmds
        ∧ tool_calls (world (state_of (c s))) = tool_calls (world s) ++ done_
        ∧ (raised (c s) = None → done_ = cmds).

(** The command that prints the archive headers. *)
Definition archive_headers_command (b : Binary) : list string :=
  [objdump_command (settings b); "-a"; filename b].

(** A text names a file format at [pre]: after [pre] come the words
    [file format], the white space [ws] and a token that starts with
    the character [c]. *)
Definition names_file_format (out : string) : Prop :=
  ∃ pre ws c post,
    list_ascii_of_string out
    = pre ++ list_ascii_of_string "file format" ++ ws ++ c :: post
    ∧ ws ≠ []
    ∧ Forall (fun x => Char.is_space x = true) ws
    ∧ Char.is_space c = false.

(** The archive headers objdump prints for an [elf64] object. *)
Definition archive_headers_output : string :=
  newline +:+ "a.elf:     file format elf64-x86-64" +:+ newline
  +:+ "a.elf" +:+ newline.

(** One change a line of the size listing makes to the state: size and
    kind of a known symbol overwritten, a selected symbol created, an
    object created whose size then did not parse, or a rejected
    candidate counted. *)
Inductive nm_step (symbol_init : Symbol → Symbol) : State → State → Prop :=
| step_overwrite s k l sz kind :
    symbols (self s) !! k = Some l →
    nm_step symbol_init s (overwritten s l sz kind)
| step_create s n display dem sz kind :
    symbols (self s) !! n = None →
    Binary._isSymbolSelected (self s) display = true →
    nm_step symbol_init s (created symbol_init s n display dem sz kind)
| step_orphan s n display dem :
    nm_step symbol_init s
      (MkState (self s)
         (set_heap (heap (world s) ++ [symbol_type n display dem])
            (world s)))
| step_drop s display :
    Binary._isSymbolSelected (self s) display = false →
    nm_step symbol_init s
      (MkState
         (set_num_symbols_dropped (num_symbols_dropped (self s) + 1)
            (self s))
         (world s)).

(** Every entry of the symbol table points to an object of the store
    whose display name passes the filter of the binary. *)
Definition table_selected (s : State) : Prop :=
  ∀ k l, symbols (self s) !! k = Some l →
    l < length (heap (world s))
    ∧ Binary._isSymbolSelected (self s) (name (deref (heap (world s)) l))
      = true.

(** The entries of the table and the rejected candidates, counted
    together. *)
Definition accounted (s : State) : Z :=
  Z.of_nat (size (symbols (self s))) + num_symbols_dropped (self s).

(** A listing of three symbols, and a binary that excludes the names
    that start with an underscore. *)
Definition filter_listing : string :=
  "0000000000001000 0000000000000010 T foo" +:+ newline
  +:+ "0000000000002000 0000000000000004 D _bar" +:+ newline
  +:+ "0000000000003000 0000000000000008 T baz" +:+ newline.

Definition filter_state : State :=
  MkState
    (MkBinary default_settings "a.elf" None true 0 0 0 0 0 0 None None
       (Some (Re.Cat (Re.Chr "_") (Re.Star Re.dot))) ∅ ∅ 7 None)
    empty_world.

(** An object that kept its two names. *)
Definition kept (symbol symbol' : Symbol) : Prop :=
  name_mangled symbol' = name_mangled symbol ∧ name symbol' = name symbol.

(** [s'] has the table and the filter of [s], and a store of the same
    objects under the same names. *)
Definition table_kept (s s' : State) : Prop :=
  symbols (self s') = symbols (self s)
  ∧ symbol_selection_regex_compiled (self s')
    = symbol_selection_regex_compiled (self s)
  ∧ symbol_exclusion_regex_compiled (self s')
    = symbol_exclusion_regex_compiled (self s)
  ∧ Forall2 kept (heap (world s)) (heap (world s')).

Definition keeps_table {A} (c : M State A) : Prop :=
  ∀ s, table_kept s (state_of (c s)).

(** The filter of the binary is the one the construction was given. *)
Definition filtered_by (sel excl : option Re.regex) (s : State) : Prop :=
  symbol_selection_regex_compiled (self s) = sel
  ∧ symbol_exclusion_regex_compiled (self s) = excl.

(** The table of a binary under construction: every entry is stored
    under the mangled name of its object, and the display name of the
    object passes the filter the construction was given. *)
Definition table_sound (sel excl : option Re.regex) (s : State) : Prop :=
  names_consistent s ∧ table_selected s ∧ filtered_by sel excl s.

(** Tools for a binary with the three symbols of [filter_listing]. *)
Definition filter_env : Env :=
  MkEnv (fun _ => true) (fun _ => "")
    (fun cmd =>
       if decide (cmd !! 0 = Some "nm") then inl filter_listing
       else if decide (cmd !! 1 = Some "-drwS") then inl two_function_output
       else if decide (cmd !! 0 = Some "readelf") then inl foo_dump
       else inl "").

(** A listing whose second line the demangling nm printed in another
    shape. *)
Definition unmatched_demangled : string :=
  "0000000000001000 0000000000000016 T foo()" +:+ newline
  +:+ "bar: no symbols" +:+ newline
  +:+ "0000000000001000 0000000000000032 T foo()" +:+ newline.

Definition unmatched_env : Env :=
  MkEnv (fun _ => true) (fun _ => "")
    (fun cmd =>
       match cmd with
       | ["nm"; _; _; _; ""; _] => inl duplicate_mangled
       | ["nm"; _; _; _; "-C"; _] => inl unmatched_demangled
       | _ => inr (OSError cmd)
       end).

(** The state in which a rejected candidate is counted. *)
Definition dropped_one (s : State) : State :=
  MkState
    (set_num_symbols_dropped (num_symbols_dropped (self s) + 1) (self s))
    (world s).

(** The state in which the object of a candidate is created and not
    entered in the table. *)
Definition allocated (s : State) (symbol_name_mangled display : string)
    (demangled : bool) : State :=
  MkState (self s)
    (set_heap
       (heap (world s) ++ [symbol_type symbol_name_mangled display demangled])
       (world s)).

(** [starts t l]: the text [l] starts with [t]; [occurs t l]: [t]
    stands somewhere in [l]. *)
Fixpoint starts (t l : list ascii) : bool :=
  match t, l with
  | [], _ => true
  | a :: t', b :: l' => Ascii.eqb a b && starts t' l'
  | _ :: _, [] => false
  end.

Fixpoint occurs (t l : list ascii) : bool :=
  starts t l
  || match l with
     | [] => false
     | _ :: l' => occurs t l'
     end.

(** A line holds a text. *)
Definition holds (text line : string) : bool :=
  occurs (list_ascii_of_string text) (list_ascii_of_string line).

(** The store after the objects at the addresses [ls] went through
    [symbol_init], one after the other. *)
Definition initialized_at (symbol_init : Symbol → Symbol) (ls : list loc)
    (h : list Symbol) : list Symbol :=
  fold_left (fun h l => update_at l symbol_init h) ls h.









(** A record whose column comes twice and whose declaring file is
    missing, for a symbol that had a location. *)
Definition record_lines : list string :=
  ["    <2e>   DW_AT_linkage_name: (indirect string, offset: 0x12): foo";
   "    <30>   DW_AT_decl_column : 4";
   "    <31>   DW_AT_decl_line   : 7";
   "    <32>   DW_AT_decl_column : 9"].

Definition located_foo_state : State :=
  MkState
    (set_symbols {[ "foo" := 0 ]} (blank_binary default_settings "a.elf"))
    (MkWorld [MkSymbol "foo" "foo" true 0 "?" [] (PyInt 3) (Some 1%Z)
                (Some 1%Z)] [] [] []).

(** * Properties *)

Local Open Scope nat_scope.

(** ** Loops *)

Lemma for_each_app {S A} (l1 l2 : list A) (body : A → M S unit) (s : S) :
  for_each (l1 ++ l2) body s
  = match for_each l1 body s with
    | Ok _ s' => for_each l2 body s'
    | Raised e s' => Raised e s'
    end.
Proof.
  revert s. induction l1 as [|x l1 IH]; intros s; [done|].
  cbn [app for_each]. unfold bind. destruct (body x s); [apply IH|done].
Qed.

(** An invariant of the body, kept also when it raises, is an
    invariant of the loop. *)
Lemma for_each_invariant {S A} (P : S → Prop) (l : list A)
    (body : A → M S unit) (s : S) :
  (∀ x s, P s → P (state_of (body x s))) →
  P s → P (state_of (for_each l body s)).
Proof.
  intros Hbody. revert s. induction l as [|x l IH]; intros s Hs; [done|].
  cbn [for_each]. unfold bind. specialize (Hbody x s Hs).
  destruct (body x s); [by apply IH|done].
Qed.

(** ** The demangling resolver *)

(** C3. [Binary.demangle] follows the three-step priority chain: the
    mapped name of the configured mangling map when the map holds the
    name, flagged demangled; otherwise the candidate unchanged, flagged
    demangled exactly when the tools are reliable ([binutils_work]). *)
Theorem demangle_priority_chain (b : Binary) (symbol_name : string) :
  Binary.demangle b symbol_name
  = demangle_chain (configured_map b) (binutils_work b) symbol_name.
Proof.
  unfold Binary.demangle, demangle_chain, configured_map, Mangling.demangle.
  destruct (mangling b) as [m|]; simpl; [|done].
  destruct (mangling_dict m) as [d|]; simpl; [|done].
  by destruct (d !! symbol_name).
Qed.

(** ** The symbol selection filter *)

(** C4. [_isSymbolSelected] is a function of the configured patterns
    and the name alone. A name the exclusion pattern matches is
    rejected whatever the inclusion pattern; without an inclusion
    pattern every name not excluded is accepted; with one, exactly the
    names it matches that are not excluded. *)
Theorem selection_filter (b : Binary) (symbol_name : string) :
  Binary._isSymbolSelected b symbol_name
  = negb (excluded b symbol_name) && included b symbol_name
  ∧ (excluded b symbol_name = true →
     Binary._isSymbolSelected b symbol_name = false)
  ∧ (symbol_selection_regex_compiled b = None →
     Binary._isSymbolSelected b symbol_name = negb (excluded b symbol_name))
  ∧ (∀ r, symbol_selection_regex_compiled b = Some r →
     (Binary._isSymbolSelected b symbol_name = true
      ↔ excluded b symbol_name = false ∧ matches r symbol_name = true)).
Proof.
  unfold Binary._isSymbolSelected, excluded, included, matches.
  destruct (symbol_exclusion_regex_compiled b) as [ex|]; simpl;
    try destruct (Re.re_match ex symbol_name); simpl;
    (split_and!; [ | by intros | intros Hs; rewrite ?Hs | intros r Hs; rewrite ?Hs ]);
    try destruct (symbol_selection_regex_compiled b) as [sel|]; simpl;
    try destruct (Re.re_match _ symbol_name); naive_solver.
Qed.

(** ** Construction *)

(** C8. With an empty filename (a missing one, under the declared type
    [str]) or a filename that is no file on disk, [Binary.__init__]
    raises at once: the world is the one it started in, so no tool was
    run, and the symbol and source-file tables hold nothing. *)
Theorem construction_guard (env : Env) (symbol_init : Symbol → Symbol)
    (settings : Settings) (filename : string)
    (sel excl : option Re.regex) (mangling : option Mangling) (w : World) :
  filename = "" ∨ isfile env filename = false →
  ∃ msg s,
    Binary.__init__ env symbol_init settings filename sel excl mangling w
    = Raised (Exception msg) s
    ∧ world s = w
    ∧ tool_calls (world s) = tool_calls w
    ∧ symbols (self s) = ∅
    ∧ source_files (self s) = ∅.
Proof.
  intros Hbad. unfold Binary.__init__, bind.
  destruct (decide (filename = "")) as [->|Hne]; simpl.
  - by eexists _, _.
  - destruct Hbad as [?|Hfile]; [done|]. rewrite Hfile. simpl.
    by eexists _, _.
Qed.

Lemma construction_guard_witness :
  ∃ msg s,
    Binary.__init__ quiet_env id default_settings "b.elf" None None None
      empty_world
    = Raised (Exception msg) s
    ∧ world s = empty_world
    ∧ tool_calls (world s) = tool_calls empty_world
    ∧ symbols (self s) = ∅
    ∧ source_files (self s) = ∅.
Proof.
  apply (construction_guard quiet_env id default_settings "b.elf").
  right. reflexivity.
Defined.

(** ** Facts about the matcher *)

Section MatcherFacts.

Import Re.

Lemma in_ms_cat r1 r2 st st' :
  In st' (ms (Cat r1 r2) st) ↔ ∃ mid, In mid (ms r1 st) ∧ In st' (ms r2 mid).
Proof. simpl. apply in_flat_map. Qed.

Lemma in_ms_eps st st' : In st' (ms Eps st) ↔ st' = st.
Proof. simpl. naive_solver. Qed.

Lemma in_ms_bol st st' : In st' (ms Bol st) → st' = st ∧ m_pos st = 0.
Proof.
  simpl. destruct (Nat.eqb_spec (m_pos st) 0); simpl; naive_solver.
Qed.

Lemma in_ms_cls p st st' :
  In st' (ms (Cls p) st) →
  ∃ c, p c = true ∧ consumed st st' [c].
Proof.
  simpl. destruct st as [pos [|c t] caps]; simpl; [done|].
  destruct (p c) eqn:Hp; simpl; [|done].
  intros [<-|[]]. exists c. unfold consumed; simpl. split_and!; auto. lia.
Qed.

Lemma in_ms_chr a st st' :
  In st' (ms (Chr a) st) → consumed st st' [a].
Proof.
  simpl. destruct st as [pos [|c t] caps]; simpl; [done|].
  destruct (Ascii.eqb_spec a c) as [->|]; simpl; [|done].
  intros [<-|[]]. unfold consumed; simpl. split_and!; auto. lia.
Qed.

Lemma in_star_cls p fuel st st' :
  In st' (star (ms (Cls p)) fuel st) →
  ∃ run, Forall (fun c => p c = true) run ∧ consumed st st' run.
Proof.
  revert st. induction fuel as [|k IH]; intros st; simpl.
  - intros [<-|[]]. exists []. unfold consumed. simpl. split_and!; auto.
  - rewrite in_app_iff, in_flat_map. intros [(mid & Hmid & Hin)|[<-|[]]].
    + apply (in_ms_cls p) in Hmid as (c & Hc & Hr & Hp & Hcaps).
      destruct (_ <? _)%nat; [|done].
      apply IH in Hin as (run & Hrun & Hr' & Hp' & Hcaps').
      exists (c :: run). unfold consumed. split_and!.
      * by constructor.
      * rewrite Hr, Hr'. done.
      * rewrite Hp', Hp. simpl. lia.
      * congruence.
    + exists []. unfold consumed. simpl. split_and!; auto.
Qed.

Lemma in_ms_star_cls p st st' :
  In st' (ms (Star (Cls p)) st) →
  ∃ run, Forall (fun c => p c = true) run ∧ consumed st st' run.
Proof. apply in_star_cls. Qed.

Lemma in_ms_plus_cls p st st' :
  In st' (ms (Plus (Cls p)) st) →
  ∃ run, run ≠ [] ∧ Forall (fun c => p c = true) run ∧ consumed st st' run.
Proof.
  unfold Plus. rewrite in_ms_cat. intros (mid & Hmid & Hin).
  apply in_ms_cls in Hmid as (c & Hc & Hr & Hp & Hcaps).
  apply in_ms_star_cls in Hin as (run & Hrun & Hr' & Hp' & Hcaps').
  exists (c :: run). unfold consumed. split_and!.
  - done.
  - by constructor.
  - rewrite Hr, Hr'. done.
  - rewrite Hp', Hp. simpl. lia.
  - congruence.
Qed.

(** A group around one or more characters of a class holds exactly
    the characters it consumed. *)
Lemma in_ms_group_plus_cls n p st st' :
  In st' (ms (Group n (Plus (Cls p))) st) →
  ∃ run, run ≠ [] ∧ Forall (fun c => p c = true) run
    ∧ m_rest st = run ++ m_rest st'
    ∧ m_pos st' = m_pos st + length run
    ∧ m_caps st' = (n, string_of_list_ascii run) :: m_caps st.
Proof.
  cbn [ms]. rewrite in_map_iff. intros (st1 & <- & Hin).
  apply in_ms_plus_cls in Hin as (run & Hne & Hrun & Hr & Hp & Hcaps).
  exists run. unfold close_group. simpl. split_and!; auto.
  rewrite Hp, Hr, Hcaps. do 2 f_equal.
  replace (m_pos st + length run - m_pos st) with (length run) by lia.
  by rewrite take_app_length.
Qed.

End MatcherFacts.

(** *** The match that is reported *)

Section FirstMatch.

Import Re.

Lemma starts_with_app l1 l2 st :
  starts_with l1 st → starts_with (l1 ++ l2) st.
Proof. intros [o ->]. by exists (o ++ l2). Qed.

Lemma starts_with_flat_map f l st st' :
  starts_with l st → starts_with (f st) st' →
  starts_with (flat_map f l) st'.
Proof.
  intros [o ->] [o' Hf]. simpl. rewrite Hf. by exists (o' ++ flat_map f o).
Qed.

Lemma starts_with_map f l st :
  starts_with l st → starts_with (map f l) (f st).
Proof. intros [o ->]. by exists (map f o). Qed.

Lemma starts_with_cat r1 r2 st mid st' :
  starts_with (ms r1 st) mid → starts_with (ms r2 mid) st' →
  starts_with (ms (Cat r1 r2) st) st'.
Proof. apply starts_with_flat_map. Qed.

Lemma starts_with_chr c pos rest caps :
  starts_with (ms (Chr c) (MState pos (c :: rest) caps))
    (MState (S pos) rest caps).
Proof. simpl. rewrite Ascii.eqb_refl. by exists []. Qed.

Lemma starts_with_cls p c pos rest caps :
  p c = true →
  starts_with (ms (Cls p) (MState pos (c :: rest) caps))
    (MState (S pos) rest caps).
Proof. intros Hp. simpl. rewrite Hp. by exists []. Qed.

(** A greedy iteration over a class goes first to the end of a run of
    the class that is followed by the end of the text or by a character
    outside the class. *)
Lemma starts_with_star_cls p run rest pos caps fuel :
  Forall (fun c => p c = true) run →
  match rest with [] => True | c :: _ => p c = false end →
  length (run ++ rest) < fuel →
  starts_with (star (ms (Cls p)) fuel (MState pos (run ++ rest) caps))
    (MState (pos + length run) rest caps).
Proof.
  intros Hrun Hstop. revert pos fuel.
  induction Hrun as [|c run Hc _ IH]; intros pos fuel Hfuel.
  - destruct fuel as [|k]; [simpl in Hfuel; lia|]. simpl.
    rewrite Nat.add_0_r. destruct rest as [|c t]; simpl; [by exists []|].
    rewrite Hstop. by exists [].
  - destruct fuel as [|k]; [simpl in Hfuel; lia|].
    cbn [star ms m_rest app]. rewrite Hc. cbn [flat_map m_rest advance].
    rewrite app_nil_r.
    assert (Hlt : (length (run ++ rest) <? length (c :: run ++ rest)) = true)
      by (apply Nat.ltb_lt; simpl; lia).
    rewrite Hlt. apply starts_with_app.
    replace (pos + length (c :: run)) with (S pos + length run)
      by (simpl; lia).
    apply IH. simpl in Hfuel. lia.
Qed.

(** Over a text that is of the class throughout, the iteration leaves
    every position, the farthest first. *)
Lemma star_cls_all p rest pos caps fuel :
  Forall (fun c => p c = true) rest →
  length rest < fuel →
  star (ms (Cls p)) fuel (MState pos rest caps) = positions_desc pos rest caps.
Proof.
  intros Hrest. revert pos fuel.
  induction Hrest as [|c rest Hc _ IH]; intros pos fuel Hfuel.
  - destruct fuel as [|k]; [simpl in Hfuel; lia|]. done.
  - destruct fuel as [|k]; [simpl in Hfuel; lia|].
    cbn [star ms m_rest positions_desc]. rewrite Hc.
    cbn [flat_map m_rest advance]. rewrite app_nil_r.
    assert (Hlt : (length rest <? length (c :: rest)) = true)
      by (apply Nat.ltb_lt; simpl; lia).
    rewrite Hlt. f_equal. apply IH. simpl in Hfuel. lia.
Qed.

Lemma positions_desc_app pre tail pos caps :
  ∃ before,
    positions_desc pos (pre ++ tail) caps
    = positions_desc (pos + length pre) tail caps ++ before.
Proof.
  revert pos. induction pre as [|c pre IH]; intros pos.
  - exists []. simpl. by rewrite Nat.add_0_r, app_nil_r.
  - destruct (IH (S pos)) as [before Hb].
    exists (before ++ [MState pos (c :: pre ++ tail) caps]).
    cbn [app positions_desc]. rewrite Hb, <- app_assoc.
    by replace (pos + length (c :: pre)) with (S pos + length pre)
      by (simpl; lia).
Qed.

(** If nothing matches at any position of a text, nothing matches
    after a greedy iteration over it. *)
Lemma flat_map_positions_nil (f : mstate → list mstate) rest pos caps :
  all_suffixes (fun r => ∀ pos, f (MState pos r caps) = []) rest →
  flat_map f (positions_desc pos rest caps) = [].
Proof.
  revert pos. induction rest as [|c rest IH]; intros pos [Hhere Hrest].
  - simpl. by rewrite Hhere.
  - cbn [positions_desc]. rewrite flat_map_app, (IH _ Hrest). simpl.
    by rewrite Hhere.
Qed.

Lemma starts_with_eq l st st' : starts_with l st → st = st' → starts_with l st'.
Proof. by intros H <-. Qed.

Lemma starts_with_ms_star_cls p run rest pos caps :
  Forall (fun c => p c = true) run →
  match rest with [] => True | c :: _ => p c = false end →
  starts_with (ms (Star (Cls p)) (MState pos (run ++ rest) caps))
    (MState (pos + length run) rest caps).
Proof.
  intros Hrun Hstop. cbn [ms m_rest].
  apply starts_with_star_cls; [done|done|]. exact (Nat.lt_succ_diag_r _).
Qed.

Lemma starts_with_ms_plus_cls p run rest pos caps :
  run ≠ [] →
  Forall (fun c => p c = true) run →
  match rest with [] => True | c :: _ => p c = false end →
  starts_with (ms (Plus (Cls p)) (MState pos (run ++ rest) caps))
    (MState (pos + length run) rest caps).
Proof.
  intros Hne Hrun Hstop. destruct run as [|c run]; [done|].
  unfold Plus. cbn [app].
  eapply starts_with_cat; [apply starts_with_cls; by inversion Hrun|].
  eapply starts_with_eq;
    [apply starts_with_ms_star_cls; [by inversion Hrun|done]|].
  f_equal. simpl. lia.
Qed.

Lemma starts_with_ms_group_plus_cls n p run rest pos caps :
  run ≠ [] →
  Forall (fun c => p c = true) run →
  match rest with [] => True | c :: _ => p c = false end →
  starts_with (ms (Group n (Plus (Cls p))) (MState pos (run ++ rest) caps))
    (MState (pos + length run) rest
       ((n, string_of_list_ascii run) :: caps)).
Proof.
  intros Hne Hrun Hstop. cbn [ms].
  eapply starts_with_eq;
    [apply starts_with_map; by apply starts_with_ms_plus_cls|].
  unfold close_group. cbn [m_pos m_rest m_caps]. do 4 f_equal.
  apply take_app_length'. lia.
Qed.

End FirstMatch.

(** ** Decimal numbers *)

Ltac char_facts :=
  unfold Char.is_space, Char.is_digit, Char.is_dot, Char.is_linebreak,
    Char.between in *;
  repeat match goal with
         | H : _ && _ = true |- _ => apply andb_prop in H as [? ?]
         | H : (_ <=? _)%nat = true |- _ => apply Nat.leb_le in H
         | H : (_ =? _)%nat = true |- _ => apply Nat.eqb_eq in H
         end.

Lemma digit_not_space c : Char.is_digit c = true → Char.is_space c = false.
Proof.
  intros H. char_facts. unfold Char.is_space, Char.between.
  repeat (apply orb_false_intro);
    rewrite ?andb_false_iff, ?Nat.leb_gt, ?Nat.eqb_neq; lia.
Qed.







(** ** The size extractor *)

Lemma match_at_in r i s m :
  Re.match_at r i s = Some m →
  ∃ st, In st (Re.ms r (Re.MState i (drop i s) []))
        ∧ m = Re.MkMatch i (Re.m_pos st) (Re.m_caps st).
Proof.
  unfold Re.match_at. destruct (Re.ms _ _) as [|st l]; [done|].
  intros [= <-]. exists st. split; [by left|done].
Qed.


Lemma space_not_digit c : Char.is_space c = true → Char.is_digit c = false.
Proof.
  intros Hs. destruct (Char.is_digit c) eqn:Hd; [|done].
  apply digit_not_space in Hd. congruence.
Qed.

Lemma head_outside (p q : ascii → bool) run rest :
  (∀ c, q c = true → p c = false) →
  run ≠ [] → Forall (fun c => q c = true) run →
  match run ++ rest with [] => True | c :: _ => p c = false end.
Proof.
  intros Hpq Hne Hrun. destruct run as [|c run]; [done|].
  simpl. apply Hpq. by inversion Hrun.
Qed.

(** A line of four runs of digits, separated by spaces and followed by
    no further digit, is matched, and the groups are the four runs:
    the pattern accepts exactly the lines of four unsigned integers. *)
Lemma size_line_matches ws0 d1 w1 d2 w2 d3 w3 d4 rest :
  Forall (fun c => Char.is_space c = true) ws0 →
  Forall (fun ds => ds ≠ [] ∧ Forall (fun c => Char.is_digit c = true) ds)
    [d1; d2; d3; d4] →
  Forall (fun w => w ≠ [] ∧ Forall (fun c => Char.is_space c = true) w)
    [w1; w2; w3] →
  match rest with [] => True | c :: _ => Char.is_digit c = false end →
  ∃ m,
    Re.re_match Binary.size_re
      (string_of_list_ascii
         (ws0 ++ d1 ++ w1 ++ d2 ++ w2 ++ d3 ++ w3 ++ d4 ++ rest)) = Some m
    ∧ group m 1 = string_of_list_ascii d1
    ∧ group m 2 = string_of_list_ascii d2
    ∧ group m 3 = string_of_list_ascii d3
    ∧ group m 4 = string_of_list_ascii d4.
Proof.
  intros Hws0 Hd Hw Hrest.
  apply Forall_cons in Hd as [[N1 F1] Hd].
  apply Forall_cons in Hd as [[N2 F2] Hd].
  apply Forall_cons in Hd as [[N3 F3] Hd].
  apply Forall_cons in Hd as [[N4 F4] _].
  apply Forall_cons in Hw as [[M1 S1] Hw].
  apply Forall_cons in Hw as [[M2 S2] Hw].
  apply Forall_cons in Hw as [[M3 S3] _].
  assert (Hfirst : ∃ st,
    starts_with
      (Re.ms Binary.size_re
         (Re.MState 0
            (ws0 ++ d1 ++ w1 ++ d2 ++ w2 ++ d3 ++ w3 ++ d4 ++ rest) []))
      st
    ∧ Re.m_caps st
      = [(4, string_of_list_ascii d4); (3, string_of_list_ascii d3);
         (2, string_of_list_ascii d2); (1, string_of_list_ascii d1)]).
  { eexists. split.
    - unfold Binary.size_re. cbn [Re.Seq].
      eapply starts_with_cat; [by exists []|].
      eapply starts_with_cat;
        [apply starts_with_ms_star_cls;
           [done|by apply (head_outside _ _ _ _ digit_not_space)]|].
      eapply starts_with_cat;
        [apply starts_with_ms_group_plus_cls;
           [done|done|by apply (head_outside _ _ _ _ space_not_digit)]|].
      eapply starts_with_cat;
        [apply starts_with_ms_plus_cls;
           [done|done|by apply (head_outside _ _ _ _ digit_not_space)]|].
      eapply starts_with_cat;
        [apply starts_with_ms_group_plus_cls;
           [done|done|by apply (head_outside _ _ _ _ space_not_digit)]|].
      eapply starts_with_cat;
        [apply starts_with_ms_plus_cls;
           [done|done|by apply (head_outside _ _ _ _ digit_not_space)]|].
      eapply starts_with_cat;
        [apply starts_with_ms_group_plus_cls;
           [done|done|by apply (head_outside _ _ _ _ space_not_digit)]|].
      eapply starts_with_cat;
        [apply starts_with_ms_plus_cls;
           [done|done|by apply (head_outside _ _ _ _ digit_not_space)]|].
      eapply starts_with_cat;
        [by apply starts_with_ms_group_plus_cls|].
      by exists [].
    - done. }
  destruct Hfirst as (st & [others Hst] & Hcaps).
  exists (Re.MkMatch 0 (Re.m_pos st) (Re.m_caps st)). split.
  - unfold Re.re_match, Re.match_at.
    by rewrite list_ascii_of_string_of_list_ascii, drop_0, Hst.
  - unfold group, Re.backref, Re.group. simpl. by rewrite Hcaps.
Qed.





(** Scenario A of the specification, run. *)
Example scenario_A :
  let b' := self (state_of (Binary._determineSymbolSizes scenario_A_env
                              blank_state)) in
  (text_size b', data_size b', bss_size b', overall_size b',
   progmem_size b', static_ram_size b', binutils_work b')
  = (100, 50, 20, 170, 150, 70, true)%Z.
Proof. vm_compute. reflexivity. Qed.

(** ** The disassembly collector *)

Section Collector.

Variable b : Binary.

Lemma check_header_known line c m l :
  Re.re_match SymbolCollector.header_line_re line = Some m →
  symbols b !! group m 2 = Some l →
  SymbolCollector._checkSymbolHeaderLine b line c
  = (true,
     MkSymbolCollector (Some l)
       (sc_symbols c ++ (if cur_symbol c is Some l0 then [l0] else []))
       (n_instruction_lines c)).
Proof.
  intros Hm Hl. unfold SymbolCollector._checkSymbolHeaderLine,
    SymbolCollector._submitSymbol.
  rewrite Hm, Hl. destruct c as [[l0|] ss n]; simpl; [done|].
  by rewrite app_nil_r.
Qed.

Lemma check_header_unknown line c m :
  Re.re_match SymbolCollector.header_line_re line = Some m →
  symbols b !! group m 2 = None →
  SymbolCollector._checkSymbolHeaderLine b line c
  = (true,
     MkSymbolCollector None
       (sc_symbols c ++ (if cur_symbol c is Some l0 then [l0] else []))
       (n_instruction_lines c)).
Proof.
  intros Hm Hl. unfold SymbolCollector._checkSymbolHeaderLine,
    SymbolCollector._submitSymbol.
  rewrite Hm, Hl. destruct c as [[l0|] ss n]; simpl; [done|].
  by rewrite app_nil_r.
Qed.

Lemma check_header_none line c :
  Re.re_match SymbolCollector.header_line_re line = None →
  SymbolCollector._checkSymbolHeaderLine b line c = (false, c).
Proof.
  intros Hm. unfold SymbolCollector._checkSymbolHeaderLine. by rewrite Hm.
Qed.

(** What one line does to the collector, whatever it does to the
    store. *)
Lemma gather_line_collector line c h :
  let c' := (SymbolCollector.gather_line b line (c, h)).1 in
  n_instruction_lines c'
  = (n_instruction_lines c + if instruction_line b line then 1 else 0)%Z
  ∧ holds_symbol c' = holds_symbol c || known_header b line
  ∧ (header_line b line = false →
     cur_symbol c' = cur_symbol c ∧ sc_symbols c' = sc_symbols c).
Proof.
  unfold SymbolCollector.gather_line, instruction_line, known_header,
    header_line, matches.
  set (u := SymbolCollector._unifyInstructionLine b line).
  destruct (Re.re_match SymbolCollector.header_line_re u) as [m|] eqn:Hm.
  - destruct (symbols b !! group m 2) as [l|] eqn:Hl.
    + rewrite (check_header_known _ _ _ _ Hm Hl). simpl.
      split_and!; [lia| by rewrite orb_true_r |done].
    + rewrite (check_header_unknown _ _ _ Hm Hl). simpl.
      split_and!; [lia| |done].
      unfold holds_symbol. simpl. rewrite length_app, orb_false_r.
      destruct c as [[l0|] ss n]; simpl; [|by rewrite Nat.add_0_r].
      by rewrite Nat.add_1_r.
  - rewrite (check_header_none _ _ Hm). simpl.
    destruct (Re.re_match SymbolCollector.instruction_line_re u) as [im|];
      destruct c as [[l0|] ss n]; simpl;
      repeat case_match; simpl; rewrite ?orb_false_r;
      split_and!; try done; lia.
Qed.

End Collector.

(** *** The store under updates in place *)

Lemma update_at_out_of_range l f (h : list Symbol) :
  length h ≤ l → update_at l f h = h.
Proof.
  intros Hl. unfold update_at. apply list_eq. intros i.
  rewrite list_lookup_alter. case_decide; [subst|done].
  by rewrite lookup_ge_None_2.
Qed.

Lemma deref_update_at l l' f (h : list Symbol) :
  deref (update_at l f h) l'
  = if decide (l = l' ∧ l < length h) then f (deref h l) else deref h l'.
Proof.
  unfold deref. case_decide as Hd.
  - destruct Hd as [<- Hl]. by apply list_lookup_total_alter_eq.
  - destruct (decide (l = l')) as [<-|Hne].
    + rewrite update_at_out_of_range; [done|]. lia.
    + by apply list_lookup_total_alter_ne.
Qed.

Lemma same_names_refl h : same_names h h.
Proof. by split. Qed.

Lemma same_names_trans h1 h2 h3 :
  same_names h1 h2 → same_names h2 h3 → same_names h1 h3.
Proof. intros [L1 N1] [L2 N2]. split; [congruence|]. intros l. by rewrite N2. Qed.

Lemma same_names_update l f h :
  (∀ x, name_mangled (f x) = name_mangled x) →
  same_names h (update_at l f h).
Proof.
  intros Hf. split; [apply length_alter|]. intros l'.
  rewrite deref_update_at. case_decide as Hd; [|done].
  destruct Hd as [<- _]. apply Hf.
Qed.

Lemma names_consistent_same_names b w h' :
  names_consistent (MkState b w) → same_names (heap w) h' →
  names_consistent (MkState b (set_heap h' w)).
Proof.
  intros Hc [Hlen Hn] k l Hk. destruct (Hc k l Hk) as [Hl Hname]. simpl in *.
  split; [lia|]. by rewrite Hn.
Qed.

(** *** The loop over the lines *)

Section Loop.

Variable b : Binary.

Lemma gather_line_same_names line c h :
  same_names h (SymbolCollector.gather_line b line (c, h)).2.
Proof.
  unfold SymbolCollector.gather_line.
  destruct (SymbolCollector._checkSymbolHeaderLine b _ c) as [[] c1]; simpl;
    [apply same_names_refl|].
  repeat case_match; simpl;
    try apply same_names_refl; by apply same_names_update.
Qed.

Lemma gather_line_in_table line c h :
  collector_in_table b c →
  collector_in_table b (SymbolCollector.gather_line b line (c, h)).1.
Proof.
  intros Hc. unfold SymbolCollector.gather_line.
  set (u := SymbolCollector._unifyInstructionLine b line).
  destruct (Re.re_match SymbolCollector.header_line_re u) as [m|] eqn:Hm.
  - assert (Hold : ∀ l,
      l ∈ sc_symbols c ++ (if cur_symbol c is Some l0 then [l0] else []) →
      ∃ k, symbols b !! k = Some l).
    { intros l [Hl|Hl]%elem_of_app; [apply Hc; by right|].
      destruct (cur_symbol c) as [l0|] eqn:Hcur; [|by apply elem_of_nil in Hl].
      apply list_elem_of_singleton in Hl as ->. apply Hc. by left. }
    destruct (symbols b !! group m 2) as [l|] eqn:Hl.
    + rewrite (check_header_known _ _ _ _ _ Hm Hl). simpl.
      intros l' [[= <-]|Hin]; [eauto|]. by apply Hold.
    + rewrite (check_header_unknown _ _ _ _ Hm Hl). simpl.
      intros l' [[=]|Hin]. by apply Hold.
  - rewrite (check_header_none _ _ _ Hm).
    repeat case_match; simpl; simplify_eq; exact Hc.
Qed.

Lemma gather_fold lines c h :
  let r := fold_left (fun st line => SymbolCollector.gather_line b line st)
             lines (c, h) in
  n_instruction_lines r.1
  = (n_instruction_lines c + recognized_instruction_lines b lines)%Z
  ∧ holds_symbol r.1 = holds_symbol c || existsb (known_header b) lines
  ∧ same_names h r.2
  ∧ (collector_in_table b c → collector_in_table b r.1).
Proof.
  revert c h. induction lines as [|line lines IH]; intros c h; cbn [fold_left].
  - unfold recognized_instruction_lines. cbn.
    rewrite orb_false_r, Z.add_0_r. split_and!; auto using same_names_refl.
  - pose proof (gather_line_collector b line c h) as (Hn1 & Hh1 & _).
    pose proof (gather_line_same_names line c h) as Hs1.
    pose proof (gather_line_in_table line c h) as Ht1.
    destruct (SymbolCollector.gather_line b line (c, h)) as [c1 h1].
    destruct (IH c1 h1) as (Hn & Hh & Hs & Ht). cbn [fst snd] in *.
    split_and!.
    + rewrite Hn, Hn1. unfold recognized_instruction_lines.
      rewrite filter_cons. destruct (instruction_line b line); cbn [length].
      * rewrite decide_True by done. cbn [length]. lia.
      * rewrite decide_False by done. lia.
    + cbn [existsb]. by rewrite Hh, Hh1, orb_assoc.
    + by eapply same_names_trans.
    + auto.
Qed.

End Loop.

(** *** The phase as a whole *)

Section Disassembly.

Variable env : Env.
Variable symbol_init : Symbol → Symbol.

Lemma for_each_addSymbol ls s :
  for_each ls (Binary._addSymbol symbol_init) s
  = Ok tt (fold_left (added symbol_init) ls s).
Proof.
  revert s. induction ls as [|l ls IH]; intros s; [done|].
  cbn [for_each fold_left]. unfold bind at 1.
  change (Binary._addSymbol symbol_init l s) with (Ok tt (added symbol_init s l)).
  apply IH.
Qed.

Lemma gatherSymbolInstructions_run s out :
  popen env (disassembly_command (self s)) = inl out →
  Binary._gatherSymbolInstructions env symbol_init s
  = Ok tt (disassembled symbol_init s out).
Proof.
  intros Hout. unfold Binary._gatherSymbolInstructions,
    Binary._readObjdumpDisassemblyOutput, Binary.run, disassembled, collected.
  unfold disassembly_command in Hout.
  unfold bind at 1. unfold bind at 1. simpl. unfold bind at 1. simpl.
  rewrite Hout. simpl. unfold bind at 1. simpl. unfold bind at 1. simpl.
  destruct (SymbolCollector._gatherSymbolInstructions (self s) out _)
    as [c h'] eqn:Hc. simpl.
  unfold bind at 1. simpl. unfold bind at 1.
  rewrite for_each_addSymbol. unfold bind. simpl.
  unfold disassembly_command, assembly_warning.
  by destruct (n_instruction_lines c =? 0)%Z.
Qed.

Lemma added_frame ls s :
  let s' := fold_left (added symbol_init) ls s in
  warnings (world s') = warnings (world s)
  ∧ tool_calls (world s') = tool_calls (world s)
  ∧ source_files (self s') = source_files (self s)
  ∧ instructions_available (self s') = instructions_available (self s).
Proof.
  revert s. induction ls as [|l ls IH]; intros s; [done|].
  cbn [fold_left]. destruct (IH (added symbol_init s l)) as (-> & -> & -> & ->).
  done.
Qed.

Hypothesis init_keeps_name :
  ∀ symbol, name_mangled (symbol_init symbol) = name_mangled symbol.

Lemma added_in_table s l :
  names_consistent s → (∃ k, symbols (self s) !! k = Some l) →
  names_consistent (added symbol_init s l)
  ∧ symbols (self (added symbol_init s l)) = symbols (self s)
  ∧ same_names (heap (world s)) (heap (world (added symbol_init s l))).
Proof.
  intros Hc [k Hk]. destruct (Hc k l Hk) as [Hl Hname].
  assert (Hsame : same_names (heap (world s))
                    (update_at l symbol_init (heap (world s))))
    by (by apply same_names_update).
  assert (Hsym : symbols (self (added symbol_init s l)) = symbols (self s)).
  { unfold added. simpl. destruct Hsame as [_ Hn]. rewrite Hn, Hname.
    by apply insert_id. }
  split_and!; [|done|done].
  intros k' l' Hk'. rewrite Hsym in Hk'. destruct (Hc k' l' Hk') as [Hl' Hn'].
  destruct Hsame as [Hlen Hn]. unfold added; simpl. split; [lia|].
  by rewrite Hn.
Qed.

Lemma added_all_in_table ls s :
  names_consistent s →
  (∀ l, l ∈ ls → ∃ k, symbols (self s) !! k = Some l) →
  let s' := fold_left (added symbol_init) ls s in
  names_consistent s'
  ∧ symbols (self s') = symbols (self s)
  ∧ same_names (heap (world s)) (heap (world s')).
Proof.
  revert s. induction ls as [|l ls IH]; intros s Hc Hls.
  - split_and!; auto using same_names_refl.
  - cbn [fold_left].
    destruct (added_in_table s l Hc) as (Hc1 & Hs1 & Hn1);
      [apply Hls; by left|].
    destruct (IH (added symbol_init s l) Hc1) as (Hc2 & Hs2 & Hn2).
    { intros l' Hl'. rewrite Hs1. apply Hls. by right. }
    split_and!; [done|congruence|by eapply same_names_trans].
Qed.

End Disassembly.

Lemma collected_summary s out :
  let ch := collected s out in
  let lines := Py.splitlines out in
  n_instruction_lines ch.1 = recognized_instruction_lines (self s) lines
  ∧ (0 <? length (sc_symbols ch.1)) = existsb (known_header (self s)) lines
  ∧ cur_symbol ch.1 = None
  ∧ same_names (heap (world s)) ch.2
  ∧ (∀ l, l ∈ sc_symbols ch.1 → ∃ k, symbols (self s) !! k = Some l).
Proof.
  unfold collected, SymbolCollector._gatherSymbolInstructions.
  pose proof (gather_fold (self s) (Py.splitlines out)
                SymbolCollector.__init__ (heap (world s)))
    as (Hn & Hh & Hs & Ht).
  destruct (fold_left _ _ _) as [c h]. cbn [fst snd] in *.
  assert (Ht' : collector_in_table (self s) c).
  { apply Ht. intros l [[=]|Hin]. by apply elem_of_nil in Hin. }
  simpl in Hn, Hh. rewrite <- Hh. unfold holds_symbol.
  destruct c as [[l0|] ss n]; simpl in *.
  - split_and!; [lia| |done|done|].
    + rewrite length_app. simpl. by rewrite Nat.add_1_r.
    + intros l [Hl|Hl]%elem_of_app; apply Ht'; [by right|].
      apply list_elem_of_singleton in Hl as ->. by left.
  - split_and!; [lia|done|done|done|]. intros l Hl. apply Ht'. by right.
Qed.

(** C1, as the code has it. The disassembly phase does not raise. The
    flag [instructions_available] is true exactly when some header line
    of the disassembly names a symbol of the table, whatever the number
    of instruction lines; the warning is handed over exactly when the
    running total of recognized instruction lines is zero. *)
Theorem instructions_flag (env : Env) (symbol_init : Symbol → Symbol)
    (s : State) (out : string) :
  popen env (disassembly_command (self s)) = inl out →
  let r := Binary._gatherSymbolInstructions env symbol_init s in
  let lines := Py.splitlines out in
  raised r = None
  ∧ instructions_available (self (state_of r))
    = Some (existsb (known_header (self s)) lines)
  ∧ warnings (world (state_of r))
    = warnings (world s)
      ++ (if (recognized_instruction_lines (self s) lines =? 0)%Z
          then [assembly_warning (self s)] else []).
Proof.
  intros Hout r lines. subst r.
  rewrite (gatherSymbolInstructions_run env symbol_init s out Hout).
  cbn [raised state_of]. split; [done|].
  destruct (collected_summary s out) as (Hn & Hh & _).
  unfold disassembled.
  set (s2 := fold_left (added symbol_init) _ _).
  pose proof (added_frame symbol_init (sc_symbols (collected s out).1)
    (MkState (self s)
       (set_heap (collected s out).2
          (set_tool_calls
             (tool_calls (world s) ++ [disassembly_command (self s)])
             (world s))))) as (Hw & _).
  fold s2 in Hw. simpl in Hw. rewrite Hn. fold lines.
  destruct (recognized_instruction_lines (self s) lines =? 0)%Z; simpl;
    rewrite Hh, Hw, ?app_nil_r; done.
Qed.

Lemma instructions_flag_witness :
  let r := Binary._gatherSymbolInstructions (printing header_only_output) id
             foo_state in
  let lines := Py.splitlines header_only_output in
  raised r = None
  ∧ instructions_available (self (state_of r))
    = Some (existsb (known_header (self foo_state)) lines)
  ∧ warnings (world (state_of r))
    = warnings (world foo_state)
      ++ (if (recognized_instruction_lines (self foo_state) lines =? 0)%Z
          then [assembly_warning (self foo_state)] else []).
Proof.
  apply (instructions_flag (printing header_only_output) id foo_state
           header_only_output).
  reflexivity.
Defined.

(** C1, as the specification words it, fails both ways: a disassembly
    that is a single header line of a known symbol has no instruction
    line and sets the flag, and one that is a single instruction line
    under no header is counted and leaves the flag false. *)
Lemma instructions_flag_counterexample :
  ¬ flag_follows_line_count (printing header_only_output) id foo_state
      header_only_output
  ∧ ¬ flag_follows_line_count (printing instruction_only_output) id
        foo_state instruction_only_output.
Proof.
  split; intros [Hzero Hpos].
  - assert (Hflag : instructions_available
             (self (state_of (Binary._gatherSymbolInstructions
                (printing header_only_output) id foo_state))) = Some true)
      by (vm_compute; reflexivity).
    destruct Hzero as [Hfalse _]; [vm_compute; reflexivity|].
    rewrite Hflag in Hfalse. discriminate.
  - assert (Hflag : instructions_available
             (self (state_of (Binary._gatherSymbolInstructions
                (printing instruction_only_output) id foo_state)))
             = Some false)
      by (vm_compute; reflexivity).
    rewrite Hflag in Hpos. discriminate Hpos. vm_compute. reflexivity.
Qed.

(** ** The symbol property extractor *)

Section Properties.

Variable symbol_init : Symbol → Symbol.

Lemma update_at_last (f : Symbol → Symbol) h x :
  update_at (length h) f (h ++ [x]) = h ++ [f x].
Proof.
  unfold update_at. replace (length h) with (length h + 0) by lia.
  by rewrite alter_app_r.
Qed.

Lemma deref_last h x : deref (h ++ [x]) (length h) = x.
Proof.
  unfold deref. rewrite lookup_total_app_r by done.
  by rewrite Nat.sub_diag.
Qed.

(** A line the listing pattern does not match changes nothing. *)
Lemma nm_line_skip lm ld s :
  Re.re_match Binary.nm_regex lm = None →
  Binary.nm_line symbol_init lm ld s = Ok tt s.
Proof. intros Hm. unfold Binary.nm_line. by rewrite Hm. Qed.

(** A new name that passes the filter: one object is created and
    entered in the table. *)
Lemma nm_line_create lm ld s mm md sz :
  Re.re_match Binary.nm_regex lm = Some mm →
  Re.re_match Binary.nm_regex ld = Some md →
  symbols (self s) !! group mm 3 = None →
  Binary._isSymbolSelected (self s)
    (Binary.demangle (self s) (group md 3)).1 = true →
  Py.int (group mm 1) = Some sz →
  Binary.nm_line symbol_init lm ld s
  = Ok tt
      (created symbol_init s (group mm 3)
         (Binary.demangle (self s) (group md 3)).1
         (Binary.demangle (self s) (group md 3)).2 sz (group mm 2)).
Proof.
  intros Hm Hd Hnew Hsel Hint. unfold Binary.nm_line.
  rewrite Hm, Hd. unfold bind at 1. simpl. unfold bind at 1. simpl.
  destruct (Binary.demangle (self s) (group md 3)) as [display dem] eqn:Hdem.
  simpl in Hsel. rewrite Hnew.
  unfold Binary._generateSymbol, bind, int. simpl. rewrite Hsel. simpl.
  rewrite Hint. simpl. unfold created. simpl.
  match goal with
  | |- Binary._addSymbol _ ?l ?s1 = _ =>
      change (Binary._addSymbol symbol_init l s1)
        with (Ok tt (added symbol_init s1 l))
  end.
  unfold added, set_heap. simpl.
  rewrite !update_at_last, deref_last. done.
Qed.

(** A name already in the table: size and kind of its object are
    overwritten, nothing is created. *)
Lemma nm_line_overwrite lm ld s mm md l sz :
  Re.re_match Binary.nm_regex lm = Some mm →
  Re.re_match Binary.nm_regex ld = Some md →
  symbols (self s) !! group mm 3 = Some l →
  Py.int (group mm 1) = Some sz →
  Binary.nm_line symbol_init lm ld s
  = Ok tt (overwritten s l sz (group mm 2)).
Proof.
  intros Hm Hd Hold Hint. unfold Binary.nm_line.
  rewrite Hm, Hd. unfold bind at 1. simpl. unfold bind at 1. simpl.
  destruct (Binary.demangle (self s) (group md 3)) as [display dem].
  rewrite Hold. unfold bind, int. rewrite Hint. done.
Qed.

End Properties.

(** *** The table stays consistent with the store *)

Section Consistency.

Variable env : Env.
Variable symbol_init : Symbol → Symbol.

Hypothesis init_keeps_name :
  ∀ symbol, name_mangled (symbol_init symbol) = name_mangled symbol.


Lemma deref_app_l h x l : l < length h → deref (h ++ [x]) l = deref h l.
Proof. intros Hl. unfold deref. by apply lookup_total_app_l. Qed.

Lemma names_consistent_alloc b w x :
  names_consistent (MkState b w) →
  names_consistent (MkState b (set_heap (heap w ++ [x]) w)).
Proof.
  intros Hc k l Hk. destruct (Hc k l Hk) as [Hl Hn]. simpl in *.
  rewrite length_app. split; [lia|]. by rewrite deref_app_l.
Qed.

Lemma names_consistent_created s n display dem sz kind :
  names_consistent s →
  names_consistent (created symbol_init s n display dem sz kind)
  ∧ symbols (self (created symbol_init s n display dem sz kind))
    = <[n := length (heap (world s))]> (symbols (self s)).
Proof.
  intros Hc. unfold created. simpl. rewrite init_keeps_name. simpl.
  split; [|done]. intros k l. simpl. rewrite length_app. simpl.
  destruct (decide (n = k)) as [<-|Hne].
  - rewrite lookup_insert_eq. intros [= <-]. split; [lia|].
    rewrite deref_last. by rewrite init_keeps_name.
  - rewrite lookup_insert_ne by done. intros Hk.
    destruct (Hc k l Hk) as [Hl Hn]. split; [lia|]. by rewrite deref_app_l.
Qed.

Lemma overwritten_same_names s l sz kind :
  same_names (heap (world s)) (heap (world (overwritten s l sz kind))).
Proof.
  unfold overwritten. simpl.
  eapply same_names_trans; by apply same_names_update.
Qed.

Lemma nm_line_consistent lm ld s :
  names_consistent s →
  names_consistent (state_of (Binary.nm_line symbol_init lm ld s)).
Proof.
  intros Hc.
  destruct (Re.re_match Binary.nm_regex lm) as [mm|] eqn:Hm;
    [|by rewrite nm_line_skip].
  destruct (Re.re_match Binary.nm_regex ld) as [md|] eqn:Hd.
  2:{ unfold Binary.nm_line. rewrite Hm, Hd. done. }
  destruct (symbols (self s) !! group mm 3) as [l|] eqn:Hk.
  - destruct (Py.int (group mm 1)) as [sz|] eqn:Hint.
    + rewrite (nm_line_overwrite _ _ _ _ _ _ _ _ Hm Hd Hk Hint).
      destruct s as [b w]. apply names_consistent_same_names; [done|].
      apply (overwritten_same_names (MkState b w)).
    + unfold Binary.nm_line. rewrite Hm, Hd. unfold bind at 1. simpl.
      unfold bind at 1. simpl. destruct (Binary.demangle _ _).
      rewrite Hk. unfold bind, int. rewrite Hint. done.
  - destruct (Binary._isSymbolSelected (self s)
                (Binary.demangle (self s) (group md 3)).1) eqn:Hsel.
    + destruct (Py.int (group mm 1)) as [sz|] eqn:Hint.
      * rewrite (nm_line_create _ _ _ _ _ _ _ Hm Hd Hk Hsel Hint).
        by apply names_consistent_created.
      * unfold Binary.nm_line. rewrite Hm, Hd. unfold bind at 1. simpl.
        unfold bind at 1. simpl.
        destruct (Binary.demangle _ _) as [display dem]. simpl in Hsel.
        rewrite Hk. unfold Binary._generateSymbol, bind, int. simpl.
        rewrite Hsel. simpl. rewrite Hint. simpl.
        destruct s as [b w]. by apply names_consistent_alloc.
    + unfold Binary.nm_line. rewrite Hm, Hd. unfold bind at 1. simpl.
      unfold bind at 1. simpl.
      destruct (Binary.demangle _ _) as [display dem]. simpl in Hsel.
      rewrite Hk. unfold Binary._generateSymbol, bind. simpl.
      rewrite Hsel. simpl. exact Hc.
Qed.

(** Running a tool logs the call and changes nothing else. *)
Lemma run_state cmd s :
  state_of (Binary.run env cmd s)
  = MkState (self s)
      (set_tool_calls (tool_calls (world s) ++ [cmd]) (world s)).
Proof.
  unfold Binary.run, bind. simpl. by destruct (popen env cmd).
Qed.


End Consistency.

(** *** Completeness on a well-formed listing *)

Section Completeness.

Variable env : Env.
Variable symbol_init : Symbol → Symbol.

Hypothesis init_keeps_name :
  ∀ symbol, name_mangled (symbol_init symbol) = name_mangled symbol.


Lemma nm_names_cons line lines :
  nm_names (line :: lines)
  = match Re.re_match Binary.nm_regex line with
    | Some m => group m 3 :: nm_names lines
    | None => nm_names lines
    end.
Proof. unfold nm_names. simpl. by destruct (Re.re_match _ line). Qed.





Lemma gatherSymbolProperties_run s mo do :
  popen env (nm_command_line (self s) false) = inl mo →
  popen env (nm_command_line (self s) true) = inl do →
  Binary._gatherSymbolProperties env symbol_init s
  = nm_loop symbol_init (zip (Py.splitlines mo) (Py.splitlines do))
      (listing_start s).
Proof.
  intros Hm Hd. unfold Binary._gatherSymbolProperties, Binary._readNMOutput,
    Binary.run, nm_command_line in *.
  unfold bind at 1. unfold bind at 1. simpl. unfold bind at 1. simpl.
  rewrite Hm. simpl.
  unfold bind at 1. unfold bind at 1. simpl. unfold bind at 1. simpl.
  rewrite Hd. simpl. unfold bind at 1. simpl. reflexivity.
Qed.

End Completeness.





(** The listing with the duplicate, run: two keys, two objects, and
    [_Z3foov] with the size of its later line. *)
Example duplicate_overwrites :
  let s1 := state_of (Binary._gatherSymbolProperties duplicate_env id
                        blank_state) in
  (map_to_list (symbols (self s1))).*1 = ["_Z3foov"; "bar"]
  ∧ length (heap (world s1)) = 2
  ∧ (symbol_size <$> heap (world s1)) = [32; 8]%Z
  ∧ (type_ <$> heap (world s1)) = ["T"; "D"].
Proof. vm_compute. done. Qed.

(** Scenario B of the specification, run. *)
Example scenario_B :
  let s1 := state_of (Binary._gatherSymbolProperties scenario_env id
                        blank_state) in
  heap (world s1)
  = [MkSymbol "_Z3foov" "foo()" true 16 "T" [] PyNone None None]
  ∧ symbols (self s1) !! "_Z3foov" = Some 0.
Proof. vm_compute. done. Qed.

(** The listing pattern takes hexadecimal digits for the size, [int]
    reads it in base ten: a size with a letter raises [ValueError],
    which is why a well-formed listing has decimal sizes. *)
Example hexadecimal_size_raises :
  raised (Binary.nm_line id "00001000 0000001a T f" "00001000 0000001a T f"
            blank_state)
  = Some (ValueError "0000001a").
Proof. vm_compute. reflexivity. Qed.

(** ** The debug-information collector *)

Section DebugInformation.

Import Binary._DebugInformationCollector.

Lemma flush_run d s :
  _flushSymbolInfo (d, s) = Ok tt (cleared d, flushed d s).
Proof.
  unfold _flushSymbolInfo, flushed, bind. simpl.
  destruct (_name_mangled d) as [n|]; [|done].
  by destruct (symbols (self s) !! n).
Qed.

Lemma cleared_typed d : collector_typed d → collector_typed (cleared d).
Proof. intros [Hid _]. by split. Qed.

Local Ltac finish :=
  split_and!;
  first [ done | by eauto | by (intros ? [= <-] ?) | by split | idtac ].

(** What one line does: to the pending fields, to the header tag, to
    the state of the binary, and when it raises. *)
Lemma parse_line_step line d s :
  collector_typed d →
  let r := parse_line line (d, s) in
  collector_typed (state_of r).1
  ∧ (raised r = None →
     _header_tag (state_of r).1 = tag_after (_header_tag d) line)
  ∧ ((state_of r).2 = s ∨ debug_step s (state_of r).2)
  ∧ (malformed (_header_tag d) line = true →
     ∃ msg, r = Raised (Exception msg) (d, s))
  ∧ (∀ e, raised r = Some e → is_parse_error e = true →
     malformed (_header_tag d) line = true).
Proof.
  intros Hd. pose proof Hd as [Hid Hsrc].
  unfold parse_line, malformed, attribute_value, tag_after, token_shaped,
    matches.
  destruct (Re.re_match _header_line_regex line) as [hm|].
  { unfold bind, update_collector, modify. rewrite flush_run. simpl.
    split_and!; try done.
    right. apply (step_flush
        (MkDebugInformationCollector (PyStr (group hm 1))
           (Some (group hm 2)) (_name_mangled d) (_source_id d)
           (_source_line d) (_source_column d))).
    by split. }
  destruct (Re.re_match _info_line_regex line) as [im|]; [|by finish].
  destruct (decide (group im 1 = "DW_AT_linkage_name")) as [Htag|Hntag].
  { destruct (Re.re_match _name_regex (group im 2)); simpl; finish. }
  destruct (decide (group im 1 = "DW_AT_decl_file")) as [Htag|_].
  { rewrite ?Htag. simpl. unfold bind, int.
    destruct (Py.int (group im 2)); simpl; finish. }
  destruct (decide (group im 1 = "DW_AT_decl_line")) as [Htag|_].
  { rewrite ?Htag. simpl. unfold bind, int.
    destruct (Py.int (group im 2)); simpl; finish. }
  destruct (decide (group im 1 = "DW_AT_decl_column")) as [Htag|_].
  { rewrite ?Htag. simpl. unfold bind, int.
    destruct (Py.int (group im 2)); simpl; finish. }
  destruct (decide (group im 1 = "DW_AT_name")) as [Htag|_]; [|by finish].
  unfold bind, gets. cbn [fst].
  destruct (decide (_header_tag d = Some "DW_TAG_compile_unit")) as [Hcu|Hcu].
  - rewrite bool_decide_eq_true_2 by done. simpl.
    destruct (Re.re_match _source_file_regex (group im 2)) as [sm|] eqn:Hsm;
      unfold _source_file_regex in Hsm; rewrite Hsm; simpl; finish.
    right. apply step_register. apply Hid. rewrite Hcu. eauto.
  - rewrite bool_decide_eq_false_2 by done. simpl. finish.
Qed.

End DebugInformation.

(** *** The loop over the lines of the dump *)

Section DebugLoop.

Import Binary._DebugInformationCollector.

Lemma parse_lines_steps lines d s :
  collector_typed d →
  let r := for_each lines parse_line (d, s) in
  collector_typed (state_of r).1
  ∧ rtc debug_step s (state_of r).2
  ∧ (raised r = None →
     _header_tag (state_of r).1 = fold_left tag_after lines (_header_tag d))
  ∧ (∀ e, raised r = Some e → is_parse_error e = true →
     well_shaped (_header_tag d) lines = false).
Proof.
  revert d s. induction lines as [|line lines IH]; intros d s Hd.
  - by split_and!.
  - cbn [for_each fold_left well_shaped]. cbv zeta. unfold bind.
    destruct (parse_line_step line d s Hd) as (Hd1 & Htag & Hs & _ & Herr).
    destruct (parse_line line (d, s)) as [[] [d1 s1]|e [d1 s1]];
      cbn [state_of raised fst snd] in *.
    + destruct (IH d1 s1 Hd1) as (Hd2 & Hs2 & Htag2 & Herr2).
      rewrite <- Htag by done. split_and!; [done| |done|].
      * destruct Hs as [->|Hs]; [done|]. by eapply rtc_l.
      * intros e He Hp. rewrite (Herr2 e He Hp). apply andb_false_r.
    + split_and!; [done| |done|].
      * destruct Hs as [->|Hs]; [done|]. by apply rtc_once.
      * intros e' [= <-] Hp. by rewrite (Herr e eq_refl Hp).
Qed.


End DebugLoop.

(** *** The phase as a whole *)

Section DebugPhase.

Import Binary._DebugInformationCollector.

Variable env : Env.

Lemma initial_collector_typed : collector_typed __init__.
Proof. split; [by intros [? [=]]|done]. Qed.

Lemma gatherDebugInformation_run s out :
  popen env (readelf_command_line (self s)) = inl out →
  Binary._gatherDebugInformation env s
  = match parseReadelfOutput out (__init__, after_readelf s) with
    | Ok _ (_, s') => Ok tt s'
    | Raised e (_, s') => Raised e s'
    end.
Proof.
  intros Hout. unfold Binary._gatherDebugInformation,
    Binary._readReadelfOutput, Binary.run.
  unfold readelf_command_line in Hout.
  unfold bind at 1. unfold bind at 1. simpl. unfold bind at 1. simpl.
  by rewrite Hout.
Qed.

Lemma gatherDebugInformation_failed s e :
  popen env (readelf_command_line (self s)) = inr e →
  Binary._gatherDebugInformation env s = Raised e (after_readelf s).
Proof.
  intros Hout. unfold Binary._gatherDebugInformation,
    Binary._readReadelfOutput, Binary.run, bind.
  unfold readelf_command_line in Hout. simpl. by rewrite Hout.
Qed.

Lemma parseReadelfOutput_steps out d s :
  collector_typed d →
  rtc debug_step s (state_of (parseReadelfOutput out (d, s))).2.
Proof.
  intros Hd. unfold parseReadelfOutput, bind.
  pose proof (parse_lines_steps (Py.splitlines out) d s Hd)
    as (Hd1 & Hs1 & _).
  destruct (for_each _ parse_line (d, s)) as [[] [d1 s1]|e [d1 s1]];
    cbn [state_of fst snd] in *; [|done].
  rewrite flush_run. cbn [state_of snd].
  eapply rtc_r; [done|]. by apply step_flush.
Qed.

(** The phase is a sequence of flushes and registrations, from the
    state in which the call of the tool is logged. *)
Lemma debug_phase_steps s :
  rtc debug_step (after_readelf s)
    (state_of (Binary._gatherDebugInformation env s)).
Proof.
  destruct (popen env (readelf_command_line (self s))) as [out|e] eqn:Hout.
  - rewrite (gatherDebugInformation_run s out Hout).
    pose proof (parseReadelfOutput_steps out __init__ (after_readelf s)
                  initial_collector_typed) as Hsteps.
    by destruct (parseReadelfOutput out _) as [[] [d1 s1]|e [d1 s1]].
  - by rewrite (gatherDebugInformation_failed s e Hout).
Qed.

End DebugPhase.

(** *** What the steps keep *)

Lemma copy_source_name d symbol :
  name_mangled (Binary._DebugInformationCollector.copy_source d symbol)
  = name_mangled symbol.
Proof. done. Qed.



Lemma debug_step_typed s s' :
  debug_step s s' → ids_typed s → ids_typed s'.
Proof.
  destruct 1 as [d s [_ Hsrc]|s f id Hid]; intros [Hkeys Hids].
  - unfold flushed. destruct (_name_mangled d) as [n|]; [|done].
    destruct (symbols (self s) !! n) as [l|]; [|done].
    split; [done|]. simpl. unfold update_at.
    apply Forall_alter; [done|]. intros symbol _ _. exact Hsrc.
  - split; [|done]. intros k. simpl.
    destruct (decide (id = k)) as [<-|Hne]; [done|].
    rewrite lookup_insert_ne by done. apply Hkeys.
Qed.

Lemma debug_steps_typed s s' :
  rtc debug_step s s' → ids_typed s → ids_typed s'.
Proof. induction 1; eauto using debug_step_typed. Qed.

(** A key is a [str] and a source id is not: they are never equal. *)
Lemma ids_typed_never_resolve s : ids_typed s → ids_never_resolve s.
Proof.
  intros [Hkeys Hids] symbol k Hin Hk Heq.
  rewrite Forall_forall in Hids. specialize (Hids symbol Hin).
  specialize (Hkeys k Hk). congruence.
Qed.

(** ** The symbol table after property extraction *)

Section Frozen.

Variable env : Env.
Variable symbol_init : Symbol → Symbol.

Hypothesis init_keeps_name :
  ∀ symbol, name_mangled (symbol_init symbol) = name_mangled symbol.

Lemma gatherSymbolInstructions_failed s e :
  popen env (disassembly_command (self s)) = inr e →
  Binary._gatherSymbolInstructions env symbol_init s
  = Raised e
      (MkState (self s)
         (set_tool_calls
            (tool_calls (world s) ++ [disassembly_command (self s)])
            (world s))).
Proof.
  intros Hout. unfold Binary._gatherSymbolInstructions,
    Binary._readObjdumpDisassemblyOutput, Binary.run, bind.
  unfold disassembly_command in Hout. simpl. by rewrite Hout.
Qed.

(** The disassembly phase keeps the table as it is and the store in
    shape: no entry is added and no object created. *)
Lemma disassembly_preserves s :
  names_consistent s →
  let r := Binary._gatherSymbolInstructions env symbol_init s in
  symbols (self (state_of r)) = symbols (self s)
  ∧ same_names (heap (world s)) (heap (world (state_of r)))
  ∧ names_consistent (state_of r).
Proof.
  intros Hc. cbv zeta.
  destruct (popen env (disassembly_command (self s))) as [out|e] eqn:Hout.
  2:{ rewrite (gatherSymbolInstructions_failed s e Hout). simpl.
      split_and!; [done|apply same_names_refl|exact Hc]. }
  rewrite (gatherSymbolInstructions_run env symbol_init s out Hout).
  cbn [state_of]. unfold disassembled.
  destruct (collected_summary s out) as (_ & _ & _ & Hsame & Htable).
  set (start := MkState (self s)
                  (set_heap (collected s out).2
                     (set_tool_calls
                        (tool_calls (world s)
                         ++ [disassembly_command (self s)]) (world s)))).
  assert (Hstart : names_consistent start).
  { intros k l Hk. destruct (Hc k l Hk) as [Hl Hn].
    destruct Hsame as [Hlen Hnames]. unfold start. simpl in *.
    split; [lia|]. by rewrite Hnames. }
  destruct (added_all_in_table symbol_init init_keeps_name
              (sc_symbols (collected s out).1) start Hstart Htable)
    as (Hc2 & Hs2 & Hn2).
  set (s2 := fold_left (added symbol_init) _ start) in *.
  assert (Hall : same_names (heap (world s)) (heap (world s2)))
    by (by eapply same_names_trans).
  destruct (n_instruction_lines (collected s out).1 =? 0)%Z; simpl;
    split_and!; done.
Qed.




End Frozen.



(** A header line of an unknown symbol followed by an instruction
    line: the instruction is counted and dropped. *)
Example absent_header_drops_instruction :
  let ch := collected foo_state
              ("0000000000002000 <bar>:" +:+ newline
               +:+ instruction_only_output) in
  (sc_symbols ch.1, n_instruction_lines ch.1, ch.2)
  = ([], 1%Z, heap (world foo_state)).
Proof. vm_compute. reflexivity. Qed.

(** ** Source files and source ids *)

(** C10. Source files are entered under the text the header pattern
    captured, a [str], and the source id of a symbol is the [int] read
    from the declaring-file attribute or [None]. Given a state in which
    the keys are [str] and no source id is, as the construction leaves
    it before this phase, the phase keeps it so whatever the dump, and
    so no source id of a symbol is a key of the source-file table,
    neither at the end nor after any of the steps. *)
Theorem source_ids_never_resolve (env : Env) (s : State) :
  ids_typed s →
  let r := Binary._gatherDebugInformation env s in
  ids_typed (state_of r)
  ∧ ids_never_resolve (state_of r)
  ∧ ∀ s', rtc debug_step (after_readelf s) s' → ids_never_resolve s'.
Proof.
  intros Hs r.
  assert (Hstart : ids_typed (after_readelf s)) by done.
  assert (Hend : ids_typed (state_of r))
    by (eapply debug_steps_typed; [apply debug_phase_steps|done]).
  split_and!; [done|by apply ids_typed_never_resolve|].
  intros s' Hsteps. apply ids_typed_never_resolve.
  by eapply debug_steps_typed.
Qed.

Lemma source_ids_never_resolve_witness :
  let r := Binary._gatherDebugInformation (printing foo_dump) foo_state in
  ids_typed (state_of r)
  ∧ ids_never_resolve (state_of r)
  ∧ ∀ s', rtc debug_step (after_readelf foo_state) s' → ids_never_resolve s'.
Proof.
  apply (source_ids_never_resolve (printing foo_dump) foo_state).
  split.
  - intros k [x Hx]. simpl in Hx. by rewrite lookup_empty in Hx.
  - simpl. by repeat constructor.
Defined.

(** The source id of [foo] is the integer 1 and its source file is
    entered under the text ["1"]: the lookup of the one in the table of
    the other finds nothing. *)
Example source_id_does_not_resolve :
  let s := state_of (Binary._gatherDebugInformation (printing foo_dump)
                       foo_state) in
  source_id (deref (heap (world s)) 0) = PyInt 1
  ∧ sf_filename <$> source_files (self s) !! PyStr "1" = Some "main.c"
  ∧ source_files (self s) !! source_id (deref (heap (world s)) 0) = None.
Proof. vm_compute. done. Qed.

(** ** Malformed values in the dump *)

Section Fatal.

Import Binary._DebugInformationCollector.

Variable env : Env.
Variable symbol_init : Symbol → Symbol.



End Fatal.



(** A linkage name given bare, with no text before it, lacks the
    shape: the construction ends in the exception of that line; with
    the dump of the scenario it ends well. *)
Example bare_linkage_name_aborts :
  raised (Binary.__init__ (with_dump bare_name_dump) id default_settings
            "a.elf" None None None empty_world)
  = Some (Exception
            "Undeciferable info line '    <2e>   DW_AT_linkage_name: foo'")
  ∧ well_shaped None (Py.splitlines bare_name_dump) = false
  ∧ raised (Binary.__init__ scenario_env id default_settings
              "a.elf" None None None empty_world) = None.
Proof. vm_compute. done. Qed.

(** The shape expected of the value: some text, spaces, and a last
    token. The value [readelf] prints for an indirect string has it, a
    bare name and a value ending in a space have not. *)
Example token_shapes :
  token_shaped "(indirect string, offset: 0x12): _Z3foov" = true
  ∧ token_shaped "foo" = false
  ∧ token_shaped "foo " = false.
Proof. vm_compute. done. Qed.

(** ** Normalization of the return instruction *)


Section Retq.

Import Re.

Lemma starts_with_lit s pos rest caps :
  starts_with (ms (Lit s) (MState pos (list_ascii_of_string s ++ rest) caps))
    (MState (pos + String.length s) rest caps).
Proof.
  revert pos. induction s as [|c s IH]; intros pos.
  - simpl. rewrite Nat.add_0_r. by exists [].
  - cbn [Lit list_ascii_of_string app String.length].
    eapply starts_with_cat; [apply starts_with_chr|].
    replace (pos + S (String.length s)) with (S pos + String.length s) by lia.
    apply IH.
Qed.

Lemma space_is_not_c x : Char.is_space x = true → x ≠ "c"%char.
Proof. by intros Hx ->. Qed.

Lemma ms_cat_nil r1 r2 st : ms r1 st = [] → ms (Cat r1 r2) st = [].
Proof. intros H. cbn [ms]. by rewrite H. Qed.

Lemma ms_cat_single r1 r2 st mid :
  ms r1 st = [mid] → ms (Cat r1 r2) st = ms r2 mid.
Proof. intros H. cbn [ms]. rewrite H. simpl. apply app_nil_r. Qed.

Lemma ms_chr_other c y pos rest caps :
  y ≠ c → ms (Chr c) (MState pos (y :: rest) caps) = [].
Proof.
  intros Hne. cbn [ms m_rest].
  destruct (Ascii.eqb_spec c y) as [->|_]; [by destruct Hne|done].
Qed.

(** Where [c3_re] cannot match. *)
Lemma c3_fails rest pos caps :
  no_c3_here rest → ms c3_re (MState pos rest caps) = [].
Proof.
  destruct rest as [|x r]; [done|]. intros Hno.
  unfold c3_re. cbn [Seq].
  destruct (Char.is_space x) eqn:Hx.
  - destruct Hno as [?|Hno]; [congruence|].
    rewrite (ms_cat_single _ _ _ (MState (S pos) r caps))
      by (cbn [ms space m_rest]; by rewrite Hx).
    apply ms_cat_nil. cbn [Lit]. apply ms_cat_nil.
    destruct r as [|y r']; [done|]. by apply ms_chr_other.
  - apply ms_cat_nil. cbn [ms space m_rest]. by rewrite Hx.
Qed.

Lemma suffixes_after_spaces run rest :
  Forall (fun c => Char.is_space c = true) run →
  all_suffixes no_c3_here rest →
  match rest with [] => True | y :: _ => y ≠ "c"%char end →
  all_suffixes no_c3_here (run ++ rest).
Proof.
  intros Hrun Hrest Hhead. induction Hrun as [|x run Hx Hrun IH]; [done|].
  cbn [app all_suffixes]. split; [|exact IH].
  right. destruct run as [|x' run']; [exact Hhead|].
  apply space_is_not_c. by inversion Hrun.
Qed.

(** After the space in front of [c3], no position of the line lets
    [c3_re] match again. *)
Lemma no_c3_after ws trailing :
  Forall (fun c => Char.is_space c = true) ws →
  Forall (fun c => Char.is_space c = true) trailing →
  all_suffixes no_c3_here
    (list_ascii_of_string "c3" ++ ws
     ++ list_ascii_of_string "retq" ++ trailing).
Proof.
  intros Hws Htr.
  assert (Htrail : all_suffixes no_c3_here trailing).
  { rewrite <- (app_nil_r trailing). by apply suffixes_after_spaces. }
  assert (Hretq : all_suffixes no_c3_here
                    (list_ascii_of_string "retq" ++ trailing)).
  { simpl. split_and!; try (by left). exact Htrail. }
  simpl. split_and!; try (by left).
  by apply suffixes_after_spaces.
Qed.

Lemma suffixes_fail rest caps :
  all_suffixes no_c3_here rest →
  all_suffixes (fun r => ∀ pos, ms c3_re (MState pos r caps) = []) rest.
Proof.
  induction rest as [|c t IH]; intros [Hhere Hrest].
  - split; [|done]. intros pos. by apply c3_fails.
  - split; [|by apply IH]. intros pos. by apply c3_fails.
Qed.

End Retq.

Section RetqMatch.

Import Re.

Variables (pre ws trailing : list ascii) (w : ascii).

Let after_c3 : list ascii :=
  list_ascii_of_string "c3" ++ ws ++ list_ascii_of_string "retq" ++ trailing.

Let line : list ascii := pre ++ w :: after_c3.

Hypothesis no_line_feed : Forall (fun c => Char.is_dot c = true) line.
Hypothesis w_space : Char.is_space w = true.
Hypothesis ws_spaces : Forall (fun c => Char.is_space c = true) ws.
Hypothesis ws_not_empty : ws ≠ [].
Hypothesis trailing_spaces : Forall (fun c => Char.is_space c = true) trailing.

(** At the space in front of [c3], [c3_re] goes first to the
    mnemonic. *)
Lemma c3_first pos caps :
  starts_with (ms c3_re (MState pos (w :: after_c3) caps))
    (MState (pos + 3 + length ws)
       (list_ascii_of_string "retq" ++ trailing) caps).
Proof.
  unfold c3_re. cbn [Seq].
  eapply starts_with_cat; [by apply starts_with_cls|].
  eapply starts_with_cat; [apply (starts_with_lit "c3")|].
  eapply starts_with_cat; [|by exists []].
  destruct ws as [|x ws'] eqn:Hws; [done|].
  unfold Plus.
  eapply starts_with_cat;
    [apply starts_with_cls; by inversion ws_spaces|].
  cbn [ms m_rest]. eapply starts_with_eq.
  - apply starts_with_star_cls; [by inversion ws_spaces|done|].
    exact (Nat.lt_succ_diag_r _).
  - f_equal. simpl. lia.
Qed.

Lemma starts_with_star_end p run pos caps :
  Forall (fun c => p c = true) run →
  starts_with (ms (Star (Cls p)) (MState pos run caps))
    (MState (pos + length run) [] caps).
Proof.
  intros Hrun. cbn [ms m_rest].
  pose proof (starts_with_star_cls p run [] pos caps (S (length run)) Hrun I)
    as H.
  rewrite app_nil_r in H. apply H. lia.
Qed.

Lemma line_split :
  line = (pre ++ w :: list_ascii_of_string "c3" ++ ws)
         ++ list_ascii_of_string "retq" ++ trailing.
Proof. unfold line, after_c3. by rewrite <- !app_assoc. Qed.

Lemma line_length :
  length line = length pre + 3 + length ws + 4 + length trailing.
Proof.
  rewrite line_split. repeat (rewrite ?length_app; cbn [length]).
  simpl. lia.
Qed.

(** The first group goes first to the last place where [c3_re]
    matches, which is the one in front of the mnemonic. *)
Lemma group1_first :
  starts_with
    (ms (Group 1 (Seq [Bol; Star dot; space; Lit "c3"; Plus space]))
       (MState 0 line []))
    (MState (length pre + 3 + length ws)
       (list_ascii_of_string "retq" ++ trailing)
       [(1, string_of_list_ascii
              (pre ++ w :: list_ascii_of_string "c3" ++ ws))]).
Proof.
  assert (Hinner : starts_with
    (ms (Seq [Bol; Star dot; space; Lit "c3"; Plus space]) (MState 0 line []))
    (MState (length pre + 3 + length ws)
       (list_ascii_of_string "retq" ++ trailing) [])).
  { cbn [Seq]. eapply starts_with_cat; [by exists []|].
    change (Cat space (Cat (Lit "c3") (Cat (Plus space) Eps))) with c3_re.
    change (ms (Cat (Star dot) c3_re) (MState 0 line []))
      with (flat_map (ms c3_re)
              (star (ms (Cls Char.is_dot)) (S (length line))
                 (MState 0 line []))).
    rewrite star_cls_all by (done || lia).
    destruct (positions_desc_app pre (w :: after_c3) 0 []) as [before Hb].
    fold line in Hb. rewrite Hb. cbn [positions_desc].
    rewrite !flat_map_app.
    rewrite flat_map_positions_nil.
    - simpl. rewrite app_nil_r. apply starts_with_app. apply c3_first.
    - apply suffixes_fail. by apply no_c3_after. }
  cbn [ms]. eapply starts_with_eq; [by apply starts_with_map|].
  unfold close_group. cbn [m_pos m_rest m_caps]. do 4 f_equal.
  rewrite Nat.sub_0_r, line_split. apply take_app_length'.
  repeat (rewrite ?length_app; cbn [length]). simpl. lia.
Qed.

(** The whole pattern matches the whole line; its groups are what
    lies before the mnemonic and what lies after it. *)
Lemma retq_first :
  starts_with (ms SymbolCollector.retq_re (MState 0 line []))
    (MState (length line) []
       [(2, string_of_list_ascii trailing);
        (1, string_of_list_ascii
              (pre ++ w :: list_ascii_of_string "c3" ++ ws))]).
Proof.
  assert (Hdot : Forall (fun c => Char.is_dot c = true) trailing).
  { pose proof no_line_feed as H. rewrite line_split in H.
    apply Forall_app in H as [_ H]. by apply Forall_app in H as [_ H]. }
  unfold SymbolCollector.retq_re. cbn [Seq].
  eapply starts_with_cat; [apply group1_first|].
  eapply starts_with_cat; [apply (starts_with_lit "retq")|].
  eapply starts_with_cat.
  { cbn [ms]. apply starts_with_map. by apply starts_with_star_end. }
  eapply starts_with_eq; [eapply starts_with_cat; by exists []|].
  unfold close_group. cbn [m_pos m_rest m_caps].
  rewrite line_length, take_ge by lia. reflexivity.
Qed.

End RetqMatch.

(** *** The substitution *)

Lemma string_of_list_ascii_app l1 l2 :
  string_of_list_ascii (l1 ++ l2)
  = string_of_list_ascii l1 +:+ string_of_list_ascii l2.
Proof. induction l1 as [|c l1 IH]; simpl; [done|]. by rewrite IH. Qed.

Lemma list_ascii_of_string_app s1 s2 :
  list_ascii_of_string (s1 +:+ s2)
  = list_ascii_of_string s1 ++ list_ascii_of_string s2.
Proof. induction s1 as [|c s1 IH]; simpl; [done|]. by rewrite IH. Qed.

Lemma append_empty_r s : s +:+ "" = s.
Proof.
  induction s as [|c s IH]; [done|].
  change (String c (s +:+ "") = String c s). by rewrite IH.
Qed.

Lemma search_from_here r s i fuel m :
  Re.match_at r i s = Some m → Re.search_from r s i fuel = Some m.
Proof. intros H. destruct fuel; simpl; by rewrite H. Qed.

(** The pattern of [retq] is anchored: it matches nowhere but at the
    start. *)
Lemma retq_only_at_start pos rest caps :
  pos ≠ 0 → Re.ms SymbolCollector.retq_re (Re.MState pos rest caps) = [].
Proof.
  intros Hpos. unfold SymbolCollector.retq_re. cbn [Re.Seq].
  apply ms_cat_nil. cbn [Re.ms Re.m_pos].
  destruct (Nat.eqb_spec pos 0); [done|]. done.
Qed.

Lemma retq_sub_at_end l fuel :
  l ≠ [] →
  Re.sub_from SymbolCollector.retq_re SymbolCollector.retq_repl l
    (length l) fuel = "".
Proof.
  intros Hl. assert (Hpos : length l ≠ 0) by (by destruct l).
  destruct fuel as [|k]; cbn [Re.sub_from]; rewrite ?drop_all; [done|].
  rewrite Nat.sub_diag. cbn [Re.search_from]. unfold Re.match_at.
  by rewrite retq_only_at_start.
Qed.

(** On a line made of anything, a space, [c3], spaces, [retq] and
    trailing spaces, the substitution turns [retq] into [ret]. *)
Lemma unify_retq_line (pre ws trailing : list ascii) (w : ascii) :
  Forall (fun c => Char.is_dot c = true)
    (pre ++ w :: list_ascii_of_string "c3" ++ ws
         ++ list_ascii_of_string "retq" ++ trailing) →
  Char.is_space w = true →
  Forall (fun c => Char.is_space c = true) ws →
  ws ≠ [] →
  Forall (fun c => Char.is_space c = true) trailing →
  SymbolCollector._unifyX86InstructionLine
    (string_of_list_ascii
       (pre ++ w :: list_ascii_of_string "c3" ++ ws
            ++ list_ascii_of_string "retq" ++ trailing))
  = string_of_list_ascii
      (pre ++ w :: list_ascii_of_string "c3" ++ ws
           ++ list_ascii_of_string "ret" ++ trailing).
Proof.
  intros Hdot Hw Hws Hne Htr.
  set (line := pre ++ w :: list_ascii_of_string "c3" ++ ws
                   ++ list_ascii_of_string "retq" ++ trailing) in *.
  destruct (retq_first pre ws trailing w Hdot Hw Hws Hne Htr)
    as [others Hfirst]. fold line in Hfirst.
  assert (Hmatch : Re.match_at SymbolCollector.retq_re 0 line
    = Some (Re.MkMatch 0 (length line)
              [(2, string_of_list_ascii trailing);
               (1, string_of_list_ascii
                     (pre ++ w :: list_ascii_of_string "c3" ++ ws))])).
  { unfold Re.match_at. rewrite drop_0, Hfirst. done. }
  assert (Hlen : (0 <? length line) = true).
  { apply Nat.ltb_lt. unfold line. rewrite length_app. simpl. lia. }
  unfold SymbolCollector._unifyX86InstructionLine, Re.re_sub.
  rewrite list_ascii_of_string_of_list_ascii. cbn [Re.sub_from].
  rewrite (search_from_here _ _ _ _ _ Hmatch).
  cbn [Re.m_start Re.m_end]. rewrite Hlen, retq_sub_at_end
    by (unfold line; by destruct pre).
  rewrite Nat.sub_diag, take_0, append_empty_r.
  unfold SymbolCollector.retq_repl, Re.backref, Re.group. simpl.
  replace (pre ++ w :: "c" :: "3" :: ws ++ "r" :: "e" :: "t" :: trailing)%char
    with ((pre ++ w :: "c" :: "3" :: ws) ++ list_ascii_of_string "ret"
          ++ trailing)%char
    by (by rewrite <- app_assoc).
  by rewrite !string_of_list_ascii_app.
Qed.

Lemma all_chars_Forall p s :
  all_chars p s = true →
  Forall (fun c => p c = true) (list_ascii_of_string s).
Proof.
  unfold all_chars. rewrite forallb_forall, List.Forall_forall. auto.
Qed.

Lemma c3_line_chars address w ws mnemonic trailing :
  list_ascii_of_string (c3_line address w ws mnemonic trailing)
  = list_ascii_of_string address
    ++ w :: list_ascii_of_string "c3" ++ list_ascii_of_string ws
    ++ list_ascii_of_string mnemonic ++ list_ascii_of_string trailing.
Proof.
  unfold c3_line. rewrite list_ascii_of_string_app. simpl.
  by rewrite !list_ascii_of_string_app.
Qed.

(** C6. When the detected file format is [elf64-x86-64], a line that
    holds no line feed and is made of an address part, a space, the
    byte [c3], one or more spaces, the mnemonic [retq] and trailing
    spaces is rewritten into the same line with the mnemonic [ret];
    for any other file format, or none, every line is left as it
    is. *)
Theorem retq_normalization (b : Binary) :
  (∀ (address ws trailing : string) (w : ascii),
     file_format b = Some "elf64-x86-64" →
     all_chars Char.is_dot (c3_line address w ws "retq" trailing) = true →
     Char.is_space w = true →
     ws ≠ "" →
     all_chars Char.is_space ws = true →
     all_chars Char.is_space trailing = true →
     SymbolCollector._unifyInstructionLine b
       (c3_line address w ws "retq" trailing)
     = c3_line address w ws "ret" trailing)
  ∧ (file_format b ≠ Some "elf64-x86-64" →
     ∀ line, SymbolCollector._unifyInstructionLine b line = line).
Proof.
  split.
  - intros address ws trailing w Hformat Hdot Hw Hne Hws Htr.
    unfold SymbolCollector._unifyInstructionLine.
    rewrite decide_True by done.
    rewrite <- (string_of_list_ascii_of_string
                  (c3_line address w ws "retq" trailing)),
            <- (string_of_list_ascii_of_string
                  (c3_line address w ws "ret" trailing)).
    rewrite !c3_line_chars. apply unify_retq_line.
    + rewrite <- c3_line_chars. by apply all_chars_Forall.
    + done.
    + by apply all_chars_Forall.
    + by destruct ws.
    + by apply all_chars_Forall.
  - intros Hformat line. unfold SymbolCollector._unifyInstructionLine.
    by rewrite decide_False.
Qed.

Lemma retq_normalization_witness :
  SymbolCollector._unifyInstructionLine (self scenario_C_state)
    (c3_line "1000:" (ascii_of_nat 9) tab "retq" "")
  = c3_line "1000:" (ascii_of_nat 9) tab "ret" ""
  ∧ ∀ line,
      SymbolCollector._unifyInstructionLine (self foo_state) line = line.
Proof.
  split.
  - apply (proj1 (retq_normalization (self scenario_C_state)));
      first [reflexivity | discriminate].
  - apply (proj2 (retq_normalization (self foo_state))). discriminate.
Defined.

(** Scenario C of the specification, run: the instructions of [foo]
    are the single [ret]. With no file format detected the mnemonic
    stays. *)
Example scenario_C :
  instruction_lines
    (deref (heap (world (state_of
       (Binary._gatherSymbolInstructions (printing scenario_C_output) id
          scenario_C_state)))) 0) = ["ret"]
  ∧ instruction_lines
      (deref (heap (world (state_of
         (Binary._gatherSymbolInstructions (printing scenario_C_output) id
            foo_state)))) 0) = ["retq"].
Proof. vm_compute. done. Qed.

(** The pattern asks for a space in front of the byte: a line with the
    byte right after the colon of the address stays as it is. *)
Example retq_without_space_stays :
  SymbolCollector._unifyInstructionLine (self scenario_C_state)
    "1000:c3 retq" = "1000:c3 retq".
Proof. vm_compute. reflexivity. Qed.

(** * Further properties *)

(** ** What the collector hands over and what it appends *)

Section HandOver.

Variable b : Binary.

Lemma gather_line_handover line c h :
  let c' := (SymbolCollector.gather_line b line (c, h)).1 in
  sc_symbols c' ++ option_list (cur_symbol c')
  = (sc_symbols c ++ option_list (cur_symbol c))
    ++ option_list (known_address b line).
Proof.
  unfold SymbolCollector.gather_line, known_address.
  set (u := SymbolCollector._unifyInstructionLine b line).
  destruct (Re.re_match SymbolCollector.header_line_re u) as [m|] eqn:Hm.
  - destruct (symbols b !! group m 2) as [l|] eqn:Hl.
    + rewrite (check_header_known _ _ _ _ _ Hm Hl). simpl.
      by destruct (cur_symbol c).
    + rewrite (check_header_unknown _ _ _ _ Hm Hl). simpl.
      destruct (cur_symbol c); simpl; by rewrite !app_nil_r.
  - rewrite (check_header_none _ _ _ Hm). simpl. rewrite app_nil_r.
    destruct (Re.re_match SymbolCollector.instruction_line_re u);
      destruct c as [[l|] ss n]; simpl; repeat case_match; done.
Qed.

Lemma gather_fold_handover lines c h :
  let c' := (fold_left (fun st line => SymbolCollector.gather_line b line st)
               lines (c, h)).1 in
  sc_symbols c' ++ option_list (cur_symbol c')
  = (sc_symbols c ++ option_list (cur_symbol c))
    ++ omap (known_address b) lines.
Proof.
  revert c h. induction lines as [|line lines IH]; intros c h.
  - simpl. by rewrite app_nil_r.
  - cbn [fold_left]. pose proof (gather_line_handover line c h) as Hstep.
    destruct (SymbolCollector.gather_line b line (c, h)) as [c1 h1].
    cbn [fst] in Hstep. cbv zeta. rewrite IH, Hstep, <- app_assoc.
    f_equal. simpl. by destruct (known_address b line).
Qed.

End HandOver.

Lemma collected_handover (s : State) (out : string) :
  sc_symbols (collected s out).1
  = omap (known_address (self s)) (Py.splitlines out).
Proof.
  unfold collected, SymbolCollector._gatherSymbolInstructions.
  pose proof (gather_fold_handover (self s) (Py.splitlines out)
                SymbolCollector.__init__ (heap (world s))) as H.
  destruct (fold_left _ _ _) as [c h]. cbn [fst] in *. simpl in H.
  rewrite <- H. destruct c as [[l|] ss n]; simpl; [done|].
  by rewrite app_nil_r.
Qed.

(** X1. The symbols the collector hands over are the ones the known
    header lines of the disassembly name, in the order of the lines
    and as often as a header occurs; headers of unknown symbols and
    all other lines contribute nothing. *)
Theorem handed_over_symbols (s : State) (out : string) :
  sc_symbols (collected s out).1
  = omap (known_address (self s)) (Py.splitlines out).
Proof. apply collected_handover. Qed.

(** A header that occurs twice hands its symbol over twice. *)
Example header_twice_handed_twice :
  sc_symbols (collected foo_state two_function_output).1 = [0; 0].
Proof. vm_compute. reflexivity. Qed.

(** ** Instructions are appended, in order *)

Lemma grown_refl symbol : grown symbol symbol.
Proof. by unfold grown; split_and!. Qed.

Lemma grown_add x symbol symbol' :
  grown symbol symbol' → grown symbol (addInstructions x symbol').
Proof.
  intros (? & ? & ? & ? & ? & ? & ? & ? & Hp). unfold grown. simpl.
  split_and!; try done. by apply prefix_app_r.
Qed.

Lemma grown_update l x h h' :
  Forall2 grown h h' → Forall2 grown h (update_at l (addInstructions x) h').
Proof.
  intros H. apply Forall2_alter_r; [done|]. intros ? ? _ _.
  apply grown_add.
Qed.

Lemma gather_line_grown b line c h h' :
  Forall2 grown h h' →
  Forall2 grown h (SymbolCollector.gather_line b line (c, h')).2.
Proof.
  intros H. unfold SymbolCollector.gather_line.
  destruct (SymbolCollector._checkSymbolHeaderLine b _ c) as [[] c1]; simpl;
    [done|].
  repeat case_match; simpl; try done; by apply grown_update.
Qed.

Lemma gather_grown b lines c h h' :
  Forall2 grown h h' →
  Forall2 grown h
    (fold_left (fun st line => SymbolCollector.gather_line b line st)
       lines (c, h')).2.
Proof.
  revert c h'. induction lines as [|line lines IH]; intros c h' Hh; [done|].
  cbn [fold_left].
  pose proof (gather_line_grown b line c h h' Hh) as Hstep.
  destruct (SymbolCollector.gather_line b line (c, h')) as [c1 h1].
  by apply IH.
Qed.

Lemma collector_grown b out c h :
  Forall2 grown h
    (SymbolCollector._gatherSymbolInstructions b out (c, h)).2.
Proof.
  unfold SymbolCollector._gatherSymbolInstructions.
  pose proof (gather_grown b (Py.splitlines out) c h h) as H.
  destruct (fold_left _ _ _) as [c' h']. simpl in *. apply H.
  apply Forall_Forall2_diag, Forall_forall. intros. apply grown_refl.
Qed.

(** X2. The collector only appends: whatever the disassembly and
    whatever state the collector starts in, the store keeps its length
    and every symbol keeps its names, size, kind and source location,
    and its instructions as they were, followed by what was added. *)
Theorem collector_only_appends (b : Binary) (out : string)
    (c : SymbolCollector) (h : list Symbol) :
  Forall2 grown h
    (SymbolCollector._gatherSymbolInstructions b out (c, h)).2.
Proof. apply collector_grown. Qed.

Section Appending.

Variable b : Binary.

Lemma append_instructions_nil symbol : append_instructions [] symbol = symbol.
Proof.
  destruct symbol. unfold append_instructions, set_instruction_lines.
  simpl. by rewrite app_nil_r.
Qed.

Lemma append_instructions_add x new symbol :
  append_instructions new (addInstructions x symbol)
  = append_instructions (x :: new) symbol.
Proof.
  unfold append_instructions, addInstructions, set_instruction_lines.
  simpl. by rewrite <- app_assoc.
Qed.

Lemma update_at_append_nil l h : update_at l (append_instructions []) h = h.
Proof. unfold update_at. apply list_alter_id, append_instructions_nil. Qed.

Lemma update_at_append_add l x new h :
  update_at l (append_instructions new) (update_at l (addInstructions x) h)
  = update_at l (append_instructions (x :: new)) h.
Proof.
  unfold update_at. rewrite list_alter_alter_eq.
  apply list_alter_ext; [|done]. intros symbol _. simpl.
  apply append_instructions_add.
Qed.

(** One line under a current symbol that is no header line. *)
Lemma gather_line_current line c h l :
  cur_symbol c = Some l → header_line b line = false →
  let ch := SymbolCollector.gather_line b line (c, h) in
  cur_symbol ch.1 = Some l
  ∧ sc_symbols ch.1 = sc_symbols c
  ∧ ch.2 = match rendered b line with
           | Some x => update_at l (addInstructions x) h
           | None => h
           end.
Proof.
  intros Hcur Hhead. unfold header_line, matches in Hhead.
  unfold SymbolCollector.gather_line, rendered.
  destruct (Re.re_match SymbolCollector.header_line_re _) eqn:Hm; [done|].
  rewrite (check_header_none _ _ _ Hm).
  destruct c as [cur ss n]. simpl in *. subst cur.
  destruct (Re.re_match SymbolCollector.instruction_line_re _); simpl;
    [done|].
  by destruct (_ && _).
Qed.

Lemma gather_current lines c h l :
  cur_symbol c = Some l →
  Forall (fun line => header_line b line = false) lines →
  let ch := fold_left (fun st line => SymbolCollector.gather_line b line st)
              lines (c, h) in
  cur_symbol ch.1 = Some l
  ∧ sc_symbols ch.1 = sc_symbols c
  ∧ ch.2 = update_at l (append_instructions (omap (rendered b) lines)) h.
Proof.
  intros Hcur Hlines. revert c h Hcur.
  induction Hlines as [|line lines Hline _ IH]; intros c h Hcur.
  - simpl. by rewrite update_at_append_nil.
  - cbn [fold_left].
    destruct (gather_line_current line c h l Hcur Hline) as (Hc1 & Hs1 & Hh1).
    destruct (SymbolCollector.gather_line b line (c, h)) as [c1 h1].
    cbn [fst snd] in *.
    destruct (IH c1 h1 Hc1) as (Hc2 & Hs2 & Hh2).
    split_and!; [done|congruence|]. rewrite Hh2, Hh1. simpl.
    destruct (rendered b line); [|done]. apply update_at_append_add.
Qed.

End Appending.

(** X3. After the header line of a known symbol, the lines up to the
    next header line are appended to the instructions of that symbol,
    in their order: the text of an instruction line, a source line
    between the two tags, nothing for an empty or blank line. No other
    symbol is touched, and the symbol current before the header is
    handed over. *)
Theorem instructions_appended_in_order (b : Binary) (line : string)
    (following : list string) (c : SymbolCollector) (h : list Symbol)
    (l : loc) :
  known_address b line = Some l →
  Forall (fun line' => header_line b line' = false) following →
  let ch := fold_left (fun st line' => SymbolCollector.gather_line b line' st)
              (line :: following) (c, h) in
  cur_symbol ch.1 = Some l
  ∧ sc_symbols ch.1 = sc_symbols c ++ option_list (cur_symbol c)
  ∧ ch.2 = update_at l (append_instructions (omap (rendered b) following)) h.
Proof.
  intros Hknown Hrest. cbn [fold_left].
  assert (Hstep : SymbolCollector.gather_line b line (c, h)
    = (MkSymbolCollector (Some l)
         (sc_symbols c ++ option_list (cur_symbol c))
         (n_instruction_lines c), h)).
  { unfold known_address in Hknown. unfold SymbolCollector.gather_line.
    destruct (Re.re_match SymbolCollector.header_line_re _) as [m|] eqn:Hm;
      [|done].
    rewrite (check_header_known _ _ _ _ _ Hm Hknown).
    by destruct (cur_symbol c). }
  rewrite Hstep.
  by destruct (gather_current b following
                 (MkSymbolCollector (Some l)
                    (sc_symbols c ++ option_list (cur_symbol c))
                    (n_instruction_lines c)) h l eq_refl Hrest)
    as (? & ? & ?).
Qed.

Lemma instructions_appended_in_order_witness :
  let b := self foo_state in
  let following :=
    ["int foo() {";
     "    1000:" +:+ tab +:+ "55" +:+ tab +:+ "push   %rbp";
     "   ";
     "    1001:" +:+ tab +:+ "c3" +:+ tab +:+ "ret"] in
  let ch := fold_left (fun st line' => SymbolCollector.gather_line b line' st)
              ("0000000000001000 <foo>:" :: following)
              (SymbolCollector.__init__, heap (world foo_state)) in
  cur_symbol ch.1 = Some 0
  ∧ sc_symbols ch.1
    = sc_symbols SymbolCollector.__init__
      ++ option_list (cur_symbol SymbolCollector.__init__)
  ∧ ch.2 = update_at 0 (append_instructions (omap (rendered b) following))
             (heap (world foo_state)).
Proof.
  apply (instructions_appended_in_order (self foo_state)).
  - vm_compute. reflexivity.
  - repeat apply List.Forall_cons; [..|apply List.Forall_nil];
      vm_compute; reflexivity.
Defined.

(** The instructions of [foo] in that disassembly: the source line in
    its tags and the two instructions; the blank line is skipped. *)
Example foo_instructions :
  instruction_lines
    (deref (collected foo_state two_function_output).2 0)
  = ["...ED_SOURCE_START...int foo() {...ED_SOURCE_END...";
     "push   %rbp"; "ret"].
Proof. vm_compute. reflexivity. Qed.

(** ** The mangling file *)

Lemma read_pairs_pairs ps dangling x d :
  length dangling ≤ 1 →
  Mangling.read_pairs (pair_lines ps ++ dangling) 0 x d
  = fold_left (fun d p => <[p.1 := p.2]> d) ps d.
Proof.
  intros Hd. revert x d. induction ps as [|[m dm] ps IH]; intros x d.
  - destruct dangling as [|line [|]]; [done|done|simpl in Hd; lia].
  - cbn [pair_lines flat_map app fst snd fold_left Mangling.read_pairs].
    change (0 =? 0) with true. cbn iota.
    change ((0 + 1) mod 2) with 1.
    change (1 =? 0) with false. cbn iota.
    change ((1 + 1) mod 2) with 0.
    apply IH.
Qed.

Lemma fold_insert_lookup (ps : list (string * string)) (n : string)
    (d : gmap string string) :
  fold_left (fun d p => <[p.1 := p.2]> d) ps d !! n
  = match last_binding ps n with
    | Some v => Some v
    | None => d !! n
    end.
Proof.
  unfold last_binding. revert d.
  induction ps as [|[m dm] ps IH] using rev_ind; intros d; [done|].
  rewrite fold_left_app, filter_app. cbn [fold_left fst snd].
  destruct (decide (m = n)) as [->|Hne].
  - rewrite lookup_insert_eq, filter_cons_True by done.
    rewrite filter_nil. by rewrite last_snoc.
  - rewrite lookup_insert_ne by done.
    rewrite filter_cons_False by done.
    rewrite filter_nil, app_nil_r. apply IH.
Qed.

(** X4. A mangling file is read as pairs of lines, the mangled name and
    then the demangled one. A name is demangled to what the last pair
    for it says; a name of no pair is handed back as it is, with
    [False]; a line left over at the end is ignored. *)
Theorem mangling_file_pairs (env : Env) (f : string)
    (ps : list (string * string)) (dangling : list string) (n : string) :
  isfile env f = true →
  Py.splitlines (read_file env f) = pair_lines ps ++ dangling →
  length dangling ≤ 1 →
  Mangling.demangle (Mangling.__init__ env (Some f)) n
  = match last_binding ps n with
    | Some demangled => (demangled, true)
    | None => (n, false)
    end.
Proof.
  intros Hfile Hlines Hd.
  unfold Mangling.demangle, Mangling.__init__, Mangling._setupMangling.
  cbn [mangling_dict]. rewrite Hfile, Hlines. cbn [negb].
  rewrite (read_pairs_pairs ps dangling "" ∅ Hd), fold_insert_lookup.
  rewrite lookup_empty. by destruct (last_binding ps n).
Qed.

Lemma mangling_file_pairs_witness :
  Mangling.demangle (Mangling.__init__ mangling_env (Some "names.txt"))
    "_Z3foov"
  = match last_binding [("_Z3foov", "foo()"); ("_Z3foov", "foo() const")]
            "_Z3foov" with
    | Some demangled => (demangled, true)
    | None => ("_Z3foov", false)
    end.
Proof.
  apply (mangling_file_pairs mangling_env "names.txt"
           [("_Z3foov", "foo()"); ("_Z3foov", "foo() const")] ["_Z3barv"]).
  - vm_compute. reflexivity.
  - vm_compute. reflexivity.
  - simpl. lia.
Defined.

(** The second pair for [_Z3foov] wins, and the line left over
    demangles nothing. *)
Example mangling_file_last_pair_wins :
  let m := Mangling.__init__ mangling_env (Some "names.txt") in
  Mangling.demangle m "_Z3foov" = ("foo() const", true)
  ∧ Mangling.demangle m "_Z3barv" = ("_Z3barv", false).
Proof. vm_compute. done. Qed.

(** X5. Without a mangling file, or when the path is no file, no map is
    built, and a binary that holds such a [Mangling] demangles nothing
    from it: a name comes back as it is, marked demangled exactly when
    the binutils are held to work. *)
Theorem no_mangling_file_falls_back (env : Env) (mf : option string)
    (b : Binary) (n : string) :
  (∀ f, mf = Some f → isfile env f = false) →
  mangling b = Some (Mangling.__init__ env mf) →
  mangling_dict (Mangling.__init__ env mf) = None
  ∧ Binary.demangle b n = (n, binutils_work b).
Proof.
  intros Hmf Hb.
  assert (Hnone : mangling_dict (Mangling.__init__ env mf) = None).
  { unfold Mangling.__init__, Mangling._setupMangling. cbn [mangling_dict].
    destruct mf as [f|]; [|done]. by rewrite (Hmf f eq_refl). }
  split; [done|].
  unfold Binary.demangle, Mangling.demangle. rewrite Hb, Hnone.
  by destruct (binutils_work b).
Qed.

Lemma no_mangling_file_falls_back_witness :
  let b := MkBinary default_settings "a.elf"
             (Some (Mangling.__init__ mangling_env (Some "missing.txt")))
             false 0 0 0 0 0 0 None None None ∅ ∅ 0 None in
  mangling_dict (Mangling.__init__ mangling_env (Some "missing.txt")) = None
  ∧ Binary.demangle b "_Z3foov" = ("_Z3foov", binutils_work b).
Proof.
  apply (no_mangling_file_falls_back mangling_env (Some "missing.txt")).
  - intros f [= <-]. vm_compute. reflexivity.
  - reflexivity.
Defined.

(** ** The initialization of the symbols *)

Section InitSymbols.

Variable symbol_init : Symbol → Symbol.

Lemma initSymbols_loop ks s :
  for_each ks
    (fun symbol_name_mangled =>
       b <- gets self ;;
       match symbols b !! symbol_name_mangled with
       | Some symbol => Binary.set_attr symbol symbol_init
       | None => ret tt
       end) s
  = Ok tt (MkState (self s)
             (set_heap
                (fold_left (init_key symbol_init (symbols (self s))) ks
                   (heap (world s)))
                (world s))).
Proof.
  revert s. induction ks as [|k ks IH]; intros [b w].
  - by destruct w.
  - cbn [for_each fold_left]. unfold bind at 1. unfold bind at 1.
    cbn [gets self]. unfold init_key at 2. cbn [self world].
    destruct (symbols b !! k) as [l|]; cbn.
    + rewrite IH. by destruct w.
    + by rewrite IH.
Qed.

Lemma init_keys_length t ks h :
  length (fold_left (init_key symbol_init t) ks h) = length h.
Proof.
  revert h. induction ks as [|k ks IH]; intros h; [done|].
  cbn [fold_left]. rewrite IH. unfold init_key.
  destruct (t !! k); [apply length_alter|done].
Qed.

Lemma init_keys_untouched t ks h l :
  (∀ k, k ∈ ks → t !! k ≠ Some l) →
  fold_left (init_key symbol_init t) ks h !! l = h !! l.
Proof.
  revert h. induction ks as [|k ks IH]; intros h Hks; [done|].
  cbn [fold_left]. rewrite IH by (intros k' Hk'; apply Hks; by right).
  unfold init_key. destruct (t !! k) as [l'|] eqn:Hk; [|done].
  apply list_lookup_alter_ne. intros ->. apply (Hks k); [by left|done].
Qed.

Lemma init_keys_touched t ks h k l :
  NoDup ks →
  (∀ k1 k2 l, t !! k1 = Some l → t !! k2 = Some l → k1 = k2) →
  k ∈ ks → t !! k = Some l →
  fold_left (init_key symbol_init t) ks h !! l = symbol_init <$> h !! l.
Proof.
  intros Hnd Hinj. revert h.
  induction Hnd as [|k0 ks Hk0 Hnd IH]; intros h Hk Hl.
  { by apply elem_of_nil in Hk. }
  cbn [fold_left]. apply elem_of_cons in Hk as [->|Hk].
  - rewrite init_keys_untouched.
    + unfold init_key. rewrite Hl. apply list_lookup_alter_eq.
    + intros k' Hk' Hl'. apply Hk0. by rewrite (Hinj _ _ _ Hl Hl').
  - rewrite IH by done. unfold init_key.
    destruct (t !! k0) as [l0|] eqn:Hl0; [|done].
    unfold update_at. rewrite list_lookup_alter_ne; [done|]. intros ->.
    apply Hk0. by rewrite (Hinj _ _ _ Hl0 Hl).
Qed.

End InitSymbols.

(** X6. [_initSymbols] puts every object of the symbol table through
    [init] exactly once and leaves the other objects of the store and
    the binary as they are; it does not raise. The table is the one
    the earlier phases leave, in which each entry is stored under the
    mangled name of its object. *)
Theorem symbols_initialized_once (symbol_init : Symbol → Symbol)
    (s : State) :
  names_consistent s →
  Binary._initSymbols symbol_init s
  = Ok tt (MkState (self s)
             (set_heap
                (initialized symbol_init (self s) (heap (world s)))
                (world s))).
Proof.
  intros Hc. unfold Binary._initSymbols. unfold bind at 1. cbn [gets].
  rewrite initSymbols_loop. do 3 f_equal.
  assert (Hinj : ∀ k1 k2 l, symbols (self s) !! k1 = Some l →
                   symbols (self s) !! k2 = Some l → k1 = k2).
  { intros k1 k2 l H1 H2. destruct (Hc _ _ H1) as [_ <-].
    by destruct (Hc _ _ H2) as [_ <-]. }
  assert (Hperm : Py.sorted (map fst (map_to_list (symbols (self s))))
                  ≡ₚ (map_to_list (symbols (self s))).*1)
    by apply merge_sort_Permutation.
  assert (Hnd : NoDup (Py.sorted (map fst (map_to_list (symbols (self s))))))
    by (rewrite Hperm; apply NoDup_fst_map_to_list).
  apply list_eq. intros l. unfold initialized. rewrite list_lookup_imap.
  case_bool_decide as Hin.
  - apply list_elem_of_fmap in Hin as ([k l'] & -> & Hin).
    apply elem_of_map_to_list in Hin.
    rewrite (init_keys_touched symbol_init _ _ _ k l' Hnd Hinj); [| |done].
    + by destruct (heap (world s) !! l').
    + rewrite Hperm. apply list_elem_of_fmap.
      exists (k, l'). split; [done|]. by apply elem_of_map_to_list.
  - rewrite init_keys_untouched.
    + symmetry. apply (option_fmap_id (heap (world s) !! l)).
    + intros k _ Hk. apply Hin. apply list_elem_of_fmap.
      exists (k, l). split; [done|]. by apply elem_of_map_to_list.
Qed.

Lemma symbols_initialized_once_witness :
  Binary._initSymbols (set_type_ "T") two_symbol_state
  = Ok tt (MkState (self two_symbol_state)
             (set_heap
                (initialized (set_type_ "T") (self two_symbol_state)
                   (heap (world two_symbol_state)))
                (world two_symbol_state))).
Proof.
  apply (symbols_initialized_once (set_type_ "T") two_symbol_state).
  intros k l Hk.
  change (symbols (self two_symbol_state))
    with ({[ "foo" := 0; "bar" := 2 ]} : gmap string loc) in Hk.
  apply lookup_insert_Some in Hk as [[<- <-]|[_ Hk]].
  { split; [simpl; lia|reflexivity]. }
  apply lookup_singleton_Some in Hk as [<- <-].
  split; [simpl; lia|reflexivity].
Defined.

(** The two objects of the table are initialized, the third object is
    not. *)
Example init_skips_objects_outside_table :
  type_ <$> heap (world (state_of
              (Binary._initSymbols (set_type_ "T") two_symbol_state)))
  = ["T"; "?"; "T"].
Proof. vm_compute. reflexivity. Qed.

(** ** What the debug-information phase writes *)

Lemma relocated_refl symbol : relocated symbol symbol.
Proof. by unfold relocated. Qed.

Lemma relocated_trans x y z : relocated x y → relocated y z → relocated x z.
Proof. unfold relocated. intros ? ?. split_and!; naive_solver congruence. Qed.

Lemma sources_added_refl b : sources_added b b.
Proof. split_and!; [by destruct b|done|by left]. Qed.

Lemma sources_added_trans b1 b2 b3 :
  sources_added b1 b2 → sources_added b2 b3 → sources_added b1 b3.
Proof.
  intros (E1 & K1 & O1) (E2 & K2 & O2). split_and!.
  - rewrite <- E1 at 2. rewrite <- E2. done.
  - eauto.
  - intros k f Hf. destruct (O2 k f Hf) as [Hf2|?]; [|by right].
    apply (O1 k f Hf2).
Qed.

Lemma debug_frame_refl s : debug_frame s s.
Proof.
  split_and!.
  - apply Forall_Forall2_diag, Forall_forall. intros. apply relocated_refl.
  - apply sources_added_refl.
  - by destruct (world s).
Qed.

Lemma debug_frame_trans s1 s2 s3 :
  debug_frame s1 s2 → debug_frame s2 s3 → debug_frame s1 s3.
Proof.
  intros (H1 & B1 & W1) (H2 & B2 & W2). split_and!.
  - eapply Forall2_trans; [|done..]. apply relocated_trans.
  - by eapply sources_added_trans.
  - rewrite <- W1 at 2. rewrite <- W2. done.
Qed.

Lemma debug_step_frame s s' : debug_step s s' → debug_frame s s'.
Proof.
  destruct 1 as [d s _|s f id _].
  - unfold flushed. destruct (_name_mangled d) as [n|];
      [|apply debug_frame_refl].
    destruct (symbols (self s) !! n) as [l|]; [|apply debug_frame_refl].
    split_and!; cbn [self world heap set_heap].
    + apply Forall2_alter_r.
      * apply Forall_Forall2_diag, Forall_forall. intros.
        apply relocated_refl.
      * intros symbol ? _ _. by unfold relocated.
    + apply sources_added_refl.
    + by destruct (world s).
  - unfold registered. split_and!; cbn [self world].
    + apply Forall_Forall2_diag, Forall_forall. intros.
      apply relocated_refl.
    + split_and!; cbn [source_files set_source_files].
      * by destruct (self s).
      * intros k Hk. destruct (decide (id = k)) as [->|Hne].
        -- rewrite lookup_insert_eq. eauto.
        -- by rewrite lookup_insert_ne.
      * intros k f' Hf. destruct (decide (id = k)) as [->|Hne].
        -- rewrite lookup_insert_eq in Hf. injection Hf as <-. by right.
        -- rewrite lookup_insert_ne in Hf by done. by left.
    + by destruct (world s).
Qed.

Lemma debug_steps_frame s s' : rtc debug_step s s' → debug_frame s s'.
Proof.
  induction 1 as [s|s s1 s2 Hstep _ IH]; [apply debug_frame_refl|].
  eapply debug_frame_trans; [by apply debug_step_frame|done].
Qed.

(** X7. Whatever the dump tool prints, and whether or not the phase
    raises, the debug-information phase writes nothing but source
    locations and source files: every symbol keeps its names, size,
    kind and instructions, no object is created or dropped, and the
    binary keeps every attribute but its table of source files, in
    which no key is lost and every new entry is stored under its own
    id. The warnings and the printed lines stay, and one invocation,
    of the dump tool, is logged. *)
Theorem debug_phase_writes_sources_only (env : Env) (s : State) :
  let s' := state_of (Binary._gatherDebugInformation env s) in
  Forall2 relocated (heap (world s)) (heap (world s'))
  ∧ sources_added (self s) (self s')
  ∧ set_heap (heap (world s)) (world s') = world (after_readelf s).
Proof.
  intros s'. subst s'.
  by destruct (debug_steps_frame _ _ (debug_phase_steps env s))
    as (? & ? & ?).
Qed.

(** On the dump of [foo]: the symbol gets its location and keeps the
    rest, and the source file is entered under the id of its unit. *)
Example foo_dump_frame :
  let s' := state_of (Binary._gatherDebugInformation (printing foo_dump)
                        foo_state) in
  set_source_column None
    (set_source_line None (set_source_id PyNone (deref (heap (world s')) 0)))
  = deref (heap (world foo_state)) 0
  ∧ (sf_id_ <$> source_files (self s') !! PyStr "1" = Some (PyStr "1")).
Proof. vm_compute. done. Qed.

(** ** The tools and the order they run in *)

Section Logs.

Variable st : Settings.
Variable fn : string.

Lemma logs_ret {A} (a : A) : logs st fn [] (ret a).
Proof.
  intros s Hst Hfn. split_and!; [done..|]. exists [].
  split_and!; [done|by rewrite app_nil_r|done].
Qed.

Lemma logs_raise {A} cmds e : logs st fn cmds (raise e : M State A).
Proof.
  intros s Hst Hfn. split_and!; [done..|]. exists [].
  split_and!; [apply prefix_nil|by rewrite app_nil_r|done].
Qed.

Lemma logs_bind {A B} cmds1 cmds2 (c : M State A) (k : A → M State B) :
  logs st fn cmds1 c → (∀ a, logs st fn cmds2 (k a)) →
  logs st fn (cmds1 ++ cmds2) (bind c k).
Proof.
  intros Hc Hk s Hst Hfn.
  destruct (Hc s Hst Hfn) as (Hs1 & Hf1 & d1 & Hp1 & Ht1 & Hr1).
  unfold bind. destruct (c s) as [a s1|e s1]; cbn [state_of raised] in *.
  - rewrite (Hr1 eq_refl) in Ht1.
    destruct (Hk a s1 Hs1 Hf1) as (Hs2 & Hf2 & d2 & Hp2 & Ht2 & Hr2).
    split_and!; [done..|]. exists (cmds1 ++ d2). split_and!.
    + by apply prefix_app.
    + by rewrite Ht2, Ht1, app_assoc.
    + intros Hr. by rewrite (Hr2 Hr).
  - split_and!; [done..|]. exists d1. split_and!; [|done|done].
    by apply prefix_app_r.
Qed.

(** A step that logs nothing, and then the rest. *)
Lemma logs_then {A B} cmds (c : M State A) (k : A → M State B) :
  logs st fn [] c → (∀ a, logs st fn cmds (k a)) →
  logs st fn cmds (bind c k).
Proof. apply (logs_bind [] cmds). Qed.

Lemma logs_gets {A} (f : State → A) : logs st fn [] (gets f).
Proof.
  intros s Hst Hfn. split_and!; [done..|]. exists [].
  split_and!; [done|by rewrite app_nil_r|done].
Qed.

Lemma logs_assign {V} (set : V → Binary → Binary) (v : V) :
  (∀ b, settings (set v b) = settings b ∧ filename (set v b) = filename b) →
  logs st fn [] (assign set v).
Proof.
  intros Hset s Hst Hfn. destruct (Hset (self s)) as [Hs Hf].
  cbn [assign modify state_of self world raised].
  split_and!; [congruence..|]. exists [].
  split_and!; [done|by rewrite app_nil_r|done].
Qed.

Lemma logs_update_world (f : World → World) :
  (∀ w, tool_calls (f w) = tool_calls w) →
  logs st fn [] (update_world f).
Proof.
  intros Hf s Hst Hfn.
  cbn [update_world modify state_of self world raised].
  split_and!; [done..|]. exists [].
  split_and!; [done|by rewrite Hf, app_nil_r|done].
Qed.

Lemma logs_int s' : logs st fn [] (int s' : M State Z).
Proof. unfold int. destruct (Py.int s'); [apply logs_ret|apply logs_raise]. Qed.

Lemma logs_for_each {A} (l : list A) (body : A → M State unit) :
  (∀ x, logs st fn [] (body x)) → logs st fn [] (for_each l body).
Proof.
  intros Hbody. induction l as [|x l IH]; [apply logs_ret|].
  cbn [for_each]. apply logs_then; [apply Hbody|]. intros _. apply IH.
Qed.

Variable env : Env.

Lemma logs_run cmd (make : Binary → list string) :
  make = (fun b => cmd (settings b) (filename b)) →
  logs st fn [cmd st fn] (b <- gets self ;; Binary.run env (make b)).
Proof.
  intros -> s Hst Hfn. unfold bind, Binary.run, update_world, modify, gets.
  rewrite Hst, Hfn.
  destruct (popen env (cmd st fn)); cbn [state_of raised self world];
    (split_and!; [done..|]); exists [cmd st fn]; by split_and!.
Qed.

End Logs.

Section Phases.

Variable st : Settings.
Variable fn : string.
Variable env : Env.
Variable symbol_init : Symbol → Symbol.

Lemma logs_warning msg : logs st fn [] (warning msg).
Proof. apply logs_update_world. by intros []. Qed.

Lemma logs_print line : logs st fn [] (print line).
Proof. apply logs_update_world. by intros []. Qed.

Lemma logs_set_attr l f : logs st fn [] (Binary.set_attr l f).
Proof. apply logs_update_world. by intros []. Qed.

Lemma logs_addSymbol l : logs st fn [] (Binary._addSymbol symbol_init l).
Proof.
  unfold Binary._addSymbol.
  apply logs_then; [apply logs_update_world; by intros []|intros _].
  apply logs_then; [apply logs_gets|intros h].
  apply logs_then; [apply logs_gets|intros b].
  apply logs_assign. by intros.
Qed.

Lemma logs_generateSymbol m n d :
  logs st fn [] (Binary._generateSymbol m n d).
Proof.
  unfold Binary._generateSymbol.
  apply logs_then; [apply logs_gets|intros b].
  destruct (Binary._isSymbolSelected b n).
  - apply logs_then; [apply logs_gets|intros h].
    apply logs_then; [apply logs_update_world; by intros []|intros _].
    apply logs_ret.
  - apply logs_then; [apply logs_assign; by intros|intros _].
    apply logs_ret.
Qed.

Lemma logs_nm_line lm ld : logs st fn [] (Binary.nm_line symbol_init lm ld).
Proof.
  unfold Binary.nm_line.
  destruct (Re.re_match Binary.nm_regex lm) as [mm|]; [|apply logs_ret].
  apply logs_then.
  { destruct (Re.re_match Binary.nm_regex ld); [apply logs_ret|].
    apply logs_raise. }
  intros n. apply logs_then; [apply logs_gets|intros b].
  destruct (Binary.demangle b n) as [display dem].
  destruct (symbols b !! group mm 3) as [l|].
  - apply logs_then; [apply logs_int|intros sz].
    apply logs_then; [apply logs_set_attr|intros _]. apply logs_set_attr.
  - apply logs_then; [apply logs_generateSymbol|intros [l|]];
      [|apply logs_ret].
    apply logs_then; [apply logs_int|intros sz].
    apply logs_then; [apply logs_set_attr|intros _].
    apply logs_then; [apply logs_set_attr|intros _].
    apply logs_addSymbol.
Qed.

Lemma logs_size_lines lines : logs st fn [] (Binary.size_lines lines).
Proof.
  induction lines as [|line lines IH]; [apply logs_ret|].
  cbn [Binary.size_lines].
  destruct (Re.re_match Binary.size_re line) as [m|]; [|apply IH].
  repeat first
    [ apply logs_ret
    | apply logs_assign; by intros
    | apply logs_then; [first [apply logs_int|apply logs_gets
                              |apply logs_assign; by intros]|intros ?] ].
Qed.

Lemma logs_determineBinaryFileFormat :
  logs st fn [[objdump_command st; "-a"; fn]]
    (Binary._determineBinaryFileFormat env).
Proof.
  unfold Binary._determineBinaryFileFormat.
  apply (logs_bind st fn [[objdump_command st; "-a"; fn]] []).
  { apply (logs_run st fn env
             (fun st fn => [objdump_command st; "-a"; fn])). done. }
  intros out. apply logs_then; [apply logs_gets|intros b].
  destruct (Re.re_search Binary.file_format_re out).
  - apply logs_then; [apply logs_assign; by intros|intros _].
    apply logs_print.
  - apply logs_print.
Qed.

Lemma logs_determineSymbolSizes :
  logs st fn [[size_command st; fn]] (Binary._determineSymbolSizes env).
Proof.
  unfold Binary._determineSymbolSizes.
  apply (logs_bind st fn [[size_command st; fn]] []).
  { apply (logs_run st fn env (fun st fn => [size_command st; fn])). done. }
  intros out. apply logs_then; [apply logs_size_lines|intros found].
  destruct found; cbn [negb]; [apply logs_ret|].
  apply logs_then; [apply logs_warning|intros _].
  apply logs_assign. by intros.
Qed.

Lemma logs_gatherSymbolProperties :
  logs st fn
    [[nm_command st; "--print-size"; "--size-sort"; "--radix=d"; ""; fn];
     [nm_command st; "--print-size"; "--size-sort"; "--radix=d"; "-C"; fn]]
    (Binary._gatherSymbolProperties env symbol_init).
Proof.
  unfold Binary._gatherSymbolProperties.
  apply (logs_bind st fn
    [[nm_command st; "--print-size"; "--size-sort"; "--radix=d"; ""; fn]]
    [[nm_command st; "--print-size"; "--size-sort"; "--radix=d"; "-C"; fn]]).
  { apply (logs_run st fn env
      (fun st fn => [nm_command st; "--print-size"; "--size-sort";
                     "--radix=d"; ""; fn])). done. }
  intros mangled.
  apply (logs_bind st fn
    [[nm_command st; "--print-size"; "--size-sort"; "--radix=d"; "-C"; fn]]
    []).
  { apply (logs_run st fn env
      (fun st fn => [nm_command st; "--print-size"; "--size-sort";
                     "--radix=d"; "-C"; fn])). done. }
  intros demangled.
  apply logs_then; [apply logs_assign; by intros|intros _].
  apply logs_for_each. intros [lm ld]. apply logs_nm_line.
Qed.

Lemma logs_gatherSymbolInstructions :
  logs st fn [[objdump_command st; "-drwS"; fn]]
    (Binary._gatherSymbolInstructions env symbol_init).
Proof.
  unfold Binary._gatherSymbolInstructions.
  apply (logs_bind st fn [[objdump_command st; "-drwS"; fn]] []).
  { apply (logs_run st fn env
             (fun st fn => [objdump_command st; "-drwS"; fn])). done. }
  intros out. apply logs_then; [apply logs_gets|intros b].
  apply logs_then; [apply logs_gets|intros h].
  destruct (SymbolCollector._gatherSymbolInstructions b out _) as [c h'].
  apply logs_then; [apply logs_update_world; by intros []|intros _].
  apply logs_then; [apply logs_for_each, logs_addSymbol|intros _].
  apply logs_then; [apply logs_assign; by intros|intros _].
  destruct (_ =? _)%Z; [apply logs_warning|apply logs_ret].
Qed.

Lemma logs_gatherDebugInformation :
  logs st fn [[readelf_command st; "--debug-dump=info"; fn]]
    (Binary._gatherDebugInformation env).
Proof.
  intros s Hst Hfn.
  destruct (debug_steps_frame _ _ (debug_phase_steps env s))
    as (_ & (Hb & _) & Hw).
  set (s' := state_of (Binary._gatherDebugInformation env s)) in *.
  cbn [after_readelf self world] in Hb, Hw.
  split_and!.
  - rewrite <- Hst, <- Hb. by destruct (self s').
  - rewrite <- Hfn, <- Hb. by destruct (self s').
  - exists [[readelf_command st; "--debug-dump=info"; fn]].
    split_and!; [done| |done].
    apply (f_equal tool_calls) in Hw. cbn in Hw.
    rewrite Hw. unfold readelf_command_line. by rewrite Hst, Hfn.
Qed.

Lemma logs_initSymbols : logs st fn [] (Binary._initSymbols symbol_init).
Proof.
  unfold Binary._initSymbols.
  apply logs_then; [apply logs_gets|intros b].
  apply logs_for_each. intros k.
  apply logs_then; [apply logs_gets|intros b'].
  destruct (symbols b' !! k); [apply logs_set_attr|apply logs_ret].
Qed.

Lemma logs_parseSymbols :
  logs st fn (tail (construction_commands st fn))
    (Binary._parseSymbols env symbol_init).
Proof.
  unfold Binary._parseSymbols.
  apply (logs_bind st fn [[size_command st; fn]] _ _ _
           logs_determineSymbolSizes). intros _.
  apply (logs_bind st fn
    [[nm_command st; "--print-size"; "--size-sort"; "--radix=d"; ""; fn];
     [nm_command st; "--print-size"; "--size-sort"; "--radix=d"; "-C"; fn]]
    _ _ _ logs_gatherSymbolProperties). intros _.
  apply (logs_bind st fn [[objdump_command st; "-drwS"; fn]] _ _ _
           logs_gatherSymbolInstructions). intros _.
  apply (logs_bind st fn [[readelf_command st; "--debug-dump=info"; fn]] []
           _ _ logs_gatherDebugInformation). intros _.
  apply logs_initSymbols.
Qed.

End Phases.

(** X8. A construction invokes the tools in one order: the archive
    headers of objdump, size, nm without and then with demangling, the
    disassembly of objdump, and the debug dump of readelf, each once
    and on the file of the binary. However it ends, the invocations it
    logged are an initial part of this sequence, and when it returns
    they are the whole of it. *)
Theorem tools_run_in_order (env : Env) (symbol_init : Symbol → Symbol)
    (st : Settings) (fn : string) (sel excl : option Re.regex)
    (mangling : option Mangling) (w : World) :
  let r := Binary.__init__ env symbol_init st fn sel excl mangling w in
  ∃ done_,
    done_ `prefix_of` construction_commands st fn
    ∧ tool_calls (world (state_of r)) = tool_calls w ++ done_
    ∧ (raised r = None → done_ = construction_commands st fn).
Proof.
  intros r. subst r. unfold Binary.__init__.
  set (b0 := MkBinary st fn mangling true 0 0 0 0 0 0 None sel excl ∅ ∅ 0
               None).
  assert (H : logs st fn (construction_commands st fn)
    ((if decide (fn = "")
      then raise (Exception "No binary filename defined")
      else ret tt) ;;
     (if negb (isfile env fn)
      then raise (Exception ("Unable to find filename " +:+ fn))
      else ret tt) ;;
     assign set_source_files ∅ ;;
     assign set_symbols ∅ ;;
     assign set_num_symbols_dropped 0%Z ;;
     Binary._determineBinaryFileFormat env ;;
     Binary._parseSymbols env symbol_init)%py).
  { apply logs_then; [destruct (decide _); [apply logs_raise|apply logs_ret]|].
    intros _.
    apply logs_then;
      [destruct (negb _); [apply logs_raise|apply logs_ret]|].
    intros _.
    apply logs_then; [apply logs_assign; by intros|intros _].
    apply logs_then; [apply logs_assign; by intros|intros _].
    apply logs_then; [apply logs_assign; by intros|intros _].
    apply (logs_bind st fn [[objdump_command st; "-a"; fn]]
             (tail (construction_commands st fn)) _ _
             (logs_determineBinaryFileFormat st fn env)).
    intros _. apply logs_parseSymbols. }
  by destruct (H (MkState b0 w) eq_refl eq_refl) as (_ & _ & Hlog).
Qed.

(** With tools that print nothing the construction returns, and has
    run the six of them. *)
Example quiet_construction_runs_all_tools :
  let r := Binary.__init__ quiet_env id default_settings "a.elf" None None
             None empty_world in
  raised r = None
  ∧ tool_calls (world (state_of r))
    = construction_commands default_settings "a.elf".
Proof. vm_compute. done. Qed.

(** ** The file format of the binary *)

Section Search.

Import Re.

Lemma search_from_sound r s i fuel m :
  search_from r s i fuel = Some m → ∃ j, i ≤ j ∧ match_at r j s = Some m.
Proof.
  revert i. induction fuel as [|k IH]; intros i; cbn [search_from];
    destruct (match_at r i s) as [m'|] eqn:Hm; try done.
  - intros [= <-]. eauto.
  - intros [= <-]. eauto.
  - intros H. destruct (IH _ H) as (j & Hj & Hmj). exists j. split; [lia|done].
Qed.

Lemma search_from_complete r s i j fuel m :
  match_at r j s = Some m → i ≤ j → j ≤ i + fuel →
  is_Some (search_from r s i fuel).
Proof.
  intros Hm. revert i. induction fuel as [|k IH]; intros i Hi Hj;
    cbn [search_from]; destruct (match_at r i s) as [m'|] eqn:Hmi; eauto.
  - assert (i = j) as -> by lia. congruence.
  - destruct (decide (i = j)) as [->|Hne]; [congruence|].
    apply IH; lia.
Qed.

Lemma in_ms_lit s st st' :
  In st' (ms (Lit s) st) → consumed st st' (list_ascii_of_string s).
Proof.
  revert st. induction s as [|c s IH]; intros st.
  - cbn [Lit]. rewrite in_ms_eps. intros ->. unfold consumed. simpl.
    split_and!; [done|lia|done].
  - cbn [Lit]. rewrite in_ms_cat. intros (mid & Hmid & Hin).
    apply in_ms_chr in Hmid as (Hr & Hp & Hc).
    apply IH in Hin as (Hr' & Hp' & Hc').
    unfold consumed. cbn [list_ascii_of_string length]. split_and!.
    + rewrite Hr, Hr'. done.
    + rewrite Hp', Hp. simpl. lia.
    + congruence.
Qed.

(** A text splits into its longest initial run of a class and the
    rest. *)
Lemma longest_run (p : ascii → bool) (l : list ascii) :
  ∃ run rest, l = run ++ rest
    ∧ Forall (fun c => p c = true) run
    ∧ match rest with [] => True | c :: _ => p c = false end.
Proof.
  induction l as [|c l (run & rest & -> & Hrun & Hrest)].
  - by exists [], [].
  - destruct (p c) eqn:Hc.
    + exists (c :: run), rest. split_and!; [done|by constructor|done].
    + exists [], (c :: run ++ rest). by split_and!.
Qed.

(** What a match of the file-format pattern consumed, and what its
    group holds. *)
Lemma file_format_match_shape l j m :
  match_at Binary.file_format_re j l = Some m →
  ∃ ws token post,
    drop j l = list_ascii_of_string "file format" ++ ws ++ token ++ post
    ∧ ws ≠ [] ∧ Forall (fun c => Char.is_space c = true) ws
    ∧ token ≠ [] ∧ Forall (fun c => Char.is_space c = false) token
    ∧ backref m 1 = string_of_list_ascii token.
Proof.
  intros Hm. apply match_at_in in Hm as (st & Hin & ->).
  unfold Binary.file_format_re, Seq in Hin.
  apply in_ms_cat in Hin as (s1 & H1 & Hin).
  apply in_ms_lit in H1 as (R1 & _ & C1).
  apply in_ms_cat in Hin as (s2 & H2 & Hin).
  apply in_ms_plus_cls in H2 as (ws & Nws & Fws & R2 & _ & C2).
  apply in_ms_cat in Hin as (s3 & H3 & Hin).
  apply in_ms_group_plus_cls in H3 as (token & Nt & Ft & R3 & _ & C3).
  apply in_ms_eps in Hin as ->.
  exists ws, token, (m_rest s3). cbn [m_rest m_caps] in *.
  split_and!; [by rewrite R1, R2, R3|done|done|done| |].
  - eapply Forall_impl; [exact Ft|]. intros c Hc. simpl in Hc.
    by destruct (Char.is_space c).
  - unfold backref, group. cbn [m_groups]. rewrite C3. simpl. done.
Qed.

(** Where a text names a file format, the pattern matches. *)
Lemma file_format_match_here pre ws c post :
  ws ≠ [] → Forall (fun x => Char.is_space x = true) ws →
  Char.is_space c = false →
  is_Some (match_at Binary.file_format_re (length pre)
             (pre ++ list_ascii_of_string "file format" ++ ws ++ c :: post)).
Proof.
  intros Nws Fws Hc.
  destruct (longest_run (fun x => negb (Char.is_space x)) post)
    as (run & rest & -> & Frun & Hrest).
  unfold match_at. rewrite drop_app_length.
  assert (Hstart : starts_with
    (ms Binary.file_format_re
       (MState (length pre)
          (list_ascii_of_string "file format" ++ ws ++ c :: run ++ rest)
          []))
    (MState (length pre + String.length "file format" + length ws
             + length (c :: run)) rest
       [(1, string_of_list_ascii (c :: run))])).
  { unfold Binary.file_format_re, Seq.
    eapply starts_with_cat; [apply starts_with_lit|].
    eapply starts_with_cat.
    { apply (starts_with_ms_plus_cls Char.is_space ws (c :: run ++ rest));
        [done|done|exact Hc]. }
    eapply starts_with_cat.
    { apply (starts_with_ms_group_plus_cls 1
               (fun x => negb (Char.is_space x)) (c :: run) rest).
      - done.
      - constructor; [by rewrite Hc|done].
      - done. }
    by exists []. }
  destruct Hstart as [others ->]. eauto.
Qed.

End Search.

Section FileFormat.

Variable env : Env.

Lemma determineBinaryFileFormat_run s out :
  popen env (archive_headers_command (self s)) = inl out →
  Binary._determineBinaryFileFormat env s
  = let s1 := MkState (self s)
                (set_tool_calls
                   (tool_calls (world s)
                    ++ [archive_headers_command (self s)]) (world s)) in
    match Re.re_search Binary.file_format_re out with
    | Some file_format_match =>
        (assign set_file_format (Some (group file_format_match 1)) ;;
         print ("File format of binary " +:+ filename (self s) +:+ ": "
                +:+ group file_format_match 1))%py s1
    | None =>
        print ("Unable to detect binary file format of "
               +:+ filename (self s)) s1
    end.
Proof.
  intros Hout. unfold archive_headers_command in Hout.
  unfold Binary._determineBinaryFileFormat,
    Binary._readObjdumpArchiveHeadersOutput, Binary.run.
  unfold bind at 1. unfold bind at 1. cbn [gets].
  unfold bind at 1. cbn [update_world modify self world].
  rewrite Hout. cbn [ret]. unfold bind at 1. cbn [gets self].
  by destruct (Re.re_search Binary.file_format_re out).
Qed.

End FileFormat.

(** X9. Once objdump printed its archive headers, the detection of the
    file format does not raise and prints one line. The format is set
    exactly when the text holds the words [file format], white space
    and a character that is none; it is then set to a non-empty token
    free of white space that stands after these words and white space
    in the text, and the line printed names it. Otherwise the format
    stays as it was and the line says that none was detected. *)
Theorem file_format_detection (env : Env) (s : State) (out : string) :
  popen env (archive_headers_command (self s)) = inl out →
  let r := Binary._determineBinaryFileFormat env s in
  raised r = None
  ∧ ((∃ pre ws token post,
        list_ascii_of_string out
        = pre ++ list_ascii_of_string "file format" ++ ws ++ token ++ post
        ∧ ws ≠ [] ∧ Forall (fun c => Char.is_space c = true) ws
        ∧ token ≠ [] ∧ Forall (fun c => Char.is_space c = false) token
        ∧ file_format (self (state_of r))
          = Some (string_of_list_ascii token)
        ∧ stdout (world (state_of r))
          = stdout (world s)
            ++ ["File format of binary " +:+ filename (self s) +:+ ": "
                +:+ string_of_list_ascii token])
     ∨ (¬ names_file_format out
        ∧ file_format (self (state_of r)) = file_format (self s)
        ∧ stdout (world (state_of r))
          = stdout (world s)
            ++ ["Unable to detect binary file format of "
                +:+ filename (self s)])).
Proof.
  intros Hout r. subst r.
  rewrite (determineBinaryFileFormat_run env s out Hout). cbv zeta.
  destruct (Re.re_search Binary.file_format_re out) as [m|] eqn:Hsearch.
  - split; [done|]. left. unfold Re.re_search in Hsearch.
    apply search_from_sound in Hsearch as (j & _ & Hm).
    apply file_format_match_shape in Hm
      as (ws & token & post & Hdrop & Nws & Fws & Nt & Ft & Hg).
    exists (take j (list_ascii_of_string out)), ws, token, post.
    split_and!; try done.
    + by rewrite <- Hdrop, take_drop.
    + unfold group. cbn. by rewrite Hg.
    + unfold group. cbn. by rewrite Hg.
  - split; [done|]. right. split_and!; [|done..].
    intros (pre & ws & c & post & Hl & Nws & Fws & Hc).
    pose proof (file_format_match_here pre ws c post Nws Fws Hc) as [m Hm].
    rewrite <- Hl in Hm.
    destruct (search_from_complete Binary.file_format_re
                (list_ascii_of_string out) 0 (length pre)
                (length (list_ascii_of_string out)) m Hm) as [m' Hm'].
    + lia.
    + rewrite Hl, length_app. lia.
    + unfold Re.re_search in Hsearch. cbv zeta in Hsearch. congruence.
Qed.

Lemma file_format_detection_witness :
  let r := Binary._determineBinaryFileFormat
             (printing archive_headers_output) blank_state in
  raised r = None
  ∧ ((∃ pre ws token post,
        list_ascii_of_string archive_headers_output
        = pre ++ list_ascii_of_string "file format" ++ ws ++ token ++ post
        ∧ ws ≠ [] ∧ Forall (fun c => Char.is_space c = true) ws
        ∧ token ≠ [] ∧ Forall (fun c => Char.is_space c = false) token
        ∧ file_format (self (state_of r))
          = Some (string_of_list_ascii token)
        ∧ stdout (world (state_of r))
          = stdout (world blank_state)
            ++ ["File format of binary " +:+ filename (self blank_state)
                +:+ ": " +:+ string_of_list_ascii token])
     ∨ (¬ names_file_format archive_headers_output
        ∧ file_format (self (state_of r)) = file_format (self blank_state)
        ∧ stdout (world (state_of r))
          = stdout (world blank_state)
            ++ ["Unable to detect binary file format of "
                +:+ filename (self blank_state)])).
Proof.
  apply (file_format_detection (printing archive_headers_output)
           blank_state archive_headers_output).
  reflexivity.
Defined.

(** The format of the [elf64] object. *)
Example elf64_format_detected :
  let r := Binary._determineBinaryFileFormat
             (printing archive_headers_output) blank_state in
  file_format (self (state_of r)) = Some "elf64-x86-64"
  ∧ stdout (world (state_of r))
    = ["File format of binary a.elf: elf64-x86-64"].
Proof. vm_compute. done. Qed.

(** ** The filter in the extraction of properties *)

Section ListingSteps.

Variable symbol_init : Symbol → Symbol.

(** What one pair of lines does: nothing, or one step, and a step only
    where the listing pattern matches the mangled line. *)
Lemma nm_line_step lm ld s :
  state_of (Binary.nm_line symbol_init lm ld s) = s
  ∨ (is_Some (Re.re_match Binary.nm_regex lm)
     ∧ nm_step symbol_init s (state_of (Binary.nm_line symbol_init lm ld s))).
Proof.
  destruct (Re.re_match Binary.nm_regex lm) as [mm|] eqn:Hm;
    [|left; by rewrite nm_line_skip].
  destruct (Re.re_match Binary.nm_regex ld) as [md|] eqn:Hd.
  2:{ left. unfold Binary.nm_line. rewrite Hm, Hd. done. }
  destruct (symbols (self s) !! group mm 3) as [l|] eqn:Hk.
  - destruct (Py.int (group mm 1)) as [sz|] eqn:Hint.
    + right. split; [done|].
      rewrite (nm_line_overwrite _ _ _ _ _ _ _ _ Hm Hd Hk Hint).
      by eapply step_overwrite.
    + left. unfold Binary.nm_line. rewrite Hm, Hd. unfold bind at 1. simpl.
      unfold bind at 1. simpl. destruct (Binary.demangle _ _).
      rewrite Hk. unfold bind, int. rewrite Hint. done.
  - right. split; [done|].
    destruct (Binary._isSymbolSelected (self s)
                (Binary.demangle (self s) (group md 3)).1) eqn:Hsel.
    + destruct (Py.int (group mm 1)) as [sz|] eqn:Hint.
      * rewrite (nm_line_create _ _ _ _ _ _ _ Hm Hd Hk Hsel Hint).
        by apply step_create.
      * unfold Binary.nm_line. rewrite Hm, Hd. unfold bind at 1. simpl.
        unfold bind at 1. simpl.
        destruct (Binary.demangle _ _) as [display dem]. simpl in Hsel.
        rewrite Hk. unfold Binary._generateSymbol, bind, int. simpl.
        rewrite Hsel. simpl. rewrite Hint. simpl.
        apply (step_orphan symbol_init s).
    + unfold Binary.nm_line. rewrite Hm, Hd. unfold bind at 1. simpl.
      unfold bind at 1. simpl.
      destruct (Binary.demangle _ _) as [display dem]. simpl in Hsel.
      rewrite Hk. unfold Binary._generateSymbol, bind. simpl.
      rewrite Hsel. simpl. by apply (step_drop symbol_init s display).
Qed.

(** *** Only selected symbols enter the table *)

Hypothesis init_keeps_display_name :
  ∀ symbol, name (symbol_init symbol) = name symbol.

Lemma name_update_at l l' f (h : list Symbol) :
  (∀ x, name (f x) = name x) →
  name (deref (update_at l f h) l') = name (deref h l').
Proof.
  intros Hf. rewrite deref_update_at. case_decide as Hd; [|done].
  destruct Hd as [<- _]. apply Hf.
Qed.

Lemma nm_step_selected s s' :
  nm_step symbol_init s s' → table_selected s → table_selected s'.
Proof.
  destruct 1 as [s k0 l0 sz kind Hk0|s n display dem sz kind Hn Hsel
                |s n display dem|s display Hsel]; intros Ht.
  - intros k l Hk. destruct (Ht k l Hk) as [Hl Hs]. unfold overwritten.
    cbn [self world heap set_heap]. split.
    + unfold update_at. by rewrite !length_alter.
    + by rewrite !name_update_at.
  - intros k l. unfold created. cbn [self world heap set_heap symbols
      set_symbols]. rewrite length_app. cbn [length].
    change (Binary._isSymbolSelected (set_symbols ?t (self s)))
      with (Binary._isSymbolSelected (self s)).
    intros Hk. apply lookup_insert_Some in Hk as [[_ <-]|[_ Hk]].
    + split; [lia|]. rewrite deref_last. by rewrite init_keeps_display_name.
    + destruct (Ht k l Hk) as [Hl Hs]. split; [lia|].
      by rewrite deref_app_l.
  - intros k l Hk. destruct (Ht k l Hk) as [Hl Hs].
    cbn [self world heap set_heap]. rewrite length_app. split; [lia|].
    by rewrite deref_app_l.
  - intros k l Hk. apply (Ht k l Hk).
Qed.

Lemma nm_line_selected lm ld s :
  table_selected s →
  table_selected (state_of (Binary.nm_line symbol_init lm ld s)).
Proof.
  intros Ht. destruct (nm_line_step lm ld s) as [->|[_ Hstep]]; [done|].
  by eapply nm_step_selected.
Qed.

End ListingSteps.

(** *** Objects and counts *)

Lemma nm_step_objects symbol_init s s' c :
  nm_step symbol_init s s' →
  size (symbols (self s)) + c ≤ length (heap (world s)) →
  size (symbols (self s')) + c ≤ length (heap (world s')).
Proof.
  destruct 1 as [s k0 l0 sz kind Hk0|s n display dem sz kind Hn Hsel
                |s n display dem|s display Hsel]; intros Hc.
  - unfold overwritten. cbn [self world heap set_heap].
    unfold update_at. by rewrite !length_alter.
  - unfold created. cbn [self world heap set_heap symbols set_symbols].
    rewrite length_app. cbn [length].
    destruct (symbols (self s) !! name_mangled
                (symbol_init (set_type_ kind (set_symbol_size sz
                   (symbol_type n display dem))))) eqn:Hlook.
    + rewrite map_size_insert_Some by eauto. lia.
    + rewrite map_size_insert_None by done. lia.
  - cbn [self world heap set_heap]. rewrite length_app. lia.
  - done.
Qed.

Lemma nm_step_accounted symbol_init s s' :
  nm_step symbol_init s s' →
  (num_symbols_dropped (self s) ≤ num_symbols_dropped (self s')
   ∧ accounted s' ≤ accounted s + 1)%Z.
Proof.
  destruct 1 as [s k0 l0 sz kind Hk0|s n display dem sz kind Hn Hsel
                |s n display dem|s display Hsel]; unfold accounted.
  - unfold overwritten. cbn [self]. lia.
  - unfold created. cbn [self symbols set_symbols num_symbols_dropped].
    destruct (symbols (self s) !! name_mangled
                (symbol_init (set_type_ kind (set_symbol_size sz
                   (symbol_type n display dem))))) eqn:Hlook.
    + rewrite map_size_insert_Some by eauto. lia.
    + rewrite map_size_insert_None by done. lia.
  - cbn [self]. lia.
  - cbn [self symbols set_num_symbols_dropped num_symbols_dropped]. lia.
Qed.

Lemma nm_loop_accounted symbol_init pairs s :
  let s' := state_of (nm_loop symbol_init pairs s) in
  (num_symbols_dropped (self s) ≤ num_symbols_dropped (self s')
   ∧ accounted s' ≤ accounted s + Z.of_nat (length (nm_names pairs.*1)))%Z.
Proof.
  revert s. induction pairs as [|[lm ld] pairs IH]; intros s.
  - cbn. lia.
  - unfold nm_loop. cbn [for_each fmap list_fmap fst]. unfold bind.
    pose proof (nm_line_step symbol_init lm ld s) as Hstep.
    rewrite nm_names_cons.
    destruct (Binary.nm_line symbol_init lm ld s) as [[] s1|e s1];
      cbn [state_of] in *.
    + specialize (IH s1). cbv zeta in IH. unfold nm_loop in IH.
      destruct IH as [IH1 IH2].
      destruct Hstep as [->|[[mm Hmm] Hstep]].
      * destruct (Re.re_match Binary.nm_regex lm); cbn [length]; lia.
      * apply nm_step_accounted in Hstep as [Hd Ha].
        rewrite Hmm. cbn [length]. lia.
    + destruct Hstep as [->|[[mm Hmm] Hstep]].
      * destruct (Re.re_match Binary.nm_regex lm); cbn [length]; lia.
      * apply nm_step_accounted in Hstep as [Hd Ha].
        rewrite Hmm. cbn [length]. lia.
Qed.

Lemma nm_names_zip_le (l1 l2 : list string) :
  length (nm_names (zip l1 l2).*1) ≤ length (nm_names l1).
Proof.
  revert l2. induction l1 as [|x l1 IH]; intros [|y l2].
  - done.
  - done.
  - change (0 ≤ length (nm_names (x :: l1))). lia.
  - change (length (nm_names (x :: (zip l1 l2).*1))
            ≤ length (nm_names (x :: l1))).
    rewrite !nm_names_cons. specialize (IH l2).
    destruct (Re.re_match Binary.nm_regex x); cbn [length]; lia.
Qed.

(** An invariant of the lines that does not depend on the log of the
    tools nor on the counter of dropped symbols is an invariant of the
    phase. *)
Lemma gatherSymbolProperties_keeps (env : Env)
    (symbol_init : Symbol → Symbol) (P : State → Prop) (s : State) :
  (∀ lm ld s, P s → P (state_of (Binary.nm_line symbol_init lm ld s))) →
  (∀ s calls, P s → P (MkState (self s) (set_tool_calls calls (world s)))) →
  (∀ s n, P s → P (MkState (set_num_symbols_dropped n (self s)) (world s))) →
  P s → P (state_of (Binary._gatherSymbolProperties env symbol_init s)).
Proof.
  intros Hline Hcalls Hdrop H0.
  unfold Binary._gatherSymbolProperties, Binary._readNMOutput.
  unfold bind at 1. unfold bind at 1. simpl.
  pose proof (run_state env (nm_command_line (self s) false) s) as Hr1.
  unfold nm_command_line in Hr1.
  destruct (Binary.run env _ s) as [out1 s1|e s1]; simpl in Hr1; subst s1;
    [|by apply (Hcalls s)].
  unfold bind at 1. unfold bind at 1. simpl.
  match goal with
  | |- context [Binary.run env ?cmd ?s1] =>
      pose proof (run_state env cmd s1) as Hr2;
      destruct (Binary.run env cmd s1) as [out2 s2|e s2]
  end; simpl in Hr2; subst s2; [|by apply (Hcalls s)].
  unfold bind at 1. simpl.
  apply (for_each_invariant P).
  - intros [lm ld] s' Hs'. by apply Hline.
  - apply (Hdrop (MkState (self s) (set_tool_calls _ (world s)))).
    by apply (Hcalls s).
Qed.

(** X10. Whatever the listings, and whether or not the phase raises,
    property extraction lets no symbol into the table whose display
    name the filter of the binary rejects: started on an empty table,
    every entry points to an object of the store whose name is
    selected. Every entry has an object of its own among those the
    phase created. *)
Theorem only_selected_symbols_enter (env : Env)
    (symbol_init : Symbol → Symbol) (s0 : State) :
  (∀ symbol, name (symbol_init symbol) = name symbol) →
  symbols (self s0) = ∅ →
  let s1 := state_of (Binary._gatherSymbolProperties env symbol_init s0) in
  table_selected s1
  ∧ size (symbols (self s1)) + length (heap (world s0))
    ≤ length (heap (world s1)).
Proof.
  intros Hinit Hempty s1. subst s1.
  apply (gatherSymbolProperties_keeps env symbol_init
    (fun s => table_selected s
              ∧ size (symbols (self s)) + length (heap (world s0))
                ≤ length (heap (world s)))).
  - intros lm ld s [Hs Hc]. split.
    + by apply nm_line_selected.
    + destruct (nm_line_step symbol_init lm ld s) as [->|[_ Hstep]]; [done|].
      by eapply nm_step_objects.
  - by intros s calls.
  - by intros s n.
  - split.
    + intros k l Hk. rewrite Hempty in Hk. by rewrite lookup_empty in Hk.
    + rewrite Hempty, map_size_empty. simpl. lia.
Qed.

Lemma only_selected_symbols_enter_witness :
  let s1 := state_of (Binary._gatherSymbolProperties
                        (printing filter_listing) id filter_state) in
  table_selected s1
  ∧ size (symbols (self s1)) + length (heap (world filter_state))
    ≤ length (heap (world s1)).
Proof.
  apply (only_selected_symbols_enter (printing filter_listing) id
           filter_state).
  - reflexivity.
  - reflexivity.
Defined.

(** X11. Once both listings are printed, the counter of dropped symbols
    starts from zero whatever it held, and a line of the listing is
    counted at most once: the entries of the table and the dropped
    candidates together are no more than the lines the listing pattern
    matches. *)
Theorem listed_lines_counted_once (env : Env)
    (symbol_init : Symbol → Symbol) (s0 : State)
    (mangled demangled : string) :
  popen env (nm_command_line (self s0) false) = inl mangled →
  popen env (nm_command_line (self s0) true) = inl demangled →
  symbols (self s0) = ∅ →
  let s1 := state_of (Binary._gatherSymbolProperties env symbol_init s0) in
  (0 ≤ num_symbols_dropped (self s1)
   ∧ accounted s1 ≤ Z.of_nat (length (nm_names (Py.splitlines mangled))))%Z.
Proof.
  intros Hm Hd Hempty s1. subst s1.
  rewrite (gatherSymbolProperties_run env symbol_init s0 _ _ Hm Hd).
  pose proof (nm_loop_accounted symbol_init
    (zip (Py.splitlines mangled) (Py.splitlines demangled))
    (listing_start s0)) as [Hdrop Hacc].
  pose proof (nm_names_zip_le (Py.splitlines mangled)
                (Py.splitlines demangled)) as Hle.
  assert (Hstart : accounted (listing_start s0) = 0%Z).
  { unfold accounted, listing_start. cbn [self symbols
      set_num_symbols_dropped num_symbols_dropped].
    rewrite Hempty, map_size_empty. done. }
  rewrite Hstart in Hacc. cbn [listing_start self num_symbols_dropped
    set_num_symbols_dropped] in Hdrop. split; [done|]. lia.
Qed.

Lemma listed_lines_counted_once_witness :
  let s1 := state_of (Binary._gatherSymbolProperties
                        (printing filter_listing) id filter_state) in
  (0 ≤ num_symbols_dropped (self s1)
   ∧ accounted s1
     ≤ Z.of_nat (length (nm_names (Py.splitlines filter_listing))))%Z.
Proof.
  apply (listed_lines_counted_once (printing filter_listing) id filter_state
           filter_listing filter_listing).
  - reflexivity.
  - reflexivity.
  - reflexivity.
Defined.

(** The excluded name is dropped and counted, the other two enter the
    table; the count the binary held before is gone. *)
Example underscore_names_excluded :
  let s1 := state_of (Binary._gatherSymbolProperties
                        (printing filter_listing) id filter_state) in
  (name <$> heap (world s1), num_symbols_dropped (self s1),
   size (symbols (self s1)))
  = (["foo"; "baz"], 1%Z, 2).
Proof. vm_compute. reflexivity. Qed.

(** ** The table of a constructed binary *)

Lemma kept_refl symbol : kept symbol symbol.
Proof. done. Qed.

Lemma kept_trans x y z : kept x y → kept y z → kept x z.
Proof. intros [? ?] [? ?]. split; congruence. Qed.

Lemma Forall2_kept_alter f l h h' :
  (∀ symbol, kept symbol (f symbol)) →
  Forall2 kept h h' → Forall2 kept h (alter f l h').
Proof.
  intros Hf H. apply Forall2_alter_r; [done|].
  intros x y _ _ Hxy. eapply kept_trans; [exact Hxy|apply Hf].
Qed.

Lemma Forall2_kept_refl h : Forall2 kept h h.
Proof. apply Forall_Forall2_diag, Forall_forall. intros. apply kept_refl. Qed.

Lemma table_kept_refl s : table_kept s s.
Proof. split_and!; [done..|apply Forall2_kept_refl]. Qed.

Lemma table_kept_trans s1 s2 s3 :
  table_kept s1 s2 → table_kept s2 s3 → table_kept s1 s3.
Proof.
  intros (A1 & B1 & C1 & D1) (A2 & B2 & C2 & D2).
  split_and!; [congruence..|].
  eapply Forall2_trans; [|done..]. apply kept_trans.
Qed.

Lemma Forall2_kept_deref h h' l :
  Forall2 kept h h' → l < length h → kept (deref h l) (deref h' l).
Proof.
  intros HF Hl. pose proof (Forall2_length _ _ _ HF) as Hlen.
  eapply (Forall2_lookup_lr _ _ _ l); [exact HF|..];
    apply list_lookup_lookup_total_lt; lia.
Qed.

Lemma isSymbolSelected_filter b b' n :
  symbol_selection_regex_compiled b' = symbol_selection_regex_compiled b →
  symbol_exclusion_regex_compiled b' = symbol_exclusion_regex_compiled b →
  Binary._isSymbolSelected b' n = Binary._isSymbolSelected b n.
Proof. intros Hs He. unfold Binary._isSymbolSelected. by rewrite Hs, He. Qed.

Lemma table_sound_kept sel excl s s' :
  table_kept s s' → table_sound sel excl s → table_sound sel excl s'.
Proof.
  intros (Hsym & Hsel & Hexcl & Hheap) (Hc & Ht & Hfs & Hfe).
  pose proof (Forall2_length _ _ _ Hheap) as Hlen.
  split_and!.
  - intros k l Hk. rewrite Hsym in Hk. destruct (Hc k l Hk) as [Hl Hn].
    destruct (Forall2_kept_deref _ _ l Hheap Hl) as [Hm _].
    split; [lia|congruence].
  - intros k l Hk. rewrite Hsym in Hk. destruct (Ht k l Hk) as [Hl Hs].
    destruct (Forall2_kept_deref _ _ l Hheap Hl) as [_ Hd].
    split; [lia|]. rewrite Hd.
    by rewrite (isSymbolSelected_filter (self s) (self s')).
  - split; congruence.
Qed.

Lemma table_sound_empty sel excl s :
  symbols (self s) = ∅ → filtered_by sel excl s → table_sound sel excl s.
Proof.
  intros Hempty Hf. split_and!; [| |done]; intros k l Hk;
    rewrite Hempty in Hk; by rewrite lookup_empty in Hk.
Qed.

Section KeepsTable.

Lemma keeps_table_ret {A} (a : A) : keeps_table (ret a).
Proof. intros s. apply table_kept_refl. Qed.

Lemma keeps_table_raise {A} e : keeps_table (raise e : M State A).
Proof. intros s. apply table_kept_refl. Qed.

Lemma keeps_table_gets {A} (f : State → A) : keeps_table (gets f).
Proof. intros s. apply table_kept_refl. Qed.

Lemma keeps_table_int z : keeps_table (int z : M State Z).
Proof.
  unfold int. destruct (Py.int z);
    [apply keeps_table_ret|apply keeps_table_raise].
Qed.

Lemma keeps_table_bind {A B} (c : M State A) (k : A → M State B) :
  keeps_table c → (∀ a, keeps_table (k a)) → keeps_table (bind c k).
Proof.
  intros Hc Hk s. specialize (Hc s). unfold bind.
  destruct (c s) as [a s1|e s1]; cbn [state_of] in *; [|done].
  eapply table_kept_trans; [exact Hc|apply Hk].
Qed.

Lemma keeps_table_assign {V} (set : V → Binary → Binary) (v : V) :
  (∀ b, symbols (set v b) = symbols b
        ∧ symbol_selection_regex_compiled (set v b)
          = symbol_selection_regex_compiled b
        ∧ symbol_exclusion_regex_compiled (set v b)
          = symbol_exclusion_regex_compiled b) →
  keeps_table (assign set v).
Proof.
  intros Hset s. destruct (Hset (self s)) as (? & ? & ?).
  split_and!; [done..|apply Forall2_kept_refl].
Qed.

Lemma keeps_table_update_world (f : World → World) :
  (∀ w, Forall2 kept (heap w) (heap (f w))) →
  keeps_table (update_world f).
Proof. intros Hf s. split_and!; [done..|apply Hf]. Qed.

Lemma keeps_table_for_each {A} (l : list A) (body : A → M State unit) :
  (∀ x, keeps_table (body x)) → keeps_table (for_each l body).
Proof.
  intros Hbody. induction l as [|x l IH]; [apply keeps_table_ret|].
  cbn [for_each]. apply keeps_table_bind; [apply Hbody|]. intros _. apply IH.
Qed.

Variable env : Env.

Lemma keeps_table_run cmd : keeps_table (Binary.run env cmd).
Proof.
  unfold Binary.run. apply keeps_table_bind.
  - apply keeps_table_update_world. intros w. apply Forall2_kept_refl.
  - intros _. destruct (popen env cmd);
      [apply keeps_table_ret|apply keeps_table_raise].
Qed.

Lemma keeps_table_print line : keeps_table (print line).
Proof. apply keeps_table_update_world. intros w. apply Forall2_kept_refl. Qed.

Lemma keeps_table_warning msg : keeps_table (warning msg).
Proof. apply keeps_table_update_world. intros w. apply Forall2_kept_refl. Qed.

Lemma keeps_table_set_attr l f :
  (∀ symbol, kept symbol (f symbol)) → keeps_table (Binary.set_attr l f).
Proof.
  intros Hf. apply keeps_table_update_world. intros w.
  cbn [heap set_heap]. apply Forall2_kept_alter; [done|].
  apply Forall2_kept_refl.
Qed.

Lemma keeps_table_determineBinaryFileFormat :
  keeps_table (Binary._determineBinaryFileFormat env).
Proof.
  unfold Binary._determineBinaryFileFormat,
    Binary._readObjdumpArchiveHeadersOutput.
  apply keeps_table_bind.
  { apply keeps_table_bind; [apply keeps_table_gets|].
    intros b. apply keeps_table_run. }
  intros out. apply keeps_table_bind; [apply keeps_table_gets|intros b].
  destruct (Re.re_search Binary.file_format_re out).
  - apply keeps_table_bind; [by apply keeps_table_assign|intros _].
    apply keeps_table_print.
  - apply keeps_table_print.
Qed.

Lemma keeps_table_size_lines lines : keeps_table (Binary.size_lines lines).
Proof.
  induction lines as [|line lines IH]; [apply keeps_table_ret|].
  cbn [Binary.size_lines].
  destruct (Re.re_match Binary.size_re line) as [m|]; [|apply IH].
  repeat first
    [ apply keeps_table_ret
    | by apply keeps_table_assign
    | apply keeps_table_bind;
        [first [apply keeps_table_int|apply keeps_table_gets
               |by apply keeps_table_assign]|intros ?] ].
Qed.

Lemma keeps_table_determineSymbolSizes :
  keeps_table (Binary._determineSymbolSizes env).
Proof.
  unfold Binary._determineSymbolSizes, Binary._readSizeOutput.
  apply keeps_table_bind.
  { apply keeps_table_bind; [apply keeps_table_gets|].
    intros b. apply keeps_table_run. }
  intros out.
  apply keeps_table_bind; [apply keeps_table_size_lines|intros found].
  destruct found; cbn [negb]; [apply keeps_table_ret|].
  apply keeps_table_bind; [apply keeps_table_warning|intros _].
  by apply keeps_table_assign.
Qed.

Variable symbol_init : Symbol → Symbol.

Hypothesis init_keeps_names : ∀ symbol, kept symbol (symbol_init symbol).

Lemma keeps_table_initSymbols :
  keeps_table (Binary._initSymbols symbol_init).
Proof.
  unfold Binary._initSymbols.
  apply keeps_table_bind; [apply keeps_table_gets|intros b].
  apply keeps_table_for_each. intros k.
  apply keeps_table_bind; [apply keeps_table_gets|intros b'].
  destruct (symbols b' !! k);
    [by apply keeps_table_set_attr|apply keeps_table_ret].
Qed.

Lemma gatherDebugInformation_kept s :
  table_kept s (state_of (Binary._gatherDebugInformation env s)).
Proof.
  destruct (debug_steps_frame _ _ (debug_phase_steps env s))
    as (Hheap & (Hb & _) & _).
  set (s' := state_of (Binary._gatherDebugInformation env s)) in *.
  cbn [after_readelf self world heap set_tool_calls] in Hheap, Hb.
  split_and!.
  - exact (f_equal symbols Hb).
  - exact (f_equal symbol_selection_regex_compiled Hb).
  - exact (f_equal symbol_exclusion_regex_compiled Hb).
  - eapply Forall2_impl; [exact Hheap|].
    by intros x y (? & ? & _).
Qed.

Lemma added_kept ls s :
  let s' := fold_left (added symbol_init) ls s in
  symbol_selection_regex_compiled (self s')
  = symbol_selection_regex_compiled (self s)
  ∧ symbol_exclusion_regex_compiled (self s')
    = symbol_exclusion_regex_compiled (self s)
  ∧ Forall2 kept (heap (world s)) (heap (world s')).
Proof.
  revert s. induction ls as [|l ls IH]; intros s.
  - split_and!; [done..|apply Forall2_kept_refl].
  - cbn [fold_left]. destruct (IH (added symbol_init s l)) as (-> & -> & H).
    split_and!; [done..|].
    eapply Forall2_trans; [| |exact H].
    + apply kept_trans.
    + unfold added. cbn [world heap set_heap].
      apply Forall2_kept_alter; [exact init_keeps_names|].
      apply Forall2_kept_refl.
Qed.

Lemma gatherSymbolInstructions_kept s :
  names_consistent s →
  table_kept s (state_of (Binary._gatherSymbolInstructions env symbol_init s)).
Proof.
  intros Hc.
  assert (Hinit : ∀ symbol,
            name_mangled (symbol_init symbol) = name_mangled symbol)
    by (intros symbol; apply init_keeps_names).
  destruct (disassembly_preserves env symbol_init Hinit s Hc) as (Hsym & _).
  split; [exact Hsym|]. clear Hsym.
  destruct (popen env (disassembly_command (self s))) as [out|e] eqn:Hout.
  2:{ rewrite (gatherSymbolInstructions_failed env symbol_init s e Hout).
      split_and!; [done..|apply Forall2_kept_refl]. }
  rewrite (gatherSymbolInstructions_run env symbol_init s out Hout).
  cbn [state_of]. unfold disassembled.
  set (start := MkState (self s)
                  (set_heap (collected s out).2
                     (set_tool_calls
                        (tool_calls (world s)
                         ++ [disassembly_command (self s)]) (world s)))).
  destruct (added_kept (sc_symbols (collected s out).1) start)
    as (Hs & He & Hh).
  set (s2 := fold_left (added symbol_init) _ start) in *.
  assert (Hall : Forall2 kept (heap (world s)) (heap (world s2))).
  { eapply Forall2_trans; [| |exact Hh].
    - apply kept_trans.
    - unfold start. cbn [world heap set_heap].
      pose proof (collector_grown (self s) out SymbolCollector.__init__
                    (heap (world s))) as Hg.
      apply (Forall2_impl grown kept _ _ Hg).
      by intros x y (? & ? & _). }
  destruct (n_instruction_lines (collected s out).1 =? 0)%Z;
    cbn [self world heap set_instructions_available set_warnings
         symbol_selection_regex_compiled symbol_exclusion_regex_compiled];
    split_and!; done.
Qed.

Lemma nm_step_filtered sel excl s s' :
  nm_step symbol_init s s' → filtered_by sel excl s → filtered_by sel excl s'.
Proof. by destruct 1. Qed.

Lemma gatherSymbolProperties_sound sel excl s :
  table_sound sel excl s →
  table_sound sel excl
    (state_of (Binary._gatherSymbolProperties env symbol_init s)).
Proof.
  assert (Hinit : ∀ symbol,
            name_mangled (symbol_init symbol) = name_mangled symbol)
    by (intros symbol; apply init_keeps_names).
  assert (Hdisplay : ∀ symbol, name (symbol_init symbol) = name symbol)
    by (intros symbol; apply init_keeps_names).
  apply (gatherSymbolProperties_keeps env symbol_init (table_sound sel excl)).
  - intros lm ld s' (Hc & Ht & Hf). split_and!.
    + by apply nm_line_consistent.
    + by apply nm_line_selected.
    + destruct (nm_line_step symbol_init lm ld s') as [->|[_ Hstep]];
        [done|]. by eapply nm_step_filtered.
  - by intros s' calls.
  - by intros s' n.
Qed.

Lemma parseSymbols_sound sel excl s :
  table_sound sel excl s →
  table_sound sel excl (state_of (Binary._parseSymbols env symbol_init s)).
Proof.
  intros H0. unfold Binary._parseSymbols.
  pose proof (table_sound_kept sel excl _ _
                (keeps_table_determineSymbolSizes s) H0) as H1.
  unfold bind at 1.
  destruct (Binary._determineSymbolSizes env s) as [[] s1|e s1];
    cbn [state_of] in *; [|done].
  pose proof (gatherSymbolProperties_sound sel excl s1 H1) as H2.
  unfold bind at 1.
  destruct (Binary._gatherSymbolProperties env symbol_init s1)
    as [[] s2|e s2]; cbn [state_of] in *; [|done].
  pose proof (table_sound_kept sel excl _ _
                (gatherSymbolInstructions_kept s2 (proj1 H2)) H2) as H3.
  unfold bind at 1.
  destruct (Binary._gatherSymbolInstructions env symbol_init s2)
    as [[] s3|e s3]; cbn [state_of] in *; [|done].
  pose proof (table_sound_kept sel excl _ _
                (gatherDebugInformation_kept s3) H3) as H4.
  unfold bind at 1.
  destruct (Binary._gatherDebugInformation env s3) as [[] s4|e s4];
    cbn [state_of] in *; [|done].
  apply (table_sound_kept sel excl s4); [|done].
  apply keeps_table_initSymbols.
Qed.

End KeepsTable.

(** X12. However a construction ends, it leaves a table in which every
    entry is stored under the mangled name of the object it points to,
    and the display name of that object passes the filter the
    construction was given. The initialization of a symbol is taken to
    keep the two names of the symbol. *)
Theorem constructed_table_is_sound (env : Env)
    (symbol_init : Symbol → Symbol) (st : Settings) (fn : string)
    (sel excl : option Re.regex) (mangling : option Mangling) (w : World) :
  (∀ symbol, kept symbol (symbol_init symbol)) →
  table_sound sel excl
    (state_of (Binary.__init__ env symbol_init st fn sel excl mangling w)).
Proof.
  intros Hinit. unfold Binary.__init__.
  set (b0 := MkBinary st fn mangling true 0 0 0 0 0 0 None sel excl ∅ ∅ 0
               None).
  assert (H0 : table_sound sel excl (MkState b0 w))
    by (by apply table_sound_empty).
  unfold bind at 1. destruct (decide (fn = "")); [done|]. cbn [ret].
  unfold bind at 1. destruct (negb (isfile env fn)); [done|]. cbn [ret].
  unfold bind at 1. cbn [assign modify self world].
  unfold bind at 1. cbn [assign modify self world].
  unfold bind at 1. cbn [assign modify self world].
  set (s0 := MkState _ w).
  assert (Hs0 : table_sound sel excl s0)
    by (by apply table_sound_empty).
  pose proof (table_sound_kept sel excl _ _
                (keeps_table_determineBinaryFileFormat env s0) Hs0) as H1.
  unfold bind at 1.
  destruct (Binary._determineBinaryFileFormat env s0) as [[] s1|e s1];
    cbn [state_of] in *; [|done].
  by apply parseSymbols_sound.
Qed.

Lemma constructed_table_is_sound_witness :
  table_sound None (Some (Re.Cat (Re.Chr "_") (Re.Star Re.dot)))
    (state_of (Binary.__init__ filter_env (set_type_ "T") default_settings
                 "a.elf" None (Some (Re.Cat (Re.Chr "_") (Re.Star Re.dot)))
                 None empty_world)).
Proof.
  apply (constructed_table_is_sound filter_env (set_type_ "T")).
  intros symbol. split; reflexivity.
Defined.

(** The construction on the three symbols: [_bar] is excluded, [foo]
    gets its instructions and its source location, and both entries
    went through the initialization. *)
Example construction_on_three_symbols :
  let s := state_of (Binary.__init__ filter_env (set_type_ "T")
                       default_settings "a.elf" None
                       (Some (Re.Cat (Re.Chr "_") (Re.Star Re.dot)))
                       None empty_world) in
  (fun x => (name x, type_ x, length (instruction_lines x), source_line x))
    <$> heap (world s)
  = [("foo", "T", 3, Some 7%Z); ("baz", "T", 0, None)]
  ∧ num_symbols_dropped (self s) = 1%Z
  ∧ instructions_available (self s) = Some true.
Proof. vm_compute. done. Qed.

(** ** Listings that end the extraction *)

Section ListingErrors.

Variable symbol_init : Symbol → Symbol.

Lemma nm_line_unmatched lm ld s :
  is_Some (Re.re_match Binary.nm_regex lm) →
  Re.re_match Binary.nm_regex ld = None →
  Binary.nm_line symbol_init lm ld s = Raised AttributeError s.
Proof.
  intros [mm Hm] Hd. unfold Binary.nm_line. by rewrite Hm, Hd.
Qed.

Lemma nm_loop_app pre post s :
  nm_loop symbol_init (pre ++ post) s
  = match nm_loop symbol_init pre s with
    | Ok _ s' => nm_loop symbol_init post s'
    | Raised e s' => Raised e s'
    end.
Proof. apply for_each_app. Qed.

End ListingErrors.

(** X13. The two listings are read side by side. The first line that
    the listing pattern matches in the mangled listing and does not
    match in the demangled one ends the extraction with an
    [AttributeError]; the table and the store are as the lines before
    it left them, and no later line is read. *)
Theorem unmatched_demangled_line_is_fatal (env : Env)
    (symbol_init : Symbol → Symbol) (s0 s1 : State)
    (mangled demangled : string) (pre post : list (string * string))
    (lm ld : string) :
  popen env (nm_command_line (self s0) false) = inl mangled →
  popen env (nm_command_line (self s0) true) = inl demangled →
  zip (Py.splitlines mangled) (Py.splitlines demangled)
  = pre ++ (lm, ld) :: post →
  nm_loop symbol_init pre (listing_start s0) = Ok tt s1 →
  is_Some (Re.re_match Binary.nm_regex lm) →
  Re.re_match Binary.nm_regex ld = None →
  Binary._gatherSymbolProperties env symbol_init s0
  = Raised AttributeError s1.
Proof.
  intros Hm Hd Hzip Hpre Hlm Hld.
  rewrite (gatherSymbolProperties_run env symbol_init s0 _ _ Hm Hd), Hzip.
  rewrite nm_loop_app, Hpre. unfold nm_loop. cbn [for_each].
  unfold bind. by rewrite (nm_line_unmatched symbol_init lm ld s1 Hlm Hld).
Qed.

Lemma unmatched_demangled_line_is_fatal_witness :
  Binary._gatherSymbolProperties unmatched_env id blank_state
  = Raised AttributeError
      (created id (listing_start blank_state) "_Z3foov" "foo()" true 16 "T").
Proof.
  apply (unmatched_demangled_line_is_fatal unmatched_env id blank_state _
           duplicate_mangled unmatched_demangled
           [("0000000000001000 0000000000000016 T _Z3foov",
             "0000000000001000 0000000000000016 T foo()")]
           [("0000000000001000 0000000000000032 T _Z3foov",
             "0000000000001000 0000000000000032 T foo()")]
           "0000000000002000 0000000000000008 D bar" "bar: no symbols").
  - reflexivity.
  - reflexivity.
  - vm_compute. reflexivity.
  - vm_compute. reflexivity.
  - vm_compute. eauto.
  - vm_compute. reflexivity.
Defined.

(** X14. The listing pattern takes hexadecimal digits for a size and
    [int] reads base ten. On a pair of matching lines whose size is no
    decimal number: for a name of the table the line raises
    [ValueError] and changes nothing; for a new name that passes the
    filter it raises after the object was created, which is then in no
    table; for a new name the filter rejects the size is never read,
    and the candidate is counted as dropped. *)
Theorem size_that_is_not_decimal (symbol_init : Symbol → Symbol)
    (lm ld : string) (s : State) (mm md : Re.Match) :
  Re.re_match Binary.nm_regex lm = Some mm →
  Re.re_match Binary.nm_regex ld = Some md →
  Py.int (group mm 1) = None →
  let r := Binary.nm_line symbol_init lm ld s in
  let d := Binary.demangle (self s) (group md 3) in
  match symbols (self s) !! group mm 3 with
  | Some _ => r = Raised (ValueError (group mm 1)) s
  | None =>
      if Binary._isSymbolSelected (self s) d.1
      then r = Raised (ValueError (group mm 1))
                 (allocated s (group mm 3) d.1 d.2)
      else r = Ok tt (dropped_one s)
  end.
Proof.
  intros Hm Hd Hint r d.
  destruct (symbols (self s) !! group mm 3) as [l|] eqn:Hk.
  - subst r. unfold Binary.nm_line. rewrite Hm, Hd.
    unfold bind at 1. simpl. unfold bind at 1. simpl.
    destruct (Binary.demangle _ _). rewrite Hk. unfold bind, int.
    by rewrite Hint.
  - subst r d.
    destruct (Binary._isSymbolSelected (self s)
                (Binary.demangle (self s) (group md 3)).1) eqn:Hsel;
      revert Hsel; unfold Binary.nm_line; rewrite Hm, Hd;
      unfold bind at 1; simpl; unfold bind at 1; simpl;
      destruct (Binary.demangle (self s) (group md 3)) as [display dem];
      cbn [fst snd]; intros Hsel; rewrite Hk;
      unfold Binary._generateSymbol, bind, int; simpl; rewrite Hsel; simpl;
      rewrite ?Hint; done.
Qed.

Lemma size_that_is_not_decimal_witness :
  let lm := "00001000 0000001a T f" in
  let s := blank_state in
  let mm := Re.MkMatch 0 21 [(3, "f"); (2, "T"); (1, "0000001a")] in
  let r := Binary.nm_line id lm lm s in
  let d := Binary.demangle (self s) (group mm 3) in
  match symbols (self s) !! group mm 3 with
  | Some _ => r = Raised (ValueError (group mm 1)) s
  | None =>
      if Binary._isSymbolSelected (self s) d.1
      then r = Raised (ValueError (group mm 1))
                 (allocated s (group mm 3) d.1 d.2)
      else r = Ok tt (dropped_one s)
  end.
Proof.
  apply (size_that_is_not_decimal id "00001000 0000001a T f"
           "00001000 0000001a T f" blank_state
           (Re.MkMatch 0 21 [(3, "f"); (2, "T"); (1, "0000001a")])
           (Re.MkMatch 0 21 [(3, "f"); (2, "T"); (1, "0000001a")])).
  - vm_compute. reflexivity.
  - vm_compute. reflexivity.
  - vm_compute. reflexivity.
Defined.

(** The size of an excluded name is not read: the line with the
    hexadecimal size passes, and the name is counted. *)
Example excluded_size_is_not_read :
  Binary.nm_line id "00001000 0000001a T _f" "00001000 0000001a T _f"
    filter_state
  = Ok tt (dropped_one filter_state).
Proof. vm_compute. reflexivity. Qed.

(** ** Lines the normalization leaves alone *)

Section Suffix.

Import Re.

Lemma starts_app t post : starts t (t ++ post) = true.
Proof.
  induction t as [|a t IH]; [done|]. cbn [app starts].
  by rewrite Ascii.eqb_refl, IH.
Qed.

Lemma occurs_app pre t post : occurs t (pre ++ t ++ post) = true.
Proof.
  induction pre as [|a pre IH].
  - cbn [app]. destruct (t ++ post) eqn:E; cbn [occurs];
      rewrite <- E, starts_app; done.
  - cbn [app occurs]. rewrite IH. apply orb_true_r.
Qed.

Lemma star_suffix (f : mstate → list mstate) fuel st st' :
  (∀ st st', In st' (f st) → ∃ run, m_rest st = run ++ m_rest st') →
  In st' (star f fuel st) → ∃ run, m_rest st = run ++ m_rest st'.
Proof.
  intros Hf. revert st. induction fuel as [|k IH]; intros st; cbn [star].
  - intros [<-|[]]. by exists [].
  - rewrite in_app_iff, in_flat_map.
    intros [(mid & Hmid & Hin)|[<-|[]]]; [|by exists []].
    destruct (_ <? _)%nat; [|done].
    destruct (Hf _ _ Hmid) as [run1 H1]. destruct (IH _ Hin) as [run2 H2].
    exists (run1 ++ run2). by rewrite H1, H2, app_assoc.
Qed.

(** Whatever the pattern, a match leaves a final part of the text it
    started on. *)
Lemma ms_suffix r st st' :
  In st' (ms r st) → ∃ run, m_rest st = run ++ m_rest st'.
Proof.
  revert st st'.
  induction r as [|c|p|r1 IH1 r2 IH2|r1 IH1 r2 IH2|r IH|n r IH| |];
    intros st st'.
  - rewrite in_ms_eps. intros ->. by exists [].
  - intros H. apply in_ms_chr in H as (H & _). eauto.
  - intros H. apply in_ms_cls in H as (c & _ & H & _). eauto.
  - rewrite in_ms_cat. intros (mid & H1 & H2).
    destruct (IH1 _ _ H1) as [run1 E1]. destruct (IH2 _ _ H2) as [run2 E2].
    exists (run1 ++ run2). by rewrite E1, E2, app_assoc.
  - cbn [ms]. rewrite in_app_iff. intros [H|H]; eauto.
  - cbn [ms]. apply star_suffix. exact IH.
  - cbn [ms]. rewrite in_map_iff. intros (st1 & <- & H).
    destruct (IH _ _ H) as [run E]. exists run. by rewrite E.
  - intros H. apply in_ms_bol in H as [-> _]. by exists [].
  - cbn [ms]. destruct (m_rest st) as [|c [|c' t]] eqn:E.
    + intros [<-|[]]. exists []. by rewrite E.
    + destruct (Ascii.eqb c Char.LF); [|done].
      intros [<-|[]]. exists []. by rewrite E.
    + done.
Qed.

(** Where the pattern of [retq] matches, the text holds [retq]. *)
Lemma retq_match_holds l j m :
  match_at SymbolCollector.retq_re j l = Some m →
  occurs (list_ascii_of_string "retq") l = true.
Proof.
  intros Hm. apply match_at_in in Hm as (st & Hin & _).
  unfold SymbolCollector.retq_re in Hin. cbn [Seq] in Hin.
  apply in_ms_cat in Hin as (s1 & H1 & Hin).
  apply ms_suffix in H1 as [run1 E1].
  apply in_ms_cat in Hin as (s2 & H2 & _).
  apply in_ms_lit in H2 as (E2 & _).
  cbn [m_rest] in E1. rewrite E2 in E1.
  rewrite <- (take_drop j l), E1, app_assoc.
  apply occurs_app.
Qed.

End Suffix.

(** X15. The normalization of the return instruction changes no line
    that does not hold the text [retq], whatever the file format of the
    binary. *)
Theorem lines_without_retq_stay (b : Binary) (line : string) :
  holds "retq" line = false →
  SymbolCollector._unifyInstructionLine b line = line.
Proof.
  intros Hfree. unfold SymbolCollector._unifyInstructionLine.
  case_decide; [|done].
  unfold SymbolCollector._unifyX86InstructionLine, Re.re_sub.
  cbn [Re.sub_from].
  destruct (Re.search_from SymbolCollector.retq_re
              (list_ascii_of_string line) 0
              (length (list_ascii_of_string line) - 0)) as [m|] eqn:Hsearch.
  - apply search_from_sound in Hsearch as (j & _ & Hm).
    apply retq_match_holds in Hm. unfold holds in Hfree. congruence.
  - rewrite drop_0. apply string_of_list_ascii_of_string.
Qed.

Lemma lines_without_retq_stay_witness :
  SymbolCollector._unifyInstructionLine (self scenario_C_state)
    ("    1000:" +:+ tab +:+ "55" +:+ tab +:+ "push   %rbp")
  = "    1000:" +:+ tab +:+ "55" +:+ tab +:+ "push   %rbp".
Proof.
  apply (lines_without_retq_stay (self scenario_C_state)).
  vm_compute. reflexivity.
Defined.

(** ** Initialization in the disassembly phase *)

Lemma added_heap symbol_init ls s :
  heap (world (fold_left (added symbol_init) ls s))
  = initialized_at symbol_init ls (heap (world s)).
Proof.
  unfold initialized_at. revert s.
  induction ls as [|l ls IH]; intros s; [done|].
  cbn [fold_left]. by rewrite IH.
Qed.

(** X16. In the disassembly phase every symbol the collector hands
    over is added again, and so goes through [init] once more for each
    header line of the disassembly that names it: the store the phase
    leaves is the one the collector left, with the initialization
    applied at the address of each known header line, in the order of
    the lines. *)
Theorem disassembly_initializes_per_header (env : Env)
    (symbol_init : Symbol → Symbol) (s : State) (out : string) :
  popen env (disassembly_command (self s)) = inl out →
  heap (world (state_of
          (Binary._gatherSymbolInstructions env symbol_init s)))
  = initialized_at symbol_init
      (omap (known_address (self s)) (Py.splitlines out))
      (collected s out).2.
Proof.
  intros Hout.
  rewrite (gatherSymbolInstructions_run env symbol_init s out Hout).
  cbn [state_of]. unfold disassembled. rewrite <- collected_handover.
  destruct (n_instruction_lines (collected s out).1 =? 0)%Z;
    cbn [world heap set_warnings]; by rewrite added_heap.
Qed.

Lemma disassembly_initializes_per_header_witness :
  heap (world (state_of
          (Binary._gatherSymbolInstructions (printing two_function_output)
             (addInstructions "init") foo_state)))
  = initialized_at (addInstructions "init")
      (omap (known_address (self foo_state))
         (Py.splitlines two_function_output))
      (collected foo_state two_function_output).2.
Proof.
  apply (disassembly_initializes_per_header (printing two_function_output)
           (addInstructions "init") foo_state two_function_output).
  reflexivity.
Defined.

(** The symbol [foo] has two header lines in the disassembly: it is
    initialized twice. *)
Example foo_initialized_twice :
  instruction_lines
    (deref (heap (world (state_of
       (Binary._gatherSymbolInstructions (printing two_function_output)
          (addInstructions "init") foo_state)))) 0)
  = ["...ED_SOURCE_START...int foo() {...ED_SOURCE_END...";
     "push   %rbp"; "ret"; "init"; "init"].
Proof. vm_compute. reflexivity. Qed.

(** ** Numbers in the dump *)


Section Numbers.

Import Binary._DebugInformationCollector.






End Numbers.






(** ** Listings that are read to the end *)





(** ** Constructions that return *)

Section Returns.

Variable env : Env.
Variable symbol_init : Symbol → Symbol.







End Returns.



(** ** The location a record gives to its symbol *)

Section Record.

Import Binary._DebugInformationCollector.








End Record.



(** The record gives no declaring file and two columns: the source id
    the symbol had is gone and the later column is written. *)
Example record_overwrites_location :
  let s := state_of (Binary._gatherDebugInformation
             (printing
                (" <1><2d>: Abbrev Number: 2 (DW_TAG_subprogram)"
                 +:+ newline
                 +:+ fold_right (fun line out => line +:+ newline +:+ out)
                       "" record_lines))
             located_foo_state) in
  (fun x => (source_id x, source_line x, source_column x))
    <$> heap (world s)
  = [(PyNone, Some 7%Z, Some 9%Z)].
Proof. vm_compute. reflexivity. Qed.
